(** * Login rate limiter of the expense tracker API

    A shallow embedding of the brute-force protection of [main.py]:
    [log_login_attempt], [is_user_blocked], [get_block_remaining_time] and
    the two endpoints that use them, [login] (POST /login) and
    [login_for_access_token] (POST /token), together with the parts of
    [models.py], [crud.py] and [auth.py] they call.

    Conventions of the embedding.
    - A [datetime] is the number of microseconds on the UTC time line (the
      resolution of Python's [datetime]); a [timedelta] is a number of
      microseconds.  Both are [Z].
    - [datetime.utcnow()] is an effect.  The state carries the sequence of
      values the clock will return ([clock]) and the number of readings taken
      so far ([reads]); every call of [utcnow] consumes one reading.  A call
      of [is_user_blocked] that reaches the 30-minute test therefore sees two
      readings, as the source does.
    - The SQLAlchemy session is the pair of tables [users] and
      [login_attempts]; rows are kept in insertion order.  [db.add] followed
      by [db.commit] appends a row.  Failures of the database itself are not
      modelled.
    - [pwd_context.verify] and [jwt.encode] are opaque: they are parameters
      of the development.  [pwd_context.verify] may raise instead of
      returning (passlib refuses some inputs, a password holding a NUL byte
      for one); the [except Exception] arms of the endpoints turn that into
      an HTTP 500 answer. *)

From Stdlib Require Import ZArith List String Ascii Bool Lia DecimalString.
From Stdlib Require Import Permutation Sorted.
Import ListNotations.
Open Scope Z_scope.

(** ** Time: [datetime] and [timedelta] *)

Module Time.

Definition datetime := Z.
Definition timedelta := Z.

(** [timedelta(seconds=n)], [timedelta(minutes=n)], [timedelta(hours=n)]. *)
Definition seconds (n : Z) : timedelta := n * 1000000.
Definition minutes (n : Z) : timedelta := seconds (60 * n).
Definition hours (n : Z) : timedelta := minutes (60 * n).

(** [int(d.total_seconds())]: [total_seconds] divides the microseconds by
    [10**6] and [int] truncates toward zero.  The float division is exact
    enough for the truncation to be the integer one whenever the duration
    is below [2**32] seconds. *)
Definition int_total_seconds (d : timedelta) : Z := Z.quot d 1000000.

End Time.
Import Time.

(** ** models.py *)

Module models.

Module User.
Record t := mk {
  id : Z;
  username : string;
  email : string;
  hashed_password : string
}.
End User.

(** [success] is an Integer column: 0 = failed, 1 = success.
    [ip_address] is nullable. *)
Module LoginAttempt.
Record t := mk {
  id : Z;
  username : string;
  ip_address : option string;
  success : Z;
  timestamp : datetime
}.
End LoginAttempt.

End models.
Import models.

(** ** The state the endpoints run in *)

Record World := mkWorld {
  users : list User.t;
  login_attempts : list LoginAttempt.t;
  login_attempts_id_seq : Z;      (* last value of the auto-increment key *)
  clock : nat -> datetime;        (* successive results of [datetime.utcnow()] *)
  reads : nat                     (* readings taken so far *)
}.

Definition with_login_attempts (rows : list LoginAttempt.t) (w : World) : World :=
  mkWorld (users w) rows (login_attempts_id_seq w) (clock w) (reads w).

(** The next two clock readings of a world. *)
Definition now1 (w : World) : datetime := clock w (reads w).
Definition now2 (w : World) : datetime := clock w (S (reads w)).

(** A world whose clock stands still at [now]. *)
Definition at_instant (now : datetime) (us : list User.t)
    (rows : list LoginAttempt.t) : World :=
  mkWorld us rows (Z.of_nat (List.length rows)) (fun _ => now) 0.

(** ** A state and exception monad *)

Record HTTPException := mkHTTPException {
  status_code : Z;
  detail : string;
  headers : list (string * string)
}.

(** What a call ends in: a value, an [HTTPException], or another Python
    exception (which one is never inspected by the code). *)
Inductive Outcome (A : Type) : Type :=
| Returned (a : A)
| Raised (e : HTTPException)
| Errored.
Arguments Returned {A} a.
Arguments Raised {A} e.
Arguments Errored {A}.

Definition M (A : Type) : Type := World -> Outcome A * World.

Definition ret {A} (a : A) : M A := fun w => (Returned a, w).

Definition raise {A} (e : HTTPException) : M A := fun w => (Raised e, w).

Definition bind {A B} (c : M A) (k : A -> M B) : M B :=
  fun w =>
    match c w with
    | (Returned a, w') => k a w'
    | (Raised e, w') => (Raised e, w')
    | (Errored, w') => (Errored, w')
    end.

Definition HTTP_500_INTERNAL_SERVER_ERROR : Z := 500.

(** [try: body except HTTPException: raise except Exception: raise
    HTTPException(status_code=500, detail=detail)]. *)
Definition except_Exception {A} (detail : string) (body : M A) : M A :=
  fun w =>
    match body w with
    | (Returned a, w') => (Returned a, w')
    | (Raised e, w') => (Raised e, w')
    | (Errored, w') =>
        (Raised (mkHTTPException HTTP_500_INTERNAL_SERVER_ERROR detail []), w')
    end.

Notation "x <- c ;; k" := (bind c (fun x => k))
  (at level 61, c at next level, right associativity).
Notation "c ;;; k" := (bind c (fun _ => k))
  (at level 61, right associativity).

(** The value and the final state of a computation. *)
Definition result {A} (c : M A) (w : World) : Outcome A := fst (c w).
Definition exec {A} (c : M A) (w : World) : World := snd (c w).

(** [datetime.utcnow()]: the next reading of the clock. *)
Definition tick (w : World) : World :=
  mkWorld (users w) (login_attempts w) (login_attempts_id_seq w)
          (clock w) (S (reads w)).

Definition utcnow : M datetime :=
  fun w => (Returned (clock w (reads w)), tick w).

(** [db.query(models.LoginAttempt)] and [db.query(models.User)]. *)
Definition query_LoginAttempt : M (list LoginAttempt.t) :=
  fun w => (Returned (login_attempts w), w).

Definition query_User : M (list User.t) :=
  fun w => (Returned (users w), w).

(** [db.add(models.LoginAttempt(...)); db.commit()]: the key comes from the
    table's sequence, the row goes to the end of the table. *)
Definition add_LoginAttempt (username : string) (ip_address : option string)
    (success : Z) (timestamp : datetime) : M unit :=
  fun w =>
    let new_id := login_attempts_id_seq w + 1 in
    (Returned tt,
     mkWorld (users w)
             (login_attempts w ++
                [LoginAttempt.mk new_id username ip_address success timestamp])
             new_id (clock w) (reads w)).

(** ** Query combinators *)

Module Query.

Definition count {A} (q : list A) : nat := List.length q.

(** [order_by(models.LoginAttempt.timestamp.asc())], as a stable insertion
    sort.  Which of several rows with the same timestamp comes first is
    left open by SQL; the callers read only the timestamp of the result. *)
Fixpoint insert_by_timestamp (a : LoginAttempt.t) (q : list LoginAttempt.t)
    : list LoginAttempt.t :=
  match q with
  | [] => [a]
  | b :: q' =>
      if LoginAttempt.timestamp a <=? LoginAttempt.timestamp b
      then a :: b :: q'
      else b :: insert_by_timestamp a q'
  end.

Definition order_by_timestamp_asc (q : list LoginAttempt.t)
    : list LoginAttempt.t :=
  fold_right insert_by_timestamp [] q.

Definition limit {A} (n : nat) (q : list A) : list A := firstn n q.

Definition first {A} (q : list A) : option A := hd_error q.

End Query.

(** ** main.py: the rate limiting functions *)

(** The filter shared by the three queries:
    [username == username, success == 0, timestamp >= since]. *)
Definition failed_since (username : string) (since : datetime)
    (a : LoginAttempt.t) : bool :=
  String.eqb (LoginAttempt.username a) username
  && (LoginAttempt.success a =? 0)
  && (since <=? LoginAttempt.timestamp a).

(** [log_login_attempt(db, username, ip_address, success)]. *)
Definition log_login_attempt (username : string) (ip_address : option string)
    (success : bool) : M unit :=
  now <- utcnow ;;
  add_LoginAttempt username ip_address (if success then 1 else 0) now.

(** [is_user_blocked(db, username)]. *)
Definition is_user_blocked (username : string) : M bool :=
  now <- utcnow ;;
  let one_minute_ago := now - minutes 1 in
  q <- query_LoginAttempt ;;
  let failed_attempts :=
    Query.count (filter (failed_since username one_minute_ago) q) in
  if (5 <=? failed_attempts)%nat then
    now' <- utcnow ;;
    let thirty_minutes_ago := now' - minutes 30 in
    q' <- query_LoginAttempt ;;
    let fifth_attempt :=
      Query.first (Query.limit 1 (Query.order_by_timestamp_asc
        (filter (failed_since username one_minute_ago) q'))) in
    match fifth_attempt with
    | Some a =>
        if thirty_minutes_ago <=? LoginAttempt.timestamp a
        then ret true
        else ret false
    | None => ret false
    end
  else ret false.

(** [get_block_remaining_time(db, username)]. *)
Definition get_block_remaining_time (username : string) : M Z :=
  now <- utcnow ;;
  let one_minute_ago := now - minutes 1 in
  q <- query_LoginAttempt ;;
  let fifth_attempt :=
    Query.first (Query.limit 1 (Query.order_by_timestamp_asc
      (filter (failed_since username one_minute_ago) q))) in
  match fifth_attempt with
  | Some a =>
      let block_end := LoginAttempt.timestamp a + minutes 30 in
      now' <- utcnow ;;
      let remaining := block_end - now' in
      ret (Z.max 0 (int_total_seconds remaining))
  | None => ret 0
  end.

(** ** crud.py and auth.py *)

Module crud.

(** [db.query(models.User).filter(models.User.username == username).first()] *)
Definition get_user_by_username (username : string) : M (option User.t) :=
  q <- query_User ;;
  ret (Query.first
         (filter (fun u => String.eqb (User.username u) username) q)).

End crud.

Module auth.

Definition get_user (username : string) : M (option User.t) :=
  q <- query_User ;;
  ret (Query.first
         (filter (fun u => String.eqb (User.username u) username) q)).

(** [verify_password(plain_password, hashed_password)], given passlib's
    [pwd_context.verify] ([Some b] when it returns [b], [None] when it
    raises): an exception of [pwd_context.verify] goes through. *)
Definition verify_password (pwd_context_verify : string -> string -> option bool)
    (plain_password hashed_password : string) : M bool :=
  fun w =>
    match pwd_context_verify plain_password hashed_password with
    | Some b => (Returned b, w)
    | None => (Errored, w)
    end.

End auth.

(** ** HTTP requests and responses *)

(** What the endpoints read of a request: [request.client.host] when
    [request.client] is present, and the two fields of the OAuth2 form. *)
Record Request := mkRequest {
  client_host : option string;
  form_username : string;
  form_password : string
}.

(** The body of a 200 response, [schemas.Token]. *)
Record Token := mkToken {
  access_token : string;
  token_type : string
}.

(** [str(n)] for a Python [int]. *)
Definition str (n : Z) : string := NilZero.string_of_int (Z.to_int n).

Definition HTTP_401_UNAUTHORIZED : Z := 401.
Definition HTTP_429_TOO_MANY_REQUESTS : Z := 429.

Definition bearer_headers : list (string * string) :=
  [("WWW-Authenticate", "Bearer")]%string.

(** The f-string of the 429 response. *)
Definition blocked_detail (remaining_time : Z) : string :=
  ("Account temporarily blocked due to too many failed login attempts. Please try again in "
   ++ str (remaining_time / 60) ++ " minutes and "
   ++ str (remaining_time mod 60) ++ " seconds.")%string.

Definition blocked_exception (remaining_time : Z) : HTTPException :=
  mkHTTPException HTTP_429_TOO_MANY_REQUESTS (blocked_detail remaining_time)
    bearer_headers.

Definition unauthorized_exception : HTTPException :=
  mkHTTPException HTTP_401_UNAUTHORIZED "Incorrect username or password"
    bearer_headers.

Section Endpoints.

(** [pwd_context.verify(plain_password, hashed_password)] of passlib:
    [Some b] when it returns [b], [None] when it raises. *)
Variable verify_password : string -> string -> option bool.

(** What [create_access_token] does with the subject, [expire] and [now]
    once it has them (auth.py 60-66): [jwt.encode] of python-jose applied
    to the claims [sub], [exp], [iat] and [nbf] it builds from them (with
    [SECRET_KEY] and [ALGORITHM]).  [encode_claims] below spells out how
    the claims are built. *)
Variable jwt_encode : string -> datetime -> datetime -> string.

(** [auth.authenticate_user]: the user, or [False] (here [None]). *)
Definition authenticate_user (username password : string)
    : M (option User.t) :=
  user <- auth.get_user username ;;
  match user with
  | None => ret None
  | Some u =>
      verified <- auth.verify_password verify_password password
                    (User.hashed_password u) ;;
      if negb verified
      then ret None
      else ret (Some u)
  end.

(** [auth.create_access_token(data={"sub": sub}, expires_delta)]. *)
Definition create_access_token (sub : string) (expires_delta : timedelta)
    : M string :=
  now <- utcnow ;;
  let expire := now + expires_delta in
  ret (jwt_encode sub expire now).

Definition client_ip_of (request : Request) : string :=
  match client_host request with
  | Some host => host
  | None => "unknown"%string
  end.

(** POST /login.  The [try] block re-raises every [HTTPException] and
    answers any other exception with HTTP 500. *)
Definition login (request : Request) : M Token :=
  except_Exception "An error occurred during login. Please try again later." (
  let client_ip := client_ip_of request in
  blocked <- is_user_blocked (form_username request) ;;
  if blocked then
    remaining_time <- get_block_remaining_time (form_username request) ;;
    raise (blocked_exception remaining_time)
  else
    db_user <- crud.get_user_by_username (form_username request) ;;
    match db_user with
    | None =>
        log_login_attempt (form_username request) (Some client_ip) false ;;;
        raise unauthorized_exception
    | Some _ =>
        user <- authenticate_user (form_username request)
                  (form_password request) ;;
        match user with
        | None =>
            log_login_attempt (form_username request) (Some client_ip)
              false ;;;
            raise unauthorized_exception
        | Some u =>
            log_login_attempt (form_username request) (Some client_ip)
              true ;;;
            let access_token_expires := hours 24 in
            access_token <- create_access_token (User.username u)
                              access_token_expires ;;
            ret (mkToken access_token "bearer")
        end
    end).

(** POST /token. *)
Definition login_for_access_token (request : Request) : M Token :=
  except_Exception
    "An error occurred during token creation. Please try again later." (
  let client_ip := client_ip_of request in
  blocked <- is_user_blocked (form_username request) ;;
  if blocked then
    remaining_time <- get_block_remaining_time (form_username request) ;;
    raise (blocked_exception remaining_time)
  else
    user <- authenticate_user (form_username request)
              (form_password request) ;;
    match user with
    | None =>
        log_login_attempt (form_username request) (Some client_ip) false ;;;
        raise unauthorized_exception
    | Some u =>
        log_login_attempt (form_username request) (Some client_ip) true ;;;
        let access_token_expires := hours 24 in
        access_token <- create_access_token (User.username u)
                          access_token_expires ;;
        ret (mkToken access_token "bearer")
    end).

End Endpoints.

(** ** Sequences of requests *)

Inductive Endpoint : Type := LoginEndpoint | TokenEndpoint.

(** The [detail] of the HTTP 500 answer of each endpoint. *)
Definition internal_error_detail (e : Endpoint) : string :=
  match e with
  | LoginEndpoint =>
      "An error occurred during login. Please try again later."
  | TokenEndpoint =>
      "An error occurred during token creation. Please try again later."
  end.

Definition internal_error (e : Endpoint) : HTTPException :=
  mkHTTPException HTTP_500_INTERNAL_SERVER_ERROR (internal_error_detail e) [].

(** What [create_access_token] does between [expire = now + expires_delta]
    and the return (auth.py 60-66): the claims [exp], [iat] and [nbf] are
    [int(expire.timestamp())], [int(now.timestamp())] and
    [int(now.timestamp())], and the token is [jwt.encode] of them and
    [sub].  [expire] and [now] are naive datetimes, which [timestamp] reads
    in the local time zone of the server: [timestamp] stands for that
    reading followed by [int], and [jose_encode sub exp iat nbf] for
    [jwt.encode] on the four claims. *)
Definition encode_claims (timestamp : datetime -> Z)
    (jose_encode : string -> Z -> Z -> Z -> string)
    (sub : string) (expire now : datetime) : string :=
  jose_encode sub (timestamp expire) (timestamp now) (timestamp now).

Definition serve (verify_password : string -> string -> option bool)
    (jwt_encode : string -> datetime -> datetime -> string)
    (e : Endpoint) (request : Request) : M Token :=
  match e with
  | LoginEndpoint => login verify_password jwt_encode request
  | TokenEndpoint => login_for_access_token verify_password jwt_encode request
  end.

(** The status code of the response; an exception that is not an
    [HTTPException] is answered 500 by the server. *)
Definition status_of (o : Outcome Token) : Z :=
  match o with
  | Returned _ => 200
  | Raised e => status_code e
  | Errored => 500
  end.

(** Requests handled one after the other; the status codes of the answers
    and the final state. *)
Fixpoint serve_all (verify_password : string -> string -> option bool)
    (jwt_encode : string -> datetime -> datetime -> string)
    (calls : list (Endpoint * Request)) (w : World) : list Z * World :=
  match calls with
  | [] => ([], w)
  | (e, request) :: calls' =>
      let (o, w') := serve verify_password jwt_encode e request w in
      let (statuses, w'') :=
        serve_all verify_password jwt_encode calls' w' in
      (status_of o :: statuses, w'')
  end.

(** * Vocabulary of the statements *)

(** ** The two read shapes of the limiter *)

(** The rows selected by the filter of the limiter's queries. *)
Definition failed_attempts_since (rows : list LoginAttempt.t)
    (username : string) (since : datetime) : list LoginAttempt.t :=
  filter (failed_since username since) rows.

Definition count_failed_since (rows : list LoginAttempt.t)
    (username : string) (since : datetime) : nat :=
  Query.count (failed_attempts_since rows username since).
Arguments count_failed_since rows username%_string since%_Z.

Definition earliest_failed_since (rows : list LoginAttempt.t)
    (username : string) (since : datetime) : option LoginAttempt.t :=
  Query.first (Query.limit 1 (Query.order_by_timestamp_asc
    (failed_attempts_since rows username since))).

(** [a] is an earliest failed attempt of [username] at or after [since]:
    a selected row whose timestamp no selected row precedes. *)
Definition earliest_failed (rows : list LoginAttempt.t) (username : string)
    (since : datetime) (a : LoginAttempt.t) : Prop :=
  In a rows /\ failed_since username since a = true /\
  forall b, In b rows -> failed_since username since b = true ->
            LoginAttempt.timestamp a <= LoginAttempt.timestamp b.

(** The simpler decision the limiter is compared with: at least five failed
    attempts in the minute before [now]. *)
Definition is_blocked_by_count (rows : list LoginAttempt.t)
    (username : string) (now : datetime) : bool :=
  (5 <=? count_failed_since rows username (now - minutes 1))%nat.

(** ** Sample data *)

Definition failure (id : Z) (username : string) (t : datetime)
    : LoginAttempt.t :=
  LoginAttempt.mk id username (Some "127.0.0.1"%string) 0 t.

Definition successful (id : Z) (username : string) (t : datetime)
    : LoginAttempt.t :=
  LoginAttempt.mk id username (Some "127.0.0.1"%string) 1 t.

(** Five failures of alice, ten seconds apart. *)
Definition alice_five : list LoginAttempt.t :=
  [failure 1 "alice" (seconds 0); failure 2 "alice" (seconds 10);
   failure 3 "alice" (seconds 20); failure 4 "alice" (seconds 30);
   failure 5 "alice" (seconds 40)].

(** Two failures of alice, fifty seconds apart. *)
Definition alice_two : list LoginAttempt.t :=
  [failure 1 "alice" (seconds 0); failure 2 "alice" (seconds 50)].

(** A stand-in for passlib and python-jose in the examples: the stored hash
    is the password itself, the token is the subject. *)
Definition plain_verify (plain_password hashed_password : string)
    : option bool :=
  Some (String.eqb plain_password hashed_password).

Definition plain_encode (sub : string) (expire now : datetime) : string := sub.

Definition carol : User.t :=
  User.mk 1 "carol" "carol@example.com" "secret".

(** A clock that advances one second per reading. *)
Definition ticking_clock (i : nat) : datetime := seconds (Z.of_nat i).

Definition carol_world : World := mkWorld [carol] [] 0 ticking_clock 0.

Definition carol_guess : Request :=
  mkRequest (Some "10.0.0.7"%string) "carol" "guess".

Definition carol_secret : Request :=
  mkRequest (Some "10.0.0.7"%string) "carol" "secret".

(** Three wrong passwords on /login, then two on /token. *)
Definition carol_calls : list (Endpoint * Request) :=
  [(LoginEndpoint, carol_guess); (LoginEndpoint, carol_guess);
   (LoginEndpoint, carol_guess); (TokenEndpoint, carol_guess);
   (TokenEndpoint, carol_guess)].

(** * The rest of the API: the current user, registration, expenses *)

Definition with_users (us : list User.t) (w : World) : World :=
  mkWorld us (login_attempts w) (login_attempts_id_seq w) (clock w) (reads w).

(** ** auth.py: the user of a token *)

(** [schemas.User], the public view of a user, and [schemas.UserCreate]. *)
Module schemas.

Module User.
Record t := mk {
  id : Z;
  email : string;
  username : string
}.
End User.

Module UserCreate.
Record t := mk {
  email : string;
  username : string;
  password : string
}.
End UserCreate.

End schemas.

Definition HTTP_404_NOT_FOUND : Z := 404.

Section CurrentUser.

(** [jwt.decode(token, SECRET_KEY, algorithms=[ALGORITHM], ...)] of
    python-jose at the time of the call: either a [JWTError] with its
    message (bad signature, expired, malformed claims) or the payload, of
    which the code reads the claim [sub], a string when present. *)
Variable jwt_decode : string -> string + option string.

(** [auth.get_current_user(token, db)].  Inside the [try] only
    [HTTPException]s arise, so the arm for other exceptions is not
    reached. *)
Definition get_current_user (token : string) : M User.t :=
  match jwt_decode token with
  | inl e =>
      raise (mkHTTPException HTTP_401_UNAUTHORIZED
               ("Invalid token: " ++ e) bearer_headers)
  | inr payload =>
      let username := payload in
      match username with
      | None | Some EmptyString =>
          raise (mkHTTPException HTTP_401_UNAUTHORIZED
                   "Invalid token: Missing 'sub' claim" bearer_headers)
      | Some token_data_username =>
          user <- auth.get_user token_data_username ;;
          match user with
          | None =>
              raise (mkHTTPException HTTP_404_NOT_FOUND "User not found" [])
          | Some u => ret u
          end
      end
  end.

(** [auth.get_current_active_user]: every user is active. *)
Definition get_current_active_user (token : string) : M User.t :=
  current_user <- get_current_user token ;;
  ret current_user.

End CurrentUser.

(** GET /users/me/, given the user the dependency resolved. *)
Definition read_users_me (current_user : User.t) : M schemas.User.t :=
  ret (schemas.User.mk (User.id current_user) (User.email current_user)
         (User.username current_user)).

(** ** models.py: categories and expenses *)

(** A Python [float], an IEEE 754 binary64 value, kept by its 64 bits: the
    API stores and returns amounts and never computes with them. *)
Record float64 := mk_float64 { float_bits : Z }.

(** A [datetime.date], by its ordinal. *)
Definition date := Z.

Module Category.
Record t := mk {
  id : Z;
  name : string;
  description : option string;
  owner_id : option Z
}.
End Category.

Module Expense.
Record t := mk {
  id : Z;
  amount : float64;
  description : option string;
  date : date;
  category_id : option Z;
  owner_id : option Z
}.
End Expense.

(** [schemas.ExpenseCreate], the body of PUT /expenses/{expense_id}. *)
Module ExpenseCreate.
Record t := mk {
  amount : float64;
  description : option string;
  date : date;
  category_id : option Z
}.
End ExpenseCreate.

(** ** The whole state and its monad *)

(** The tables of [models.py] with their key sequences, the clock (in
    [world]) and the salts passlib will draw. *)
Record Backend := mkBackend {
  world : World;
  users_id_seq : Z;
  categories : list Category.t;
  categories_id_seq : Z;
  expenses : list Expense.t;
  expenses_id_seq : Z;
  salts : nat -> string;
  salts_used : nat
}.

Definition with_world (w : World) (s : Backend) : Backend :=
  mkBackend w (users_id_seq s) (categories s) (categories_id_seq s)
    (expenses s) (expenses_id_seq s) (salts s) (salts_used s).

Definition with_users_id_seq (n : Z) (s : Backend) : Backend :=
  mkBackend (world s) n (categories s) (categories_id_seq s)
    (expenses s) (expenses_id_seq s) (salts s) (salts_used s).

Definition with_categories (cs : list Category.t) (n : Z) (s : Backend)
    : Backend :=
  mkBackend (world s) (users_id_seq s) cs n
    (expenses s) (expenses_id_seq s) (salts s) (salts_used s).

Definition with_expenses (xs : list Expense.t) (n : Z) (s : Backend)
    : Backend :=
  mkBackend (world s) (users_id_seq s) (categories s) (categories_id_seq s)
    xs n (salts s) (salts_used s).

Definition salt_drawn (s : Backend) : Backend :=
  mkBackend (world s) (users_id_seq s) (categories s) (categories_id_seq s)
    (expenses s) (expenses_id_seq s) (salts s) (S (salts_used s)).

(** The exceptions that arise in the functions below; [OtherError] is what
    passlib raises when it refuses an input. *)
Inductive Exception : Type :=
| HTTP (e : HTTPException)
| AttributeError (msg : string)
| UnmappedInstanceError
| IntegrityError
| DataError
| OtherError.

Inductive Answer (A : Type) : Type :=
| Ok (a : A)
| Fail (x : Exception).
Arguments Ok {A} a.
Arguments Fail {A} x.

Definition B (A : Type) : Type := Backend -> Answer A * Backend.

Definition retB {A} (a : A) : B A := fun s => (Ok a, s).

Definition raiseB {A} (x : Exception) : B A := fun s => (Fail x, s).

Definition bindB {A C} (c : B A) (k : A -> B C) : B C :=
  fun s =>
    match c s with
    | (Ok a, s') => k a s'
    | (Fail x, s') => (Fail x, s')
    end.

Notation "x <~ c ;; k" := (bindB c (fun x => k))
  (at level 61, c at next level, right associativity).

(** A computation on the users, the log and the clock, run on the whole
    state. *)
Definition lift {A} (c : M A) : B A :=
  fun s =>
    match c (world s) with
    | (Returned a, w') => (Ok a, with_world w' s)
    | (Raised e, w') => (Fail (HTTP e), with_world w' s)
    | (Errored, w') => (Fail OtherError, with_world w' s)
    end.

(** [try: body; except HTTPException: raise; except Exception: raise
    HTTPException(status_code=500, detail=detail)]. *)
Definition try_or_500 {A} (detail : string) (body : B A) : B A :=
  fun s =>
    match body s with
    | (Ok a, s') => (Ok a, s')
    | (Fail (HTTP e), s') => (Fail (HTTP e), s')
    | (Fail _, s') =>
        (Fail (HTTP (mkHTTPException HTTP_500_INTERNAL_SERVER_ERROR
                       detail [])), s')
    end.

Definition answer {A} (c : B A) (s : Backend) : Answer A := fst (c s).
Definition after {A} (c : B A) (s : Backend) : Backend := snd (c s).

(** ** crud.py and main.py: registration *)

(** [db.query(models.User).filter(models.User.email == email).first()] *)
Definition crud_get_user_by_email (email : string) : M (option User.t) :=
  q <- query_User ;;
  ret (Query.first (filter (fun u => String.eqb (User.email u) email) q)).

Section Registration.

(** [pwd_context.hash(password)] of passlib with the salt it draws:
    [Some h] when it returns the hash [h], [None] when it raises (passlib
    refuses some passwords, one holding a NUL byte for example). *)
Variable hash_password : string -> string -> option string.

(** [auth.get_password_hash(password)]: an exception of [pwd_context.hash]
    goes through. *)
Definition get_password_hash (password : string) : B string :=
  fun s =>
    match hash_password password (salts s (salts_used s)) with
    | Some h => (Ok h, salt_drawn s)
    | None => (Fail OtherError, salt_drawn s)
    end.

(** [db.add(db_user); db.commit(); db.refresh(db_user)] for a
    [models.User].  [username] and [email] are unique columns: a row that
    repeats one of them is refused with an IntegrityError (the key drawn
    for it is lost, as in PostgreSQL); otherwise the row goes to the end of
    the table with the next key. *)
Definition add_User (email username hashed_password : string) : B User.t :=
  fun s =>
    let new_id := users_id_seq s + 1 in
    let w := world s in
    if existsb (fun u => String.eqb (User.username u) username
                         || String.eqb (User.email u) email) (users w)
    then (Fail IntegrityError, with_users_id_seq new_id s)
    else
      let db_user := User.mk new_id username email hashed_password in
      (Ok db_user,
       with_users_id_seq new_id
         (with_world (with_users (users w ++ [db_user]) w) s)).

(** [crud.create_user(db, user)]: the new row, or [None] after a rollback
    when anything was raised. *)
Definition create_user (user : schemas.UserCreate.t) : B (option User.t) :=
  fun s =>
    match (hashed_password <~
             get_password_hash (schemas.UserCreate.password user) ;;
           add_User (schemas.UserCreate.email user)
             (schemas.UserCreate.username user) hashed_password) s with
    | (Ok db_user, s') => (Ok (Some db_user), s')
    | (Fail _, s') => (Ok None, s')
    end.

(** POST /signup. *)
Definition signup (user : schemas.UserCreate.t) : B schemas.User.t :=
  db_user <~ lift (crud_get_user_by_email (schemas.UserCreate.email user)) ;;
  match db_user with
  | Some _ =>
      raiseB (HTTP (mkHTTPException 400 "Email already registered" []))
  | None =>
      db_user_by_username <~
        lift (crud.get_user_by_username (schemas.UserCreate.username user)) ;;
      match db_user_by_username with
      | Some _ =>
          raiseB (HTTP (mkHTTPException 400 "Username already taken" []))
      | None =>
          db_user <~ create_user user ;;
          match db_user with
          | None =>
              raiseB (HTTP (mkHTTPException 500 "Failed to create user" []))
          | Some u =>
              retB (schemas.User.mk (User.id u) (User.email u)
                      (User.username u))
          end
      end
  end.

End Registration.

(** ** crud.py and main.py: expenses and categories *)

(** [db.query(models.Expense).filter(models.Expense.id == expense_id).first()] *)
Definition crud_get_expense (expense_id : Z) : B (option Expense.t) :=
  fun s =>
    (Ok (Query.first (filter (fun x => Expense.id x =? expense_id)
                        (expenses s))), s).

(** [column == user_id] on a nullable integer column. *)
Definition owned_by (user_id : Z) (owner_id : option Z) : bool :=
  match owner_id with
  | Some o => o =? user_id
  | None => false
  end.

(** [.offset(skip).limit(limit).all()]; PostgreSQL refuses a negative
    OFFSET or LIMIT, and one that is no 64-bit integer. *)
Definition offset_limit_all {A} (skip limit : Z) (q : list A) : B (list A) :=
  if (skip <? 0) || (limit <? 0) || (2 ^ 63 <=? skip) || (2 ^ 63 <=? limit)
  then raiseB DataError
  else retB (Query.limit (Z.to_nat limit) (skipn (Z.to_nat skip) q)).

(** [crud.get_user_expenses(db, user_id, skip, limit)] *)
Definition crud_get_user_expenses (user_id skip limit : Z)
    : B (list Expense.t) :=
  fun s =>
    offset_limit_all skip limit
      (filter (fun x => owned_by user_id (Expense.owner_id x)) (expenses s))
      s.

(** [crud.get_user_categories(db, user_id, skip, limit)] *)
Definition crud_get_user_categories (user_id skip limit : Z)
    : B (list Category.t) :=
  fun s =>
    offset_limit_all skip limit
      (filter (fun c => owned_by user_id (Category.owner_id c))
         (categories s))
      s.

(** The functions [read_expenses] and [read_categories] of [main.py],
    given the current user; [skip] defaults to 0 and [limit] to 100.  These
    are the functions as Python calls them, not the routes GET /expenses/
    and GET /categories/ that FastAPI builds around them: a route checks
    what its function returns against the [response_model], which is not
    part of the function. *)
Definition read_expenses (skip limit : Z) (current_user : User.t)
    : B (list Expense.t) :=
  expenses <~ crud_get_user_expenses (User.id current_user) skip limit ;;
  retB expenses.

Definition read_categories (skip limit : Z) (current_user : User.t)
    : B (list Category.t) :=
  categories <~ crud_get_user_categories (User.id current_user) skip limit ;;
  retB categories.

(** [expense.user_id] on a [models.Expense]: the class declares [id],
    [amount], [description], [date], [category_id], [owner_id], [category]
    and [owner], and no [user_id]; reading it raises AttributeError. *)
Definition Expense_user_id (x : Expense.t) : B Z :=
  raiseB (AttributeError "'Expense' object has no attribute 'user_id'").

Definition expense_not_found (expense_id : Z) : string :=
  ("Expense with ID " ++ str expense_id
   ++ " not found. Please check if the expense exists and you have permission to access it.")%string.

Definition expense_of_another_user (expense_id : Z) : string :=
  ("Access denied. Expense " ++ str expense_id
   ++ " belongs to another user. You can only access your own expenses.")%string.

Definition expense_retrieval_failed (expense_id : Z) : string :=
  ("An error occurred while retrieving expense " ++ str expense_id
   ++ ". Please try again later or contact support if the issue persists.")%string.

(** GET /expenses/{expense_id}, given the current user. *)
Definition read_expense (expense_id : Z) (current_user : User.t)
    : B Expense.t :=
  try_or_500 (expense_retrieval_failed expense_id)
    (expense <~ crud_get_expense expense_id ;;
     match expense with
     | None =>
         raiseB (HTTP (mkHTTPException 404 (expense_not_found expense_id) []))
     | Some x =>
         user_id <~ Expense_user_id x ;;
         if negb (user_id =? User.id current_user) then
           raiseB (HTTP (mkHTTPException 403
                           (expense_of_another_user expense_id) []))
         else retB x
     end).

Section ExpenseWrites.

(** [crud.update_expense] and [crud.delete_expense]: what they do is left
    open; the properties below hold of the endpoints whatever it is. *)
Variable crud_update_expense : Z -> ExpenseCreate.t -> B Expense.t.
Variable crud_delete_expense : Z -> B unit.

(** PUT /expenses/{expense_id}, given the current user. *)
Definition update_expense (expense_id : Z) (expense : ExpenseCreate.t)
    (current_user : User.t) : B Expense.t :=
  try_or_500
    ("An error occurred while updating expense " ++ str expense_id
     ++ ". Please try again later or contact support if the issue persists.")
    (db_expense <~ crud_get_expense expense_id ;;
     match db_expense with
     | None =>
         raiseB (HTTP (mkHTTPException 404
           ("Cannot update expense " ++ str expense_id
            ++ " - expense not found. Please verify the expense ID exists.")
           []))
     | Some x =>
         user_id <~ Expense_user_id x ;;
         if negb (user_id =? User.id current_user) then
           raiseB (HTTP (mkHTTPException 403
             ("Update denied. Expense " ++ str expense_id
              ++ " belongs to another user. You can only update your own expenses.")
             []))
         else
           updated_expense <~ crud_update_expense expense_id expense ;;
           retB updated_expense
     end).

(** DELETE /expenses/{expense_id}, given the current user. *)
Definition delete_expense (expense_id : Z) (current_user : User.t) : B unit :=
  try_or_500
    ("An error occurred while deleting expense " ++ str expense_id
     ++ ". Please try again later or contact support if the issue persists.")
    (db_expense <~ crud_get_expense expense_id ;;
     match db_expense with
     | None =>
         raiseB (HTTP (mkHTTPException 404
           ("Cannot delete expense " ++ str expense_id
            ++ " - expense not found. Please verify the expense ID exists.")
           []))
     | Some x =>
         user_id <~ Expense_user_id x ;;
         if negb (user_id =? User.id current_user) then
           raiseB (HTTP (mkHTTPException 403
             ("Delete denied. Expense " ++ str expense_id
              ++ " belongs to another user. You can only delete your own expenses.")
             []))
         else
           crud_delete_expense expense_id
     end).

End ExpenseWrites.

(** ** crud.py and main.py: writing categories and expenses *)

(** [schemas.CategoryCreate], the body of POST /categories/. *)
Module CategoryCreate.
Record t := mk {
  name : string;
  description : option string
}.
End CategoryCreate.

(** The foreign keys of [models.py]: [owner_id] refers to [users.id] and
    [category_id] to [categories.id]; NULL refers to nothing. *)
Definition user_exists (user_id : Z) (s : Backend) : bool :=
  existsb (fun u => User.id u =? user_id) (users (world s)).

Definition category_exists (category_id : option Z) (s : Backend) : bool :=
  match category_id with
  | None => true
  | Some c => existsb (fun k => Category.id k =? c) (categories s)
  end.

(** [db.add(db_category); db.commit(); db.refresh(db_category)]: the row
    takes the next key; a row whose owner is no user is refused. *)
Definition add_Category (name : string) (description : option string)
    (owner_id : Z) : B Category.t :=
  fun s =>
    let new_id := categories_id_seq s + 1 in
    if user_exists owner_id s then
      let db_category := Category.mk new_id name description (Some owner_id) in
      (Ok db_category,
       with_categories (categories s ++ [db_category]) new_id s)
    else (Fail IntegrityError, with_categories (categories s) new_id s).

(** [crud.create_category(db, category, user_id)] *)
Definition crud_create_category (category : CategoryCreate.t) (user_id : Z)
    : B Category.t :=
  add_Category (CategoryCreate.name category)
    (CategoryCreate.description category) user_id.

(** The function [create_category] of [main.py], given the current user
    (the function, not the route POST /categories/ with its
    [response_model]). *)
Definition create_category (category : CategoryCreate.t)
    (current_user : User.t) : B Category.t :=
  crud_create_category category (User.id current_user).

(** [category_id] is an INTEGER column, of 32 bits. *)
Definition in_integer_range (n : Z) : bool :=
  (- 2 ^ 31 <=? n) && (n <? 2 ^ 31).

Definition fits_integer (v : option Z) : bool :=
  match v with
  | None => true
  | Some n => in_integer_range n
  end.

(** [db.add(db_expense); db.commit(); db.refresh(db_expense)]: PostgreSQL
    refuses a [category_id] that does not fit the column with a DataError,
    and a row whose owner or category does not exist with an
    IntegrityError.  [owner_id] is the key of the current user. *)
Definition add_Expense (amount : float64) (description : option string)
    (date : date) (category_id : option Z) (owner_id : Z) : B Expense.t :=
  fun s =>
    let new_id := expenses_id_seq s + 1 in
    if negb (fits_integer category_id) then (Fail DataError, s)
    else if user_exists owner_id s && category_exists category_id s then
      let db_expense :=
        Expense.mk new_id amount description date category_id
          (Some owner_id) in
      (Ok db_expense, with_expenses (expenses s ++ [db_expense]) new_id s)
    else (Fail IntegrityError, with_expenses (expenses s) new_id s).

(** [crud.create_expense(db, expense, user_id)] *)
Definition crud_create_expense (expense : ExpenseCreate.t) (user_id : Z)
    : B Expense.t :=
  add_Expense (ExpenseCreate.amount expense)
    (ExpenseCreate.description expense) (ExpenseCreate.date expense)
    (ExpenseCreate.category_id expense) user_id.

(** The function [create_expense] of [main.py], given the current user
    (the function, not the route POST /expenses/ with its
    [response_model]). *)
Definition create_expense (expense : ExpenseCreate.t) (current_user : User.t)
    : B Expense.t :=
  crud_create_expense expense (User.id current_user).

(** The four [setattr] of [crud.update_expense] on a row. *)
Definition set_fields (expense : ExpenseCreate.t) (x : Expense.t)
    : Expense.t :=
  Expense.mk (Expense.id x) (ExpenseCreate.amount expense)
    (ExpenseCreate.description expense) (ExpenseCreate.date expense)
    (ExpenseCreate.category_id expense) (Expense.owner_id x).

(** [crud.update_expense(db, expense_id, expense)]: without a row the first
    [setattr] is on [None]; the commit writes the row of that key. *)
Definition crud_update_expense (expense_id : Z) (expense : ExpenseCreate.t)
    : B Expense.t :=
  db_expense <~ crud_get_expense expense_id ;;
  match db_expense with
  | None =>
      raiseB (AttributeError "'NoneType' object has no attribute 'amount'")
  | Some x =>
      fun s =>
        if category_exists (ExpenseCreate.category_id expense) s then
          (Ok (set_fields expense x),
           with_expenses
             (map (fun y => if Expense.id y =? Expense.id x
                            then set_fields expense x else y) (expenses s))
             (expenses_id_seq s) s)
        else (Fail IntegrityError, s)
  end.

(** [crud.delete_expense(db, expense_id)]: [db.delete(None)] is refused by
    the session. *)
Definition crud_delete_expense (expense_id : Z) : B unit :=
  db_expense <~ crud_get_expense expense_id ;;
  match db_expense with
  | None => raiseB UnmappedInstanceError
  | Some x =>
      fun s =>
        (Ok tt,
         with_expenses
           (filter (fun y => negb (Expense.id y =? Expense.id x))
              (expenses s))
           (expenses_id_seq s) s)
  end.

(** No expense carries a key beyond the sequence. *)
Definition expense_keys_drawn (s : Backend) : Prop :=
  forall x, In x (expenses s) -> Expense.id x <= expenses_id_seq s.

(** ** More sample data *)

(** Stand-ins that go with [plain_verify] and [plain_encode]: the hash of a
    password is the password, the token decodes to itself as subject. *)
Definition plain_hash (password salt : string) : option string :=
  Some password.

(** Stand-ins that refuse a password holding a NUL byte, as passlib's
    bcrypt does, and otherwise behave as [plain_verify] and [plain_hash]. *)
Fixpoint holds_nul (s : string) : bool :=
  match s with
  | EmptyString => false
  | String c s' => Ascii.eqb c Ascii.zero || holds_nul s'
  end.

Definition strict_verify (plain_password hashed_password : string)
    : option bool :=
  if holds_nul plain_password then None
  else Some (String.eqb plain_password hashed_password).

Definition strict_hash (password salt : string) : option string :=
  if holds_nul password then None else Some password.

(** carol's user name with a password that holds a NUL byte. *)
Definition carol_nul : Request :=
  mkRequest (Some "10.0.0.7"%string) "carol" (String Ascii.zero "secret").

Definition erin_signup : schemas.UserCreate.t :=
  schemas.UserCreate.mk "erin@example.com" "erin"
    (String Ascii.zero "hunter2").

(** A server whose local time is UTC: [int(d.timestamp())]. *)
Definition utc_timestamp (d : datetime) : Z := Z.quot d 1000000.

Definition claims_encode (sub : string) (exp iat nbf : Z) : string :=
  (sub ++ " " ++ str exp ++ " " ++ str iat ++ " " ++ str nbf)%string.

Definition plain_decode (token : string) : string + option string :=
  inr (Some token).

Definition lunch : Expense.t :=
  Expense.mk 7 (mk_float64 4622100592565682176) (Some "lunch"%string)
    738000 None (Some 1).

Definition groceries : Category.t :=
  Category.mk 3 "groceries" None (Some 1).

Definition carol_backend : Backend :=
  mkBackend carol_world 1 [groceries] 3 [lunch] 7 (fun _ => "salt"%string) 0.

Definition dave_signup : schemas.UserCreate.t :=
  schemas.UserCreate.mk "dave@example.com" "dave" "hunter2".

Definition dave : User.t :=
  User.mk 2 "dave" "dave@example.com" "hunter2".

Definition dinner : ExpenseCreate.t :=
  ExpenseCreate.mk (mk_float64 4630826316843712512) (Some "dinner"%string)
    738001 (Some 3).

Definition travel : CategoryCreate.t :=
  CategoryCreate.mk "travel" None.

(** ** Vocabulary of the further properties *)

(** The state after a registration that goes through: one more user, with
    the next key and the hash of the password, one salt drawn. *)
Definition registered (hashed_password : string)
    (user : schemas.UserCreate.t) (s : Backend) : Backend :=
  mkBackend
    (with_users
       (users (world s) ++
          [User.mk (users_id_seq s + 1) (schemas.UserCreate.username user)
             (schemas.UserCreate.email user) hashed_password])
       (world s))
    (users_id_seq s + 1) (categories s) (categories_id_seq s)
    (expenses s) (expenses_id_seq s) (salts s) (S (salts_used s)).

(** No two users share a name and no two share an email. *)
Definition users_unique (w : World) : Prop :=
  NoDup (map User.username (users w)) /\ NoDup (map User.email (users w)).

(** What the limiter's queries read of a row: the columns of their filter
    and of their ordering. *)
Definition limiter_view (a : LoginAttempt.t) : string * Z * datetime :=
  (LoginAttempt.username a, LoginAttempt.success a, LoginAttempt.timestamp a).

Definition same_view (a b : LoginAttempt.t) : Prop :=
  limiter_view a = limiter_view b.

(** The rows of one user. *)
Definition attempts_of (username : string) (rows : list LoginAttempt.t)
    : list LoginAttempt.t :=
  filter (fun a => String.eqb (LoginAttempt.username a) username) rows.

(** The number of answers 200 and 401 in a list of status codes. *)
Definition handled (statuses : list Z) : nat :=
  List.length (filter (fun st => (st =? 200) || (st =? 401)) statuses).

(** The clock never runs backwards. *)
Definition monotone_clock (w : World) : Prop :=
  forall i j, (i <= j)%nat -> clock w i <= clock w j.

(** The log is in the order of its timestamps and no row is ahead of the
    clock. *)
Definition log_in_order (w : World) : Prop :=
  StronglySorted
    (fun a b => LoginAttempt.timestamp a <= LoginAttempt.timestamp b)
    (login_attempts w) /\
  forall a, In a (login_attempts w) -> LoginAttempt.timestamp a <= now1 w.

(** * Properties *)

(** ** Ordering and taking the first row *)

Section QueryFacts.

Import Query.

Lemma insert_by_timestamp_In a b q :
  In b (insert_by_timestamp a q) <-> b = a \/ In b q.
Proof.
  induction q as [|c q IH]; simpl.
  - intuition.
  - destruct (LoginAttempt.timestamp a <=? LoginAttempt.timestamp c); simpl.
    + intuition.
    + rewrite IH. intuition.
Qed.

Lemma order_by_timestamp_asc_In b q :
  In b (order_by_timestamp_asc q) <-> In b q.
Proof.
  induction q as [|a q IH]; simpl.
  - reflexivity.
  - rewrite insert_by_timestamp_In, IH. intuition.
Qed.

(** The head of an insertion is the new row or the old head, whichever
    has the smaller timestamp. *)
Lemma first_insert_by_timestamp a q :
  first (insert_by_timestamp a q) =
  match first q with
  | None => Some a
  | Some b =>
      if LoginAttempt.timestamp a <=? LoginAttempt.timestamp b
      then Some a else Some b
  end.
Proof.
  destruct q as [|b q]; simpl; [reflexivity|].
  destruct (LoginAttempt.timestamp a <=? LoginAttempt.timestamp b);
    reflexivity.
Qed.

Lemma first_limit_1 {A} (q : list A) : first (limit 1 q) = first q.
Proof. destruct q; reflexivity. Qed.

Lemma first_order_by_minimal q a :
  first (order_by_timestamp_asc q) = Some a ->
  In a q /\
  forall b, In b q -> LoginAttempt.timestamp a <= LoginAttempt.timestamp b.
Proof.
  revert a. induction q as [|c q IH]; intros a; simpl.
  - discriminate.
  - rewrite first_insert_by_timestamp.
    destruct (first (order_by_timestamp_asc q)) as [m|] eqn:Hm.
    + destruct (IH m eq_refl) as [Hin Hmin].
      destruct (LoginAttempt.timestamp c <=? LoginAttempt.timestamp m)
        eqn:Hle; intros [= <-].
      * apply Z.leb_le in Hle. split; [now left|].
        intros b [<-|Hb]; [lia|]. specialize (Hmin b Hb). lia.
      * apply Z.leb_gt in Hle. split; [now right|].
        intros b [<-|Hb]; [lia|]. now apply Hmin.
    + intros [= <-]. split; [now left|].
      intros b [<-|Hb]; [lia|].
      apply order_by_timestamp_asc_In in Hb.
      destruct (order_by_timestamp_asc q); [contradiction|discriminate].
Qed.

Lemma first_order_by_none q :
  first (order_by_timestamp_asc q) = None <-> q = [].
Proof.
  split.
  - destruct q as [|c q]; [reflexivity|]. simpl.
    rewrite first_insert_by_timestamp.
    destruct (first (order_by_timestamp_asc q)) as [m|];
      [destruct (_ <=? _)|]; discriminate.
  - intros ->. reflexivity.
Qed.

End QueryFacts.

(** ** The lookup of the earliest failed attempt *)

Section Lookup.

Variable rows : list LoginAttempt.t.
Variable username : string.
Variable since : datetime.

(** The row the lookup returns is an earliest failed attempt. *)
Lemma earliest_failed_since_Some a :
  earliest_failed_since rows username since = Some a ->
  earliest_failed rows username since a.
Proof.
  unfold earliest_failed_since, failed_attempts_since.
  rewrite first_limit_1. intros H.
  apply first_order_by_minimal in H. destruct H as [Hin Hmin].
  apply filter_In in Hin. destruct Hin as [Hin Hf].
  repeat split; trivial.
  intros b Hb Hfb. apply Hmin. apply filter_In. now split.
Qed.

Lemma earliest_failed_since_None :
  earliest_failed_since rows username since = None <->
  count_failed_since rows username since = 0%nat.
Proof.
  unfold earliest_failed_since, count_failed_since.
  unfold Query.count in *.
  rewrite first_limit_1, first_order_by_none.
  split; [intros ->; reflexivity | apply length_zero_iff_nil].
Qed.

(** All earliest failed attempts carry the same timestamp. *)
Lemma earliest_failed_timestamp a b :
  earliest_failed rows username since a ->
  earliest_failed rows username since b ->
  LoginAttempt.timestamp a = LoginAttempt.timestamp b.
Proof.
  intros (Ha & Hfa & Hmina) (Hb & Hfb & Hminb).
  specialize (Hmina b Hb Hfb). specialize (Hminb a Ha Hfa). lia.
Qed.

Lemma earliest_failed_counted a :
  earliest_failed rows username since a ->
  (1 <= count_failed_since rows username since)%nat.
Proof.
  intros (Ha & Hfa & _).
  unfold count_failed_since, failed_attempts_since.
  unfold Query.count in *.
  assert (Hin : In a (filter (failed_since username since) rows))
    by (apply filter_In; now split).
  destruct (filter _ rows); [contradiction | simpl; lia].
Qed.

Lemma earliest_failed_exists :
  (1 <= count_failed_since rows username since)%nat ->
  exists a, earliest_failed_since rows username since = Some a /\
            earliest_failed rows username since a.
Proof.
  intros Hc.
  destruct (earliest_failed_since rows username since) as [a|] eqn:He.
  - exists a. split; [reflexivity|]. now apply earliest_failed_since_Some.
  - apply earliest_failed_since_None in He. lia.
Qed.

Lemma earliest_failed_lookup a :
  earliest_failed rows username since a ->
  exists m, earliest_failed_since rows username since = Some m /\
            LoginAttempt.timestamp m = LoginAttempt.timestamp a.
Proof.
  intros Ha.
  destruct (earliest_failed_exists (earliest_failed_counted a Ha))
    as (m & Hm & Hem).
  exists m. split; [exact Hm|].
  now apply earliest_failed_timestamp.
Qed.

(** A selected row is a failure of the user at or after [since]. *)
Lemma failed_since_window a :
  failed_since username since a = true <->
  LoginAttempt.username a = username /\ LoginAttempt.success a = 0 /\
  since <= LoginAttempt.timestamp a.
Proof.
  unfold failed_since.
  rewrite !andb_true_iff, String.eqb_eq, Z.eqb_eq, Z.leb_le. tauto.
Qed.

End Lookup.

(** ** What the two limiter functions compute *)

Lemma is_user_blocked_run (username : string) (w : World) :
  is_user_blocked username w =
  if (5 <=? count_failed_since (login_attempts w) username
              (now1 w - minutes 1))%nat
  then (Returned
          match earliest_failed_since (login_attempts w) username
                  (now1 w - minutes 1) with
          | Some a => now2 w - minutes 30 <=? LoginAttempt.timestamp a
          | None => false
          end,
        tick (tick w))
  else (Returned false, tick w).
Proof.
  unfold is_user_blocked, bind, utcnow, query_LoginAttempt, ret,
    count_failed_since, earliest_failed_since, failed_attempts_since,
    now1, now2.
  cbn [login_attempts clock reads tick].
  destruct (5 <=? _)%nat; [|reflexivity].
  cbn [login_attempts clock reads tick].
  destruct (Query.first _) as [a|]; [|reflexivity].
  destruct (_ <=? LoginAttempt.timestamp a); reflexivity.
Qed.

Lemma get_block_remaining_time_run (username : string) (w : World) :
  get_block_remaining_time username w =
  match earliest_failed_since (login_attempts w) username
          (now1 w - minutes 1) with
  | Some a =>
      (Returned (Z.max 0 (int_total_seconds
         (LoginAttempt.timestamp a + minutes 30 - now2 w))),
       tick (tick w))
  | None => (Returned 0, tick w)
  end.
Proof.
  unfold get_block_remaining_time, bind, utcnow, query_LoginAttempt, ret,
    earliest_failed_since, failed_attempts_since, now1, now2.
  cbn [login_attempts clock reads tick].
  destruct (Query.first _) as [a|]; reflexivity.
Qed.

(** ** The blocking decision *)

(** C1.  When the log holds at least five failed attempts of the user in the
    minute before the first clock reading, there is an earliest one among
    them and [is_user_blocked] answers by the 30-minute test on it: true
    when its timestamp is at or after the second clock reading minus 30
    minutes, false otherwise. *)
Theorem is_user_blocked_threshold_reached (w : World) (username : string) :
  (5 <= count_failed_since (login_attempts w) username
          (now1 w - minutes 1))%nat ->
  (exists a,
     earliest_failed (login_attempts w) username (now1 w - minutes 1) a) /\
  (forall a,
     earliest_failed (login_attempts w) username (now1 w - minutes 1) a ->
     result (is_user_blocked username) w =
     Returned (now2 w - minutes 30 <=? LoginAttempt.timestamp a)).
Proof.
  intros Hc. split.
  - destruct (earliest_failed_exists (login_attempts w) username
                (now1 w - minutes 1)) as (a & _ & Ha); [lia|].
    now exists a.
  - intros a Ha. unfold result. rewrite is_user_blocked_run.
    apply Nat.leb_le in Hc. rewrite Hc. cbn [fst].
    destruct (earliest_failed_lookup _ _ _ a Ha) as (m & -> & ->).
    reflexivity.
Qed.

(** The five failures of [alice_five] read 45 seconds after the first. *)
Lemma is_user_blocked_threshold_reached_witness :
  (5 <= count_failed_since alice_five "alice" (seconds 45 - minutes 1))%nat /\
  earliest_failed alice_five "alice" (seconds 45 - minutes 1)
    (failure 1 "alice" (seconds 0)) /\
  result (is_user_blocked "alice") (at_instant (seconds 45) [] alice_five) =
  Returned true.
Proof.
  assert (Hc : (5 <= count_failed_since alice_five "alice"
                      (seconds 45 - minutes 1))%nat)
    by (vm_compute; lia).
  assert (Ha : earliest_failed alice_five "alice" (seconds 45 - minutes 1)
                 (failure 1 "alice" (seconds 0))).
  { split; [now left|]. split; [reflexivity|].
    intros b Hb _. simpl in Hb.
    repeat (destruct Hb as [<-|Hb]; [vm_compute; discriminate|]).
    contradiction. }
  split; [exact Hc|]. split; [exact Ha|].
  destruct (is_user_blocked_threshold_reached
              (at_instant (seconds 45) [] alice_five) "alice" Hc)
    as [_ Hblocked].
  exact (Hblocked _ Ha).
Defined.

(** The same five failures, all 31 minutes old: below the threshold, not
    blocked. *)
Example is_user_blocked_old_failures :
  result (is_user_blocked "alice")
    (at_instant (minutes 31 + seconds 40) [] alice_five) = Returned false.
Proof. reflexivity. Qed.

Lemma is_user_blocked_few (w : World) (username : string) :
  (count_failed_since (login_attempts w) username (now1 w - minutes 1) < 5)%nat ->
  result (is_user_blocked username) w = Returned false.
Proof.
  intros Hc. unfold result. rewrite is_user_blocked_run.
  apply Nat.leb_gt in Hc. rewrite Hc. reflexivity.
Qed.

(** A user without any recorded attempt is not blocked. *)
Lemma is_user_blocked_unknown_user (w : World) (username : string) :
  (forall a, In a (login_attempts w) -> LoginAttempt.username a <> username) ->
  result (is_user_blocked username) w = Returned false.
Proof.
  intros Hnone. apply is_user_blocked_few.
  unfold count_failed_since, failed_attempts_since.
  unfold Query.count in *.
  destruct (filter _ (login_attempts w)) as [|b l] eqn:Hf; [simpl; lia|].
  assert (Hb : In b (filter (failed_since username (now1 w - minutes 1))
                       (login_attempts w))) by (rewrite Hf; now left).
  apply filter_In in Hb. destruct Hb as [Hin Hb].
  apply failed_since_window in Hb. destruct Hb as [Hu _].
  now apply Hnone in Hin.
Qed.

(** C3.  With fewer than five failed attempts of the user in the minute
    before the clock reading, [is_user_blocked] answers false, whatever else
    the log holds: so it does for a user without any recorded attempt, and
    so it does when the same log made it answer true at an earlier reading,
    however recent the failures of that log are. *)
Theorem is_user_blocked_below_threshold (w : World) (username : string) :
  (count_failed_since (login_attempts w) username (now1 w - minutes 1) < 5)%nat ->
  result (is_user_blocked username) w = Returned false /\
  (forall w0, (forall a, In a (login_attempts w0) ->
                         LoginAttempt.username a <> username) ->
     result (is_user_blocked username) w0 = Returned false) /\
  (forall w0, login_attempts w0 = login_attempts w ->
     result (is_user_blocked username) w0 = Returned true ->
     result (is_user_blocked username) w = Returned false).
Proof.
  intros Hc. split; [|split].
  - now apply is_user_blocked_few.
  - intros w0. apply is_user_blocked_unknown_user.
  - intros w0 _ _. now apply is_user_blocked_few.
Qed.

(** The five failures of [alice_five]: blocked 45 seconds after the first
    of them, not blocked 61 seconds after it, when only four of them are
    left in the trailing minute. *)
Lemma is_user_blocked_below_threshold_witness :
  (count_failed_since alice_five "alice" (seconds 61 - minutes 1) < 5)%nat /\
  result (is_user_blocked "alice") (at_instant (seconds 45) [] alice_five)
    = Returned true /\
  result (is_user_blocked "alice") (at_instant (seconds 61) [] alice_five)
    = Returned false /\
  result (is_user_blocked "bob") (at_instant (seconds 45) [] alice_five)
    = Returned false.
Proof.
  assert (Hc : (count_failed_since alice_five "alice"
                  (seconds 61 - minutes 1) < 5)%nat)
    by (vm_compute; lia).
  destruct (is_user_blocked_below_threshold
              (at_instant (seconds 61) [] alice_five) "alice" Hc)
    as (Hfree & _ & Hlatch).
  destruct (is_user_blocked_below_threshold
              (at_instant (seconds 61) [] alice_five) "bob")
    as (_ & Hunknown & _); [vm_compute; lia|].
  split; [exact Hc|]. split; [reflexivity|]. split.
  - apply (Hlatch (at_instant (seconds 45) [] alice_five)); reflexivity.
  - apply Hunknown. intros a Ha. simpl in Ha.
    repeat (destruct Ha as [<-|Ha]; [vm_compute; discriminate|]).
    contradiction.
Defined.

(** An attempt inside the one-minute window is inside the 30-minute window
    as long as the two clock readings are at most 29 minutes apart. *)
Lemma recent_window_in_block_window (w : World) (t : datetime) :
  now2 w - now1 w <= minutes 29 ->
  now1 w - minutes 1 <= t -> now2 w - minutes 30 <= t.
Proof. unfold minutes, seconds. lia. Qed.

Lemma is_user_blocked_by_count (w : World) (username : string) :
  now2 w - now1 w <= minutes 29 ->
  result (is_user_blocked username) w =
  Returned (is_blocked_by_count (login_attempts w) username (now1 w)).
Proof.
  intros Hdrift. unfold result, is_blocked_by_count.
  rewrite is_user_blocked_run.
  destruct (5 <=? _)%nat eqn:Hc; [|reflexivity]. cbn [fst].
  apply Nat.leb_le in Hc.
  destruct (earliest_failed_exists (login_attempts w) username
              (now1 w - minutes 1)) as (a & -> & Ha); [lia|].
  destruct Ha as (_ & Hf & _). apply failed_since_window in Hf.
  destruct Hf as (_ & _ & Ht).
  apply (recent_window_in_block_window w _ Hdrift) in Ht.
  apply Z.leb_le in Ht. now rewrite Ht.
Qed.

(** C5.  [is_user_blocked] decides by the count alone: it answers true
    exactly when at least five failed attempts of the user lie in the minute
    before the first clock reading.  The 30-minute test holds of every
    attempt of that minute, the second clock reading being at most 29
    minutes after the first (in particular when both are the same
    instant). *)
Theorem is_user_blocked_is_count (w : World) (username : string) :
  now2 w - now1 w <= minutes 29 ->
  result (is_user_blocked username) w =
    Returned (is_blocked_by_count (login_attempts w) username (now1 w)) /\
  (result (is_user_blocked username) w = Returned true <->
   (5 <= count_failed_since (login_attempts w) username
           (now1 w - minutes 1))%nat) /\
  (forall a, failed_since username (now1 w - minutes 1) a = true ->
             (now2 w - minutes 30 <=? LoginAttempt.timestamp a) = true).
Proof.
  intros Hdrift. split; [|split].
  - now apply is_user_blocked_by_count.
  - rewrite (is_user_blocked_by_count w username Hdrift).
    unfold is_blocked_by_count.
    destruct (Nat.leb_spec 5 (count_failed_since (login_attempts w) username
                                (now1 w - minutes 1)));
      split; intros H0; (reflexivity || discriminate || lia).
  - intros a Hf. apply failed_since_window in Hf.
    destruct Hf as (_ & _ & Ht). apply Z.leb_le.
    now apply (recent_window_in_block_window w).
Qed.

Lemma is_user_blocked_is_count_witness :
  now2 (at_instant (seconds 45) [] alice_five) -
    now1 (at_instant (seconds 45) [] alice_five) <= minutes 29 /\
  result (is_user_blocked "alice") (at_instant (seconds 45) [] alice_five) =
  Returned (is_blocked_by_count alice_five "alice" (seconds 45)).
Proof.
  assert (Hdrift : now2 (at_instant (seconds 45) [] alice_five) -
                   now1 (at_instant (seconds 45) [] alice_five) <= minutes 29)
    by (vm_compute; discriminate).
  split; [exact Hdrift|].
  exact (proj1 (is_user_blocked_is_count
                  (at_instant (seconds 45) [] alice_five) "alice" Hdrift)).
Defined.

(** ** The remaining block time *)

Lemma int_total_seconds_mono (d d' : timedelta) :
  d <= d' -> int_total_seconds d <= int_total_seconds d'.
Proof. intros H. unfold int_total_seconds. apply Z.quot_le_mono; lia. Qed.

Lemma int_total_seconds_seconds (n : Z) : int_total_seconds (seconds n) = n.
Proof. unfold int_total_seconds, seconds. apply Z.quot_mul. lia. Qed.

Lemma get_block_remaining_time_earliest (w : World) (username : string)
    (a : LoginAttempt.t) :
  earliest_failed (login_attempts w) username (now1 w - minutes 1) a ->
  result (get_block_remaining_time username) w =
  Returned (Z.max 0 (int_total_seconds
    (LoginAttempt.timestamp a + minutes 30 - now2 w))).
Proof.
  intros Ha. unfold result. rewrite get_block_remaining_time_run.
  destruct (earliest_failed_lookup _ _ _ a Ha) as (m & -> & ->).
  reflexivity.
Qed.

Lemma get_block_remaining_time_none (w : World) (username : string) :
  count_failed_since (login_attempts w) username (now1 w - minutes 1) = 0%nat ->
  result (get_block_remaining_time username) w = Returned 0.
Proof.
  intros Hc. unfold result. rewrite get_block_remaining_time_run.
  apply earliest_failed_since_None in Hc. now rewrite Hc.
Qed.

(** C2.  [get_block_remaining_time] returns the whole seconds from the
    second clock reading to 30 minutes after the earliest failed attempt of
    the user in the minute before the first reading, and no less than 0; it
    returns 0 when that minute holds no failed attempt of the user.  The
    count of five plays no part: with one to four such attempts the user is
    not blocked and the result is still positive (the two readings being
    less than 29 minutes apart). *)
Theorem get_block_remaining_time_spec (w : World) (username : string) :
  (forall a,
     earliest_failed (login_attempts w) username (now1 w - minutes 1) a ->
     result (get_block_remaining_time username) w =
     Returned (Z.max 0 (int_total_seconds
       (LoginAttempt.timestamp a + minutes 30 - now2 w)))) /\
  (count_failed_since (login_attempts w) username (now1 w - minutes 1) = 0%nat ->
   result (get_block_remaining_time username) w = Returned 0) /\
  ((1 <= count_failed_since (login_attempts w) username
           (now1 w - minutes 1) <= 4)%nat ->
   now2 w - now1 w <= seconds 1739 ->
   result (is_user_blocked username) w = Returned false /\
   exists r, result (get_block_remaining_time username) w = Returned r /\
             0 < r).
Proof.
  split; [|split].
  - intros a. apply get_block_remaining_time_earliest.
  - apply get_block_remaining_time_none.
  - intros [Hlo Hhi] Hdrift. split.
    + apply is_user_blocked_few. lia.
    + destruct (earliest_failed_exists _ _ _ Hlo) as (a & _ & Ha).
      eexists. split; [exact (get_block_remaining_time_earliest _ _ _ Ha)|].
      destruct Ha as (_ & Hf & _). apply failed_since_window in Hf.
      destruct Hf as (_ & _ & Ht).
      apply Z.lt_le_trans with (int_total_seconds (seconds 1));
        [rewrite int_total_seconds_seconds; lia|].
      etransitivity; [|apply Z.le_max_r].
      apply int_total_seconds_mono.
      unfold minutes, seconds in *. lia.
Qed.

Lemma get_block_remaining_time_spec_witness :
  result (get_block_remaining_time "alice")
    (at_instant (seconds 55) [] alice_two) = Returned 1745 /\
  result (get_block_remaining_time "bob")
    (at_instant (seconds 55) [] alice_two) = Returned 0 /\
  result (is_user_blocked "alice")
    (at_instant (seconds 55) [] alice_two) = Returned false /\
  exists r, result (get_block_remaining_time "alice")
              (at_instant (seconds 55) [] alice_two) = Returned r /\ 0 < r.
Proof.
  destruct (get_block_remaining_time_spec
              (at_instant (seconds 55) [] alice_two) "alice")
    as (Hearliest & _ & Hpositive).
  destruct (get_block_remaining_time_spec
              (at_instant (seconds 55) [] alice_two) "bob")
    as (_ & Hnone & _).
  split.
  - apply (Hearliest (failure 1 "alice" (seconds 0))).
    split; [now left|]. split; [reflexivity|].
    intros b Hb _. simpl in Hb.
    repeat (destruct Hb as [<-|Hb]; [vm_compute; discriminate|]).
    contradiction.
  - split; [apply Hnone; reflexivity|].
    apply Hpositive; vm_compute; [lia | discriminate].
Defined.

(** C10.  Read at a single instant, with no timestamp of the log after it,
    [get_block_remaining_time] lies between 0 and 1800; when a failed
    attempt of the user lies in the trailing minute it is at least 1740 and
    is the unclamped number of seconds. *)
Theorem get_block_remaining_time_bounds (w : World) (username : string) :
  now2 w = now1 w ->
  (forall a, In a (login_attempts w) -> LoginAttempt.timestamp a <= now1 w) ->
  exists r,
    result (get_block_remaining_time username) w = Returned r /\
    0 <= r <= 1800 /\
    forall a,
      earliest_failed (login_attempts w) username (now1 w - minutes 1) a ->
      1740 <= r /\
      r = int_total_seconds (LoginAttempt.timestamp a + minutes 30 - now1 w).
Proof.
  intros Hsame Hpast.
  destruct (earliest_failed_since (login_attempts w) username
              (now1 w - minutes 1)) as [m|] eqn:Hm.
  - apply earliest_failed_since_Some in Hm.
    assert (Hlo : 1740 <= int_total_seconds
              (LoginAttempt.timestamp m + minutes 30 - now1 w)).
    { destruct Hm as (_ & Hf & _). apply failed_since_window in Hf.
      destruct Hf as (_ & _ & Ht).
      rewrite <- (int_total_seconds_seconds 1740).
      apply int_total_seconds_mono. unfold minutes, seconds in *. lia. }
    assert (Hhi : int_total_seconds
              (LoginAttempt.timestamp m + minutes 30 - now1 w) <= 1800).
    { destruct Hm as (Hin & _). apply Hpast in Hin.
      rewrite <- (int_total_seconds_seconds 1800).
      apply int_total_seconds_mono. unfold minutes, seconds in *. lia. }
    eexists. split; [exact (get_block_remaining_time_earliest _ _ _ Hm)|].
    rewrite Hsame. rewrite Z.max_r by lia.
    split; [lia|].
    intros a Ha.
    rewrite <- (earliest_failed_timestamp _ _ _ m a Hm Ha).
    split; [exact Hlo | reflexivity].
  - exists 0. split.
    + apply get_block_remaining_time_none.
      now apply earliest_failed_since_None.
    + split; [lia|]. intros a Ha.
      apply earliest_failed_counted in Ha.
      apply earliest_failed_since_None in Hm. lia.
Qed.

Lemma get_block_remaining_time_bounds_witness :
  exists r,
    result (get_block_remaining_time "alice")
      (at_instant (seconds 55) [] alice_two) = Returned r /\
    0 <= r <= 1800 /\ 1740 <= r.
Proof.
  destruct (get_block_remaining_time_bounds
              (at_instant (seconds 55) [] alice_two) "alice")
    as (r & Hr & Hbounds & Hfound).
  - reflexivity.
  - intros a Ha. simpl in Ha.
    repeat (destruct Ha as [<-|Ha]; [vm_compute; discriminate|]).
    contradiction.
  - exists r. split; [exact Hr|]. split; [exact Hbounds|].
    apply (Hfound (failure 1 "alice" (seconds 0))).
    split; [now left|]. split; [reflexivity|].
    intros b Hb _. simpl in Hb.
    repeat (destruct Hb as [<-|Hb]; [vm_compute; discriminate|]).
    contradiction.
Defined.

(** ** The remaining block time as time passes *)

(** C4.  With the log fixed at the two failures of [alice_two], 0 and 50
    seconds, the remaining time read at 55 seconds is 1745 and the one read
    at 61 seconds is 1789: once the first failure has left the trailing
    minute the lookup finds the second one, and the result grows. *)
Theorem get_block_remaining_time_grows :
  result (get_block_remaining_time "alice")
    (at_instant (seconds 55) [] alice_two) = Returned 1745 /\
  result (get_block_remaining_time "alice")
    (at_instant (seconds 61) [] alice_two) = Returned 1789 /\
  seconds 55 <= seconds 61.
Proof. repeat split; vm_compute; discriminate. Qed.

(** The remaining time is not monotone in the instant of the reading. *)
Lemma get_block_remaining_time_not_monotone :
  ~ (forall rows username t1 t2 r1 r2,
       t1 <= t2 ->
       result (get_block_remaining_time username) (at_instant t1 [] rows)
         = Returned r1 ->
       result (get_block_remaining_time username) (at_instant t2 [] rows)
         = Returned r2 ->
       r2 <= r1).
Proof.
  intros H.
  specialize (H alice_two "alice"%string (seconds 55) (seconds 61) 1745 1789).
  assert (Hle : 1789 <= 1745)
    by (apply H; [vm_compute; discriminate | reflexivity | reflexivity]).
  lia.
Qed.

(** It does not grow between two readings that find the same earliest
    failure, nor when the later reading finds none. *)
Lemma get_block_remaining_time_same_trigger (rows : list LoginAttempt.t)
    (us us' : list User.t) (username : string) (t1 t2 : datetime)
    (a : LoginAttempt.t) (r1 r2 : Z) :
  t1 <= t2 ->
  earliest_failed rows username (t1 - minutes 1) a ->
  t2 - minutes 1 <= LoginAttempt.timestamp a ->
  result (get_block_remaining_time username) (at_instant t1 us rows)
    = Returned r1 ->
  result (get_block_remaining_time username) (at_instant t2 us' rows)
    = Returned r2 ->
  r2 <= r1.
Proof.
  intros Hle Ha Hin H1 H2.
  assert (Ha2 : earliest_failed rows username (t2 - minutes 1) a).
  { destruct Ha as (Hrow & Hf & Hmin). split; [exact Hrow|]. split.
    - apply failed_since_window in Hf.
      destruct Hf as (Hu & Hs & _). unfold failed_since.
      rewrite Hu, Hs, String.eqb_refl. simpl. now apply Z.leb_le.
    - intros b Hb Hfb. apply Hmin; [exact Hb|].
      apply failed_since_window in Hfb.
      destruct Hfb as (Hu & Hs & Ht). unfold failed_since.
      rewrite Hu, Hs, String.eqb_refl. simpl. apply Z.leb_le.
      lia. }
  rewrite (get_block_remaining_time_earliest (at_instant t1 us rows)
             username a Ha) in H1.
  rewrite (get_block_remaining_time_earliest (at_instant t2 us' rows)
             username a Ha2) in H2.
  injection H1 as <-. injection H2 as <-.
  apply Z.max_le_compat_l. apply int_total_seconds_mono.
  unfold now2. simpl. lia.
Qed.

Lemma get_block_remaining_time_nonneg (w : World) (username : string) (r : Z) :
  result (get_block_remaining_time username) w = Returned r -> 0 <= r.
Proof.
  unfold result. rewrite get_block_remaining_time_run.
  destruct (earliest_failed_since _ _ _); cbn [fst]; intros [= <-]; lia.
Qed.

Lemma get_block_remaining_time_window_empty (rows : list LoginAttempt.t)
    (us us' : list User.t) (username : string) (t1 t2 : datetime)
    (r1 r2 : Z) :
  count_failed_since rows username (t2 - minutes 1) = 0%nat ->
  result (get_block_remaining_time username) (at_instant t1 us rows)
    = Returned r1 ->
  result (get_block_remaining_time username) (at_instant t2 us' rows)
    = Returned r2 ->
  r2 <= r1.
Proof.
  intros Hnone H1 H2.
  apply get_block_remaining_time_nonneg in H1.
  rewrite (get_block_remaining_time_none (at_instant t2 us' rows)) in H2
    by exact Hnone.
  injection H2 as <-. exact H1.
Qed.

(** ** Successful attempts *)

Lemma failed_attempts_since_drop (rows1 rows2 : list LoginAttempt.t)
    (a : LoginAttempt.t) (username : string) (since : datetime) :
  LoginAttempt.success a <> 0 ->
  failed_attempts_since (rows1 ++ a :: rows2) username since =
  failed_attempts_since (rows1 ++ rows2) username since.
Proof.
  intros Hs. unfold failed_attempts_since.
  rewrite !filter_app. simpl.
  replace (failed_since username since a) with false; [reflexivity|].
  unfold failed_since. apply Z.eqb_neq in Hs. rewrite Hs.
  now rewrite andb_false_r.
Qed.

(** C6.  A row whose [success] is not 0 changes nothing for the limiter,
    wherever it stands in the log: with or without it the failure count,
    the lookup of the earliest failure, the answer of [is_user_blocked] and
    the result of [get_block_remaining_time] are the same, so the failures
    before it and after it count as they do without it.  The row that
    [log_login_attempt] writes for a success is such a row. *)
Theorem successful_attempt_ignored (w : World) (username : string)
    (rows1 rows2 : list LoginAttempt.t) (a : LoginAttempt.t) :
  LoginAttempt.success a <> 0 ->
  (forall w0 name ip,
     exists row,
       login_attempts (exec (log_login_attempt name ip true) w0) =
         login_attempts w0 ++ [row] /\
       LoginAttempt.success row <> 0) /\
  (forall since,
     count_failed_since (rows1 ++ a :: rows2) username since =
     count_failed_since (rows1 ++ rows2) username since) /\
  (forall since,
     earliest_failed_since (rows1 ++ a :: rows2) username since =
     earliest_failed_since (rows1 ++ rows2) username since) /\
  result (is_user_blocked username)
    (with_login_attempts (rows1 ++ a :: rows2) w) =
  result (is_user_blocked username)
    (with_login_attempts (rows1 ++ rows2) w) /\
  result (get_block_remaining_time username)
    (with_login_attempts (rows1 ++ a :: rows2) w) =
  result (get_block_remaining_time username)
    (with_login_attempts (rows1 ++ rows2) w).
Proof.
  intros Hs.
  assert (Hcount : forall since,
    count_failed_since (rows1 ++ a :: rows2) username since =
    count_failed_since (rows1 ++ rows2) username since).
  { intros since. unfold count_failed_since.
    now rewrite failed_attempts_since_drop. }
  assert (Hearliest : forall since,
    earliest_failed_since (rows1 ++ a :: rows2) username since =
    earliest_failed_since (rows1 ++ rows2) username since).
  { intros since. unfold earliest_failed_since.
    now rewrite failed_attempts_since_drop. }
  split; [|repeat split; trivial].
  - intros w0 name ip. eexists. split; [reflexivity|]. cbn. discriminate.
  - unfold result. rewrite !is_user_blocked_run.
    cbn [with_login_attempts login_attempts].
    rewrite Hcount, Hearliest.
    destruct (5 <=? _)%nat; reflexivity.
  - unfold result. rewrite !get_block_remaining_time_run.
    cbn [with_login_attempts login_attempts].
    rewrite Hearliest.
    destruct (earliest_failed_since _ _ _); reflexivity.
Qed.

(** Four failures of bob with a success among them: not blocked; the same
    is answered without the success. *)
Lemma successful_attempt_ignored_witness :
  LoginAttempt.success (successful 3 "bob" (seconds 20)) <> 0 /\
  result (is_user_blocked "bob")
    (with_login_attempts
       ([failure 1 "bob" (seconds 0); failure 2 "bob" (seconds 10)] ++
        successful 3 "bob" (seconds 20) ::
        [failure 4 "bob" (seconds 30); failure 5 "bob" (seconds 40)])
       (at_instant (seconds 45) [] [])) =
  result (is_user_blocked "bob")
    (with_login_attempts
       ([failure 1 "bob" (seconds 0); failure 2 "bob" (seconds 10)] ++
        [failure 4 "bob" (seconds 30); failure 5 "bob" (seconds 40)])
       (at_instant (seconds 45) [] [])).
Proof.
  assert (Hs : LoginAttempt.success (successful 3 "bob" (seconds 20)) <> 0)
    by (vm_compute; discriminate).
  split; [exact Hs|].
  destruct (successful_attempt_ignored (at_instant (seconds 45) [] []) "bob"
              [failure 1 "bob" (seconds 0); failure 2 "bob" (seconds 10)]
              [failure 4 "bob" (seconds 30); failure 5 "bob" (seconds 40)]
              (successful 3 "bob" (seconds 20)) Hs)
    as (_ & _ & _ & Hblocked & _).
  exact Hblocked.
Defined.

(** ** The endpoints *)

Section EndpointFacts.

Variable verify_password : string -> string -> option bool.
Variable jwt_encode : string -> datetime -> datetime -> string.

Lemma is_user_blocked_returns (username : string) (w : World) :
  exists b, result (is_user_blocked username) w = Returned b.
Proof.
  unfold result. rewrite is_user_blocked_run.
  destruct (5 <=? _)%nat; eexists; reflexivity.
Qed.

Lemma is_user_blocked_exec (username : string) (w : World) :
  exec (is_user_blocked username) w = tick w \/
  exec (is_user_blocked username) w = tick (tick w).
Proof.
  unfold exec. rewrite is_user_blocked_run.
  destruct (5 <=? _)%nat; auto.
Qed.

Lemma get_block_remaining_time_returns (username : string) (w : World) :
  exists r, result (get_block_remaining_time username) w = Returned r.
Proof.
  unfold result. rewrite get_block_remaining_time_run.
  destruct (earliest_failed_since _ _ _); eexists; reflexivity.
Qed.

Lemma get_block_remaining_time_exec (username : string) (w : World) :
  exec (get_block_remaining_time username) w = tick w \/
  exec (get_block_remaining_time username) w = tick (tick w).
Proof.
  unfold exec. rewrite get_block_remaining_time_run.
  destruct (earliest_failed_since _ _ _); auto.
Qed.

(** Authentication reads the [users] table and nothing else; it raises
    when the password check does. *)
Lemma authenticate_user_run (username password : string) (w : World) :
  authenticate_user verify_password username password w =
  (match Query.first
           (filter (fun u => String.eqb (User.username u) username)
              (users w)) with
   | Some u =>
       match verify_password password (User.hashed_password u) with
       | Some true => Returned (Some u)
       | Some false => Returned None
       | None => Errored
       end
   | None => Returned None
   end, w).
Proof.
  unfold authenticate_user, auth.get_user, auth.verify_password, bind,
    query_User, ret.
  destruct (Query.first _) as [u|]; [|reflexivity].
  destruct (verify_password password (User.hashed_password u)) as [[|]|];
    reflexivity.
Qed.

(** Authentication returns or raises an exception that is no
    [HTTPException]. *)
Lemma authenticate_user_cases (username password : string) (w : World) :
  (exists o, result (authenticate_user verify_password username password) w =
             Returned o) \/
  result (authenticate_user verify_password username password) w = Errored.
Proof.
  unfold result. rewrite authenticate_user_run. cbn [fst].
  destruct (Query.first _) as [u|]; [|left; eexists; reflexivity].
  destruct (verify_password password (User.hashed_password u)) as [[|]|];
    [left; eexists; reflexivity | left; eexists; reflexivity | now right].
Qed.

Lemma authenticate_user_users (username password : string) (w w' : World) :
  users w' = users w ->
  result (authenticate_user verify_password username password) w' =
  result (authenticate_user verify_password username password) w.
Proof.
  intros H. unfold result. rewrite !authenticate_user_run. now rewrite H.
Qed.

Lemma users_is_user_blocked (username : string) (w : World) :
  users (exec (is_user_blocked username) w) = users w.
Proof. destruct (is_user_blocked_exec username w) as [-> | ->]; reflexivity. Qed.

(** Both endpoints, in one equation: the answer and the final state in terms
    of the limiter, the authentication and the logging. *)
Lemma serve_run (e : Endpoint) (request : Request) (w : World) :
  serve verify_password jwt_encode e request w =
  let username := form_username request in
  let w1 := exec (is_user_blocked username) w in
  match result (is_user_blocked username) w with
  | Returned true =>
      match get_block_remaining_time username w1 with
      | (Returned r, w2) => (Raised (blocked_exception r), w2)
      | (Raised x, w2) => (Raised x, w2)
      | (Errored, w2) => (Raised (internal_error e), w2)
      end
  | Returned false =>
      match result (authenticate_user verify_password username
                      (form_password request)) w with
      | Returned (Some u) =>
          let w2 := exec (log_login_attempt username
                            (Some (client_ip_of request)) true) w1 in
          (Returned (mkToken (jwt_encode (User.username u)
                                (now1 w2 + hours 24) (now1 w2)) "bearer"),
           tick w2)
      | Returned None =>
          (Raised unauthorized_exception,
           exec (log_login_attempt username
                   (Some (client_ip_of request)) false) w1)
      | Raised x => (Raised x, w1)
      | Errored => (Raised (internal_error e), w1)
      end
  | Raised x => (Raised x, w1)
  | Errored => (Raised (internal_error e), w1)
  end.
Proof.
  cbv zeta.
  pose proof (users_is_user_blocked (form_username request) w) as Hus.
  unfold result, exec in *.
  rewrite authenticate_user_run. cbn [fst].
  destruct e; unfold serve, login, login_for_access_token, except_Exception.
  - unfold bind at 1.
    destruct (is_user_blocked (form_username request) w) as [[[|]|x|] w1];
      cbn [fst snd] in *; [| |reflexivity|reflexivity].
    { unfold bind at 1.
      destruct (get_block_remaining_time _ w1) as [[r|x|] w2]; reflexivity. }
    unfold bind at 1, crud.get_user_by_username, bind at 1, query_User, ret.
    rewrite Hus.
    destruct (Query.first _) as [u|] eqn:Hu; [|reflexivity].
    unfold bind at 1. rewrite authenticate_user_run, Hus, Hu.
    destruct (verify_password _ _) as [[|]|]; reflexivity.
  - unfold bind at 1.
    destruct (is_user_blocked (form_username request) w) as [[[|]|x|] w1];
      cbn [fst snd] in *; [| |reflexivity|reflexivity].
    { unfold bind at 1.
      destruct (get_block_remaining_time _ w1) as [[r|x|] w2]; reflexivity. }
    unfold bind at 1. rewrite authenticate_user_run, Hus.
    destruct (Query.first _) as [u|]; [|reflexivity].
    destruct (verify_password _ _) as [[|]|]; reflexivity.
Qed.

Lemma log_login_attempt_run (username : string) (ip : option string)
    (success : bool) (w : World) :
  log_login_attempt username ip success w =
  (Returned tt,
   mkWorld (users w)
     (login_attempts w ++
        [LoginAttempt.mk (login_attempts_id_seq w + 1) username ip
           (if success then 1 else 0) (now1 w)])
     (login_attempts_id_seq w + 1) (clock w) (S (reads w))).
Proof. reflexivity. Qed.

Lemma login_attempts_is_user_blocked (username : string) (w : World) :
  login_attempts (exec (is_user_blocked username) w) = login_attempts w.
Proof. destruct (is_user_blocked_exec username w) as [-> | ->]; reflexivity. Qed.

Lemma login_attempts_get_block_remaining_time (username : string) (w : World) :
  login_attempts (exec (get_block_remaining_time username) w) =
  login_attempts w.
Proof.
  destruct (get_block_remaining_time_exec username w) as [-> | ->];
    reflexivity.
Qed.

Lemma login_attempts_id_seq_is_user_blocked (username : string) (w : World) :
  login_attempts_id_seq (exec (is_user_blocked username) w) =
  login_attempts_id_seq w.
Proof. destruct (is_user_blocked_exec username w) as [-> | ->]; reflexivity. Qed.

(** What a request that finds the user blocked does. *)
Lemma serve_blocked (e : Endpoint) (request : Request) (w : World) :
  result (is_user_blocked (form_username request)) w = Returned true ->
  serve verify_password jwt_encode e request w =
  (match result (get_block_remaining_time (form_username request))
           (exec (is_user_blocked (form_username request)) w) with
   | Returned r => Raised (blocked_exception r)
   | Raised x => Raised x
   | Errored => Raised (internal_error e)
   end,
   exec (get_block_remaining_time (form_username request))
     (exec (is_user_blocked (form_username request)) w)).
Proof.
  intros Hb. rewrite serve_run. cbv zeta. rewrite Hb.
  unfold result, exec.
  destruct (get_block_remaining_time _ _) as [[r|x|] w2]; reflexivity.
Qed.

(** What a request that finds the user not blocked does when the
    authentication returns. *)
Lemma serve_not_blocked (e : Endpoint) (request : Request) (w : World)
    (user : option User.t) :
  result (is_user_blocked (form_username request)) w = Returned false ->
  result (authenticate_user verify_password (form_username request)
            (form_password request)) w = Returned user ->
  let valid :=
    match user with
    | Some _ => true
    | None => false
    end in
  status_of (result (serve verify_password jwt_encode e request) w) =
    (if valid then 200 else 401) /\
  login_attempts (exec (serve verify_password jwt_encode e request) w) =
  login_attempts w ++
    [LoginAttempt.mk (login_attempts_id_seq w + 1) (form_username request)
       (Some (client_ip_of request)) (if valid then 1 else 0)
       (now1 (exec (is_user_blocked (form_username request)) w))].
Proof.
  intros Hb Hauth. cbv zeta.
  pose proof (login_attempts_is_user_blocked (form_username request) w)
    as Hrows.
  pose proof (login_attempts_id_seq_is_user_blocked (form_username request) w)
    as Hseq.
  unfold result, exec in *.
  rewrite serve_run. cbv zeta. unfold result, exec. rewrite Hb, Hauth.
  set (w1 := snd (is_user_blocked (form_username request) w)) in *.
  rewrite !log_login_attempt_run. cbn [snd].
  destruct user as [u|];
    cbn [fst snd tick login_attempts status_of]; rewrite Hrows, Hseq;
    split; reflexivity.
Qed.

(** What a request that finds the user not blocked does when the password
    check raises: it is answered 500 and the state is the one the block
    check left. *)
Lemma serve_check_raises (e : Endpoint) (request : Request) (w : World) :
  result (is_user_blocked (form_username request)) w = Returned false ->
  result (authenticate_user verify_password (form_username request)
            (form_password request)) w = Errored ->
  serve verify_password jwt_encode e request w =
  (Raised (internal_error e),
   exec (is_user_blocked (form_username request)) w).
Proof.
  intros Hb Hauth. rewrite serve_run. cbv zeta. now rewrite Hb, Hauth.
Qed.

(** The answer to a blocked request. *)
Lemma serve_blocked_result (e : Endpoint) (request : Request) (w : World)
    (r : Z) :
  result (is_user_blocked (form_username request)) w = Returned true ->
  result (get_block_remaining_time (form_username request))
    (exec (is_user_blocked (form_username request)) w) = Returned r ->
  result (serve verify_password jwt_encode e request) w =
  Raised (blocked_exception r).
Proof.
  intros Hb Hr. unfold result at 1.
  rewrite (serve_blocked e request w Hb). cbn [fst]. now rewrite Hr.
Qed.

(** A request answered 401 has appended a failure of its user. *)
Lemma serve_status_401 (e : Endpoint) (request : Request) (w : World) :
  status_of (result (serve verify_password jwt_encode e request) w) = 401 ->
  exists row,
    login_attempts (exec (serve verify_password jwt_encode e request) w) =
      login_attempts w ++ [row] /\
    LoginAttempt.username row = form_username request /\
    LoginAttempt.success row = 0.
Proof.
  intros Hst.
  destruct (is_user_blocked_returns (form_username request) w) as [[|] Hb].
  - destruct (get_block_remaining_time_returns (form_username request)
                (exec (is_user_blocked (form_username request)) w))
      as [r Hr].
    rewrite (serve_blocked_result e request w r Hb Hr) in Hst. discriminate.
  - destruct (authenticate_user_cases (form_username request)
                (form_password request) w) as [[user Hauth] | Hauth].
    + destruct (serve_not_blocked e request w user Hb Hauth)
        as [Hstatus Hrows].
      rewrite Hstatus in Hst.
      destruct user as [u|]; [discriminate|].
      eexists; (split; [exact Hrows|]); split; reflexivity.
    + unfold result at 1 in Hst.
      rewrite (serve_check_raises e request w Hb Hauth) in Hst.
      destruct e; discriminate.
Qed.

End EndpointFacts.

(** C7.  A request on either endpoint that finds the user blocked is
    answered with status 429 and a message that carries [r / 60] minutes and
    [r mod 60] seconds, [r] being the remaining block time read right after
    the block check; the log of attempts is left as it was; and the answer
    and the final state are the same whatever the password, the client, the
    password check and the token encoder are: the credentials are not
    looked at. *)
Theorem blocked_request_rejected
    (verify_password : string -> string -> option bool)
    (jwt_encode : string -> datetime -> datetime -> string)
    (e : Endpoint) (request : Request) (w : World) :
  result (is_user_blocked (form_username request)) w = Returned true ->
  exists r,
    result (get_block_remaining_time (form_username request))
      (exec (is_user_blocked (form_username request)) w) = Returned r /\
    result (serve verify_password jwt_encode e request) w =
      Raised (mkHTTPException 429
        ("Account temporarily blocked due to too many failed login attempts. Please try again in "
         ++ str (r / 60) ++ " minutes and " ++ str (r mod 60) ++ " seconds.")
        [("WWW-Authenticate", "Bearer")])%string /\
    login_attempts (exec (serve verify_password jwt_encode e request) w) =
      login_attempts w /\
    forall verify_password' jwt_encode' host' password',
      serve verify_password' jwt_encode' e
        (mkRequest host' (form_username request) password') w =
      serve verify_password jwt_encode e request w.
Proof.
  intros Hb.
  destruct (get_block_remaining_time_returns (form_username request)
              (exec (is_user_blocked (form_username request)) w)) as [r Hr].
  exists r. split; [exact Hr|]. split; [|split].
  - now apply serve_blocked_result.
  - unfold exec at 1. rewrite (serve_blocked _ _ e request w Hb). cbn [snd].
    rewrite login_attempts_get_block_remaining_time.
    apply login_attempts_is_user_blocked.
  - intros vp' je' host' password'.
    rewrite (serve_blocked verify_password jwt_encode e request w Hb).
    now rewrite (serve_blocked vp' je' e
                   (mkRequest host' (form_username request) password') w Hb).
Qed.

Lemma blocked_request_rejected_witness :
  result (is_user_blocked "alice") (at_instant (seconds 45) [] alice_five)
    = Returned true /\
  exists r,
    result (serve plain_verify plain_encode TokenEndpoint
              (mkRequest None "alice" "secret"))
      (at_instant (seconds 45) [] alice_five) =
      Raised (mkHTTPException 429
        ("Account temporarily blocked due to too many failed login attempts. Please try again in "
         ++ str (r / 60) ++ " minutes and " ++ str (r mod 60) ++ " seconds.")
        [("WWW-Authenticate", "Bearer")])%string /\
    login_attempts
      (exec (serve plain_verify plain_encode TokenEndpoint
               (mkRequest None "alice" "secret"))
         (at_instant (seconds 45) [] alice_five)) = alice_five.
Proof.
  assert (Hb : result (is_user_blocked "alice")
                 (at_instant (seconds 45) [] alice_five) = Returned true)
    by reflexivity.
  split; [exact Hb|].
  destruct (blocked_request_rejected plain_verify plain_encode TokenEndpoint
              (mkRequest None "alice" "secret")
              (at_instant (seconds 45) [] alice_five) Hb)
    as (r & _ & Hres & Hrows & _).
  exists r. split; [exact Hres | exact Hrows].
Defined.

(** The message of the example: 1755 seconds are 29 minutes and 15 seconds. *)
Example blocked_request_message :
  result (serve plain_verify plain_encode LoginEndpoint
            (mkRequest None "alice" "secret"))
    (at_instant (seconds 45) [] alice_five) =
  Raised (mkHTTPException 429
    "Account temporarily blocked due to too many failed login attempts. Please try again in 29 minutes and 15 seconds."
    [("WWW-Authenticate", "Bearer")])%string.
Proof. reflexivity. Qed.

(** ** The log of attempts *)

(** C8.  A request on either endpoint that finds the user blocked leaves the
    log of attempts as it was.  A request that finds the user not blocked,
    and on which the authentication (the look-up of the user and the
    password check) returns, appends one row to it and touches no other:
    the row carries the user name and the client address of the request,
    the clock reading taken by [log_login_attempt], and [success] 1 when
    the authentication returned the user, 0 when it returned [False]
    (unknown user name or wrong password).  When the password check raises
    instead of returning, the request is not handled: it is answered 500
    and the log is left as it was.  The two limiter functions leave the log
    as it was, and [log_login_attempt] appends one row to it. *)
Theorem one_row_per_handled_request
    (verify_password : string -> string -> option bool)
    (jwt_encode : string -> datetime -> datetime -> string)
    (e : Endpoint) (request : Request) (w : World) :
  (result (is_user_blocked (form_username request)) w = Returned true ->
   login_attempts (exec (serve verify_password jwt_encode e request) w) =
   login_attempts w) /\
  (result (is_user_blocked (form_username request)) w = Returned false ->
   forall user,
     result (authenticate_user verify_password
               (form_username request) (form_password request)) w =
       Returned user ->
     login_attempts (exec (serve verify_password jwt_encode e request) w) =
     login_attempts w ++
       [LoginAttempt.mk (login_attempts_id_seq w + 1) (form_username request)
          (Some (client_ip_of request))
          match user with
          | Some _ => 1
          | None => 0
          end
          (now1 (exec (is_user_blocked (form_username request)) w))]) /\
  (result (is_user_blocked (form_username request)) w = Returned false ->
   result (authenticate_user verify_password
             (form_username request) (form_password request)) w = Errored ->
   result (serve verify_password jwt_encode e request) w =
     Raised (mkHTTPException 500 (internal_error_detail e) []) /\
   login_attempts (exec (serve verify_password jwt_encode e request) w) =
   login_attempts w) /\
  (forall username,
     login_attempts (exec (is_user_blocked username) w) = login_attempts w) /\
  (forall username,
     login_attempts (exec (get_block_remaining_time username) w) =
     login_attempts w) /\
  (forall username ip_address success,
     login_attempts (exec (log_login_attempt username ip_address success) w) =
     login_attempts w ++
       [LoginAttempt.mk (login_attempts_id_seq w + 1) username ip_address
          (if success then 1 else 0) (now1 w)]).
Proof.
  split; [|split; [|split; [|split; [|split]]]].
  - intros Hb. unfold exec at 1.
    rewrite (serve_blocked _ _ e request w Hb). cbn [snd].
    rewrite login_attempts_get_block_remaining_time.
    apply login_attempts_is_user_blocked.
  - intros Hb user Hauth.
    destruct (serve_not_blocked verify_password jwt_encode e request w user
                Hb Hauth) as [_ Hrows].
    rewrite Hrows. destruct user as [u|]; reflexivity.
  - intros Hb Hauth. unfold result at 1, exec at 1.
    rewrite (serve_check_raises _ _ e request w Hb Hauth). cbn [fst snd].
    split; [reflexivity|].
    apply login_attempts_is_user_blocked.
  - intros username. apply login_attempts_is_user_blocked.
  - intros username. apply login_attempts_get_block_remaining_time.
  - intros username ip_address success. reflexivity.
Qed.

(** A blocked request, a wrong password, the right password, and a password
    on which the check raises. *)
Lemma one_row_per_handled_request_witness :
  login_attempts
    (exec (serve plain_verify plain_encode LoginEndpoint
             (mkRequest None "alice" "secret"))
       (at_instant (seconds 45) [] alice_five)) = alice_five /\
  login_attempts
    (exec (serve plain_verify plain_encode TokenEndpoint carol_guess)
       carol_world) =
    [LoginAttempt.mk 1 "carol" (Some "10.0.0.7"%string) 0 (seconds 1)] /\
  login_attempts
    (exec (serve plain_verify plain_encode LoginEndpoint carol_secret)
       carol_world) =
    [LoginAttempt.mk 1 "carol" (Some "10.0.0.7"%string) 1 (seconds 1)] /\
  (result (serve strict_verify plain_encode LoginEndpoint carol_nul)
     carol_world =
     Raised (mkHTTPException 500
       "An error occurred during login. Please try again later." []) /\
   login_attempts
     (exec (serve strict_verify plain_encode LoginEndpoint carol_nul)
        carol_world) = []).
Proof.
  destruct (one_row_per_handled_request plain_verify plain_encode
              LoginEndpoint (mkRequest None "alice" "secret")
              (at_instant (seconds 45) [] alice_five)) as (Hblocked & _).
  destruct (one_row_per_handled_request plain_verify plain_encode
              TokenEndpoint carol_guess carol_world) as (_ & Hguess & _).
  destruct (one_row_per_handled_request plain_verify plain_encode
              LoginEndpoint carol_secret carol_world) as (_ & Hsecret & _).
  destruct (one_row_per_handled_request strict_verify plain_encode
              LoginEndpoint carol_nul carol_world) as (_ & _ & Hnul & _).
  split; [|split; [|split]].
  - apply Hblocked. reflexivity.
  - rewrite (Hguess eq_refl None eq_refl); reflexivity.
  - rewrite (Hsecret eq_refl (Some carol) eq_refl); reflexivity.
  - exact (Hnul eq_refl eq_refl).
Defined.

(** ** One log for both endpoints *)

Lemma serve_all_cons (verify_password : string -> string -> option bool)
    (jwt_encode : string -> datetime -> datetime -> string)
    (e : Endpoint) (request : Request) (calls : list (Endpoint * Request))
    (w : World) :
  serve_all verify_password jwt_encode ((e, request) :: calls) w =
  let w' := exec (serve verify_password jwt_encode e request) w in
  (status_of (result (serve verify_password jwt_encode e request) w)
     :: fst (serve_all verify_password jwt_encode calls w'),
   snd (serve_all verify_password jwt_encode calls w')).
Proof.
  cbn [serve_all]. unfold result, exec.
  destruct (serve verify_password jwt_encode e request w) as [o w'].
  cbn [fst snd].
  destruct (serve_all verify_password jwt_encode calls w') as [statuses w''].
  reflexivity.
Qed.

(** Requests of one user that are all answered 401 append one failure of
    that user each. *)
Lemma serve_all_failures (verify_password : string -> string -> option bool)
    (jwt_encode : string -> datetime -> datetime -> string)
    (username : string) (calls : list (Endpoint * Request)) :
  forall w,
    Forall (fun c => form_username (snd c) = username) calls ->
    Forall (fun st => st = 401)
      (fst (serve_all verify_password jwt_encode calls w)) ->
    exists new,
      login_attempts (snd (serve_all verify_password jwt_encode calls w)) =
        login_attempts w ++ new /\
      List.length new = List.length calls /\
      Forall (fun a => LoginAttempt.username a = username /\
                       LoginAttempt.success a = 0) new.
Proof.
  induction calls as [|[e request] calls IH]; intros w Hnames Hstatuses.
  - exists []. cbn. rewrite app_nil_r. auto.
  - rewrite serve_all_cons in *. cbv zeta in *. cbn [fst snd] in *.
    apply Forall_cons_iff in Hnames. destruct Hnames as [Hname Hnames'].
    apply Forall_cons_iff in Hstatuses. destruct Hstatuses as [Hst Hsts].
    cbn [snd] in Hname.
    destruct (serve_status_401 _ _ _ _ _ Hst) as (row & Hrow & Hu & Hs).
    destruct (IH _ Hnames' Hsts) as (new & Hnew & Hlen & Hall).
    exists (row :: new). split; [|split].
    + rewrite Hnew, Hrow, <- app_assoc. reflexivity.
    + cbn. now rewrite Hlen.
    + constructor; [|exact Hall]. split; [congruence | exact Hs].
Qed.

Lemma filter_all {A} (p : A -> bool) (l : list A) :
  Forall (fun a => p a = true) l -> filter p l = l.
Proof.
  induction 1 as [|a l Ha _ IH]; cbn; [reflexivity|].
  now rewrite Ha, IH.
Qed.

Lemma count_failed_since_app (rows new : list LoginAttempt.t)
    (username : string) (since : datetime) :
  count_failed_since (rows ++ new) username since =
  (count_failed_since rows username since +
   count_failed_since new username since)%nat.
Proof.
  unfold count_failed_since, failed_attempts_since.
  unfold Query.count in *.
  now rewrite filter_app, length_app.
Qed.

Lemma count_failed_since_all (new : list LoginAttempt.t) (username : string)
    (since : datetime) :
  Forall (fun a => LoginAttempt.username a = username /\
                   LoginAttempt.success a = 0) new ->
  (forall a, In a new -> since <= LoginAttempt.timestamp a) ->
  count_failed_since new username since = List.length new.
Proof.
  intros Hall Hrecent.
  unfold count_failed_since, failed_attempts_since.
  unfold Query.count in *.
  rewrite filter_all; [reflexivity|].
  apply Forall_forall. intros a Ha.
  rewrite Forall_forall in Hall. destruct (Hall a Ha) as [Hu Hs].
  unfold failed_since. rewrite Hu, Hs, String.eqb_refl. cbn.
  apply Z.leb_le. now apply Hrecent.
Qed.

(** C9.  Both endpoints write to and read from the one log of attempts.
    After five or more requests of one user, each made on either endpoint
    and each answered 401, a further request of that user on either
    endpoint is answered 429, provided the rows those requests appended lie
    in the minute before it (its two clock readings being at most 29
    minutes apart).  Three failures on one endpoint and two on the other
    are one such case. *)
Theorem failures_shared_across_endpoints
    (verify_password : string -> string -> option bool)
    (jwt_encode : string -> datetime -> datetime -> string)
    (calls : list (Endpoint * Request)) (e : Endpoint) (request : Request)
    (username : string) (w : World) :
  (5 <= List.length calls)%nat ->
  Forall (fun c => form_username (snd c) = username) calls ->
  Forall (fun st => st = 401)
    (fst (serve_all verify_password jwt_encode calls w)) ->
  (forall a,
     In a (skipn (List.length (login_attempts w))
             (login_attempts
                (snd (serve_all verify_password jwt_encode calls w)))) ->
     now1 (snd (serve_all verify_password jwt_encode calls w)) - minutes 1
       <= LoginAttempt.timestamp a) ->
  now2 (snd (serve_all verify_password jwt_encode calls w)) -
    now1 (snd (serve_all verify_password jwt_encode calls w)) <= minutes 29 ->
  form_username request = username ->
  status_of
    (result (serve verify_password jwt_encode e request)
       (snd (serve_all verify_password jwt_encode calls w))) = 429.
Proof.
  intros Hfive Hnames Hstatuses Hrecent Hdrift Hname.
  destruct (serve_all_failures verify_password jwt_encode username calls w
              Hnames Hstatuses) as (new & Hnew & Hlen & Hall).
  set (w' := snd (serve_all verify_password jwt_encode calls w)) in *.
  rewrite Hnew in Hrecent.
  rewrite skipn_app, skipn_all, Nat.sub_diag in Hrecent.
  cbn [skipn app] in Hrecent.
  assert (Hb : result (is_user_blocked (form_username request)) w' =
               Returned true).
  { rewrite (is_user_blocked_by_count w' _ Hdrift).
    unfold is_blocked_by_count. rewrite Hname, Hnew.
    rewrite count_failed_since_app.
    rewrite (count_failed_since_all new username _ Hall Hrecent).
    f_equal. apply Nat.leb_le. lia. }
  destruct (get_block_remaining_time_returns (form_username request)
              (exec (is_user_blocked (form_username request)) w'))
    as [r Hr].
  rewrite (serve_blocked_result verify_password jwt_encode e request w' r
             Hb Hr).
  reflexivity.
Qed.

(** Carol: three wrong passwords on /login and two on /token, then the
    right password on /login and a wrong one on /token, all within eleven
    seconds. *)
Lemma failures_shared_across_endpoints_witness :
  fst (serve_all plain_verify plain_encode carol_calls carol_world) =
    [401; 401; 401; 401; 401] /\
  status_of
    (result (serve plain_verify plain_encode LoginEndpoint carol_secret)
       (snd (serve_all plain_verify plain_encode carol_calls carol_world)))
    = 429 /\
  status_of
    (result (serve plain_verify plain_encode TokenEndpoint carol_guess)
       (snd (serve_all plain_verify plain_encode carol_calls carol_world)))
    = 429.
Proof.
  assert (Hfive : (5 <= List.length carol_calls)%nat) by (vm_compute; lia).
  assert (Hnames : Forall (fun c => form_username (snd c) = "carol"%string)
                     carol_calls)
    by (repeat constructor).
  assert (Hstatuses : Forall (fun st => st = 401)
            (fst (serve_all plain_verify plain_encode carol_calls
                    carol_world)))
    by (vm_compute; repeat constructor).
  assert (Hrecent : forall a,
    In a (skipn (List.length (login_attempts carol_world))
            (login_attempts
               (snd (serve_all plain_verify plain_encode carol_calls
                       carol_world)))) ->
    now1 (snd (serve_all plain_verify plain_encode carol_calls carol_world))
      - minutes 1 <= LoginAttempt.timestamp a).
  { intros a Ha. vm_compute in Ha.
    repeat (destruct Ha as [<-|Ha]; [vm_compute; discriminate|]).
    contradiction. }
  assert (Hdrift :
    now2 (snd (serve_all plain_verify plain_encode carol_calls carol_world)) -
    now1 (snd (serve_all plain_verify plain_encode carol_calls carol_world))
    <= minutes 29)
    by (vm_compute; discriminate).
  split; [reflexivity|]. split.
  - exact (failures_shared_across_endpoints plain_verify plain_encode
             carol_calls LoginEndpoint carol_secret "carol" carol_world
             Hfive Hnames Hstatuses Hrecent Hdrift eq_refl).
  - exact (failures_shared_across_endpoints plain_verify plain_encode
             carol_calls TokenEndpoint carol_guess "carol" carol_world
             Hfive Hnames Hstatuses Hrecent Hdrift eq_refl).
Defined.

(** * Further properties of the login endpoints and the limiter *)

(** ** The two endpoints *)

(** X1.  POST /token and POST /login agree: on every request and every
    state they leave the same state behind and answer with the same status,
    although /login looks the user up once more before it authenticates.
    Unless that status is 500 the two answers are the same altogether.  An
    answer 500 (the password check raised) carries a detail that names the
    endpoint: "An error occurred during login. Please try again later." on
    /login and "An error occurred during token creation. Please try again
    later." on /token. *)
Theorem endpoints_agree
    (verify_password : string -> string -> option bool)
    (jwt_encode : string -> datetime -> datetime -> string)
    (request : Request) (w : World) :
  exec (login_for_access_token verify_password jwt_encode request) w =
    exec (login verify_password jwt_encode request) w /\
  status_of (result (login_for_access_token verify_password jwt_encode
                       request) w) =
    status_of (result (login verify_password jwt_encode request) w) /\
  (status_of (result (login verify_password jwt_encode request) w) <> 500 ->
   result (login_for_access_token verify_password jwt_encode request) w =
   result (login verify_password jwt_encode request) w) /\
  (status_of (result (login verify_password jwt_encode request) w) = 500 ->
   result (login verify_password jwt_encode request) w =
     Raised (mkHTTPException 500
       "An error occurred during login. Please try again later." []) /\
   result (login_for_access_token verify_password jwt_encode request) w =
     Raised (mkHTTPException 500
       "An error occurred during token creation. Please try again later."
       [])).
Proof.
  change (login_for_access_token verify_password jwt_encode request)
    with (serve verify_password jwt_encode TokenEndpoint request).
  change (login verify_password jwt_encode request)
    with (serve verify_password jwt_encode LoginEndpoint request).
  unfold result, exec.
  destruct (is_user_blocked_returns (form_username request) w) as [[|] Hb].
  - rewrite !(serve_blocked verify_password jwt_encode _ request w Hb).
    destruct (get_block_remaining_time_returns (form_username request)
                (exec (is_user_blocked (form_username request)) w))
      as [r ->].
    cbn [fst snd status_of blocked_exception status_code].
    repeat split; discriminate.
  - destruct (authenticate_user_cases verify_password (form_username request)
                (form_password request) w) as [[user Hauth] | Hauth].
    + rewrite !serve_run. cbv zeta. rewrite Hb, Hauth.
      destruct user as [u|]; cbn [fst snd status_of]; repeat split;
        discriminate.
    + rewrite !(serve_check_raises verify_password jwt_encode _ request w
                  Hb Hauth).
      cbn [fst snd status_of internal_error status_code].
      repeat split. intros H. now contradiction H.
Qed.

(** A wrong password, and a password on which the check raises. *)
Lemma endpoints_agree_witness :
  result (login_for_access_token plain_verify plain_encode carol_guess)
    carol_world =
  result (login plain_verify plain_encode carol_guess) carol_world /\
  result (login strict_verify plain_encode carol_nul) carol_world =
    Raised (mkHTTPException 500
      "An error occurred during login. Please try again later." []) /\
  result (login_for_access_token strict_verify plain_encode carol_nul)
    carol_world =
    Raised (mkHTTPException 500
      "An error occurred during token creation. Please try again later." []).
Proof.
  destruct (endpoints_agree plain_verify plain_encode carol_guess carol_world)
    as (_ & _ & Hsame & _).
  destruct (endpoints_agree strict_verify plain_encode carol_nul carol_world)
    as (_ & _ & _ & Hraises).
  split.
  - apply Hsame. vm_compute. discriminate.
  - apply Hraises. reflexivity.
Defined.

(** The user that authenticates carries the name that was asked for and is
    a row of the table. *)
Lemma authenticate_user_found
    (verify_password : string -> string -> option bool)
    (username password : string) (w : World) (u : User.t) :
  result (authenticate_user verify_password username password) w =
    Returned (Some u) ->
  User.username u = username /\ In u (users w) /\
  verify_password password (User.hashed_password u) = Some true.
Proof.
  unfold result. rewrite authenticate_user_run. cbn [fst].
  destruct (Query.first _) as [u'|] eqn:Hu; [|discriminate].
  destruct (verify_password password (User.hashed_password u'))
    as [[|]|] eqn:Hv; try discriminate.
  intros [= <-].
  unfold Query.first in Hu.
  destruct (filter _ (users w)) as [|u0 l] eqn:Hf; [discriminate|].
  injection Hu as ->.
  assert (Hin : In u' (filter (fun u => String.eqb (User.username u) username)
                         (users w))) by (rewrite Hf; now left).
  apply filter_In in Hin. destruct Hin as [Hin Hname].
  apply String.eqb_eq in Hname. auto.
Qed.

(** X2.  A request of a user who is not blocked, with credentials that
    authenticate, is answered with a bearer token whose claims are: [sub]
    the name that was asked for, [iat] and [nbf] the integer timestamp of
    the clock reading [t] that follows the one stamped on the log row, and
    [exp] the integer timestamp of [t + 24 hours].  The expiry is 24 hours
    whatever ACCESS_TOKEN_EXPIRE_MINUTES says.  [t] and [t + 24 hours] are
    naive datetimes, which [timestamp] reads in the local time zone of the
    server: [exp - iat] is what that reading makes of the 24 hours. *)
Theorem login_issues_day_token
    (verify_password : string -> string -> option bool)
    (timestamp : datetime -> Z)
    (jose_encode : string -> Z -> Z -> Z -> string)
    (e : Endpoint) (request : Request) (w : World) (u : User.t) :
  result (is_user_blocked (form_username request)) w = Returned false ->
  result (authenticate_user verify_password (form_username request)
            (form_password request)) w = Returned (Some u) ->
  let t := now2 (exec (is_user_blocked (form_username request)) w) in
  result (serve verify_password (encode_claims timestamp jose_encode)
            e request) w =
  Returned (mkToken
    (jose_encode (form_username request)
       (timestamp (t + hours 24)) (timestamp t) (timestamp t))
    "bearer").
Proof.
  intros Hb Hu.
  destruct (authenticate_user_found _ _ _ _ _ Hu) as (Hname & _ & _).
  unfold result at 1. rewrite serve_run. cbv zeta. rewrite Hb, Hu.
  cbn [fst]. rewrite Hname. reflexivity.
Qed.

(** On a server whose local time is UTC: issued at second 2, expiring at
    second 86402. *)
Lemma login_issues_day_token_witness :
  result (is_user_blocked "carol") carol_world = Returned false /\
  result (authenticate_user plain_verify "carol" "secret") carol_world =
    Returned (Some carol) /\
  result (serve plain_verify (encode_claims utc_timestamp claims_encode)
            LoginEndpoint carol_secret) carol_world =
  Returned (mkToken "carol 86402 2 2" "bearer").
Proof.
  assert (Hb : result (is_user_blocked (form_username carol_secret))
                 carol_world = Returned false) by reflexivity.
  assert (Hu : result (authenticate_user plain_verify
                         (form_username carol_secret)
                         (form_password carol_secret)) carol_world =
               Returned (Some carol)) by reflexivity.
  split; [exact Hb|]. split; [exact Hu|].
  rewrite (login_issues_day_token plain_verify utc_timestamp claims_encode
             LoginEndpoint carol_secret carol_world carol Hb Hu).
  reflexivity.
Defined.

(** X3.  A request of a user who is not blocked is answered in one and the
    same way when no user carries the name and when the password check
    returns false: status 401, the detail "Incorrect username or password"
    and the header WWW-Authenticate: Bearer.  When the password check
    raises, which it can only for a user that exists, the answer is 500
    instead: with such a password the answer tells whether the user name
    exists. *)
Theorem invalid_credentials_uniform
    (verify_password : string -> string -> option bool)
    (jwt_encode : string -> datetime -> datetime -> string)
    (e : Endpoint) (request : Request) (w : World) :
  result (is_user_blocked (form_username request)) w = Returned false ->
  ((forall u, In u (users w) -> User.username u <> form_username request) \/
   (exists u, result (auth.get_user (form_username request)) w =
                Returned (Some u) /\
              verify_password (form_password request)
                (User.hashed_password u) = Some false) ->
   result (serve verify_password jwt_encode e request) w =
   Raised (mkHTTPException 401 "Incorrect username or password"
             [("WWW-Authenticate", "Bearer")]%string)) /\
  (forall u,
     result (auth.get_user (form_username request)) w = Returned (Some u) ->
     verify_password (form_password request) (User.hashed_password u) =
       None ->
     result (serve verify_password jwt_encode e request) w =
     Raised (mkHTTPException 500 (internal_error_detail e) [])).
Proof.
  intros Hb. split.
  - intros Hwhy.
    assert (Hnone : result (authenticate_user verify_password
                              (form_username request) (form_password request))
                      w = Returned None).
    { unfold result. rewrite authenticate_user_run. cbn [fst].
      destruct Hwhy as [Hunknown | (u & Hu & Hv)].
      - destruct (Query.first _) as [u'|] eqn:Hu; [|reflexivity].
        unfold Query.first in Hu.
        destruct (filter _ (users w)) as [|u0 l] eqn:Hf; [discriminate|].
        injection Hu as ->.
        assert (Hin : In u' (filter
                  (fun u => String.eqb (User.username u)
                              (form_username request))
                  (users w))) by (rewrite Hf; now left).
        apply filter_In in Hin. destruct Hin as [Hin Hname].
        apply String.eqb_eq in Hname. now apply Hunknown in Hin.
      - unfold result, auth.get_user, bind, query_User, ret in Hu.
        cbn [fst] in Hu. injection Hu as ->. now rewrite Hv. }
    unfold result at 1. rewrite serve_run. cbv zeta. rewrite Hb, Hnone.
    reflexivity.
  - intros u Hu Hv.
    assert (Herr : result (authenticate_user verify_password
                             (form_username request) (form_password request))
                     w = Errored).
    { unfold result. rewrite authenticate_user_run. cbn [fst].
      unfold result, auth.get_user, bind, query_User, ret in Hu.
      cbn [fst] in Hu. injection Hu as ->. now rewrite Hv. }
    unfold result at 1.
    now rewrite (serve_check_raises _ _ e request w Hb Herr).
Qed.

(** A wrong password for carol and any password for the unknown dave get
    the same 401; a password with a NUL byte gets 500 for carol and 401 for
    dave. *)
Lemma invalid_credentials_uniform_witness :
  result (serve plain_verify plain_encode LoginEndpoint carol_guess)
    carol_world =
  Raised (mkHTTPException 401 "Incorrect username or password"
            [("WWW-Authenticate", "Bearer")]%string) /\
  result (serve strict_verify plain_encode TokenEndpoint
            (mkRequest None "dave" (form_password carol_nul))) carol_world =
  Raised (mkHTTPException 401 "Incorrect username or password"
            [("WWW-Authenticate", "Bearer")]%string) /\
  result (serve strict_verify plain_encode TokenEndpoint carol_nul)
    carol_world =
  Raised (mkHTTPException 500
    "An error occurred during token creation. Please try again later." []).
Proof.
  split; [|split].
  - apply invalid_credentials_uniform; [reflexivity|].
    right. exists carol. split; reflexivity.
  - apply invalid_credentials_uniform; [reflexivity|].
    left. intros u [<-|[]]. vm_compute. discriminate.
  - apply (invalid_credentials_uniform strict_verify plain_encode
             TokenEndpoint carol_nul carol_world eq_refl) with (u := carol);
      reflexivity.
Defined.

(** ** What the limiter depends on *)

(** The two answers of the limiter are functions of the number of selected
    rows and of the timestamp of the row the lookup returns. *)
Lemma limiter_same_summary (username : string) (w w' : World) :
  now1 w' = now1 w -> now2 w' = now2 w ->
  count_failed_since (login_attempts w') username (now1 w - minutes 1) =
  count_failed_since (login_attempts w) username (now1 w - minutes 1) ->
  option_map LoginAttempt.timestamp
    (earliest_failed_since (login_attempts w') username (now1 w - minutes 1)) =
  option_map LoginAttempt.timestamp
    (earliest_failed_since (login_attempts w) username (now1 w - minutes 1)) ->
  result (is_user_blocked username) w' = result (is_user_blocked username) w /\
  result (get_block_remaining_time username) w' =
  result (get_block_remaining_time username) w.
Proof.
  intros H1 H2 Hc He. unfold result.
  rewrite !is_user_blocked_run, !get_block_remaining_time_run.
  rewrite H1, H2, Hc.
  destruct (earliest_failed_since (login_attempts w') _ _) as [a'|];
    destruct (earliest_failed_since (login_attempts w) _ _) as [a|];
    cbn [option_map] in He; try discriminate.
  - injection He as ->. split; [|reflexivity].
    destruct (5 <=? _)%nat; reflexivity.
  - split; [|reflexivity]. destruct (5 <=? _)%nat; reflexivity.
Qed.

Lemma failed_attempts_since_attempts_of (rows : list LoginAttempt.t)
    (username : string) (since : datetime) :
  failed_attempts_since (attempts_of username rows) username since =
  failed_attempts_since rows username since.
Proof.
  unfold failed_attempts_since, attempts_of.
  induction rows as [|a rows IH]; [reflexivity|]. cbn [filter].
  destruct (String.eqb (LoginAttempt.username a) username) eqn:Hu.
  - cbn [filter]. now rewrite IH.
  - rewrite IH. unfold failed_since at 2. now rewrite Hu.
Qed.

(** X4.  Blocking is per user name: the answers of [is_user_blocked] and
    [get_block_remaining_time] for a user are the same on a log and on the
    rows of that log that carry the user's name; what other users did, and
    how often, plays no part. *)
Theorem limiter_reads_own_rows (username : string)
    (rows : list LoginAttempt.t) (w : World) :
  result (is_user_blocked username)
    (with_login_attempts (attempts_of username rows) w) =
  result (is_user_blocked username) (with_login_attempts rows w) /\
  result (get_block_remaining_time username)
    (with_login_attempts (attempts_of username rows) w) =
  result (get_block_remaining_time username) (with_login_attempts rows w).
Proof.
  apply limiter_same_summary; try reflexivity;
    cbn [with_login_attempts login_attempts];
    unfold count_failed_since, earliest_failed_since;
    now rewrite failed_attempts_since_attempts_of.
Qed.

Section SameView.

Lemma same_view_failed_since (username : string) (since : datetime)
    (a b : LoginAttempt.t) :
  limiter_view a = limiter_view b ->
  failed_since username since a = failed_since username since b.
Proof.
  unfold limiter_view, failed_since. now intros [= -> -> ->].
Qed.

Lemma same_view_filter (username : string) (since : datetime)
    (rows rows' : list LoginAttempt.t) :
  Forall2 same_view rows rows' ->
  Forall2 same_view (failed_attempts_since rows username since)
    (failed_attempts_since rows' username since).
Proof.
  unfold failed_attempts_since.
  induction 1 as [|a b rows rows' Hab _ IH]; cbn [filter]; [constructor|].
  rewrite (same_view_failed_since username since a b Hab).
  destruct (failed_since username since b); [constructor|]; assumption.
Qed.

Lemma same_view_insert (a b : LoginAttempt.t) (q q' : list LoginAttempt.t) :
  same_view a b -> Forall2 same_view q q' ->
  Forall2 same_view (Query.insert_by_timestamp a q)
    (Query.insert_by_timestamp b q').
Proof.
  intros Hab. induction 1 as [|c d q q' Hcd Hq IH];
    cbn [Query.insert_by_timestamp].
  - repeat constructor. exact Hab.
  - assert (Ha : LoginAttempt.timestamp a = LoginAttempt.timestamp b)
      by (unfold same_view, limiter_view in Hab; congruence).
    assert (Hc : LoginAttempt.timestamp c = LoginAttempt.timestamp d)
      by (unfold same_view, limiter_view in Hcd; congruence).
    rewrite Ha, Hc.
    destruct (LoginAttempt.timestamp b <=? LoginAttempt.timestamp d);
      repeat constructor; assumption.
Qed.

Lemma same_view_order_by (q q' : list LoginAttempt.t) :
  Forall2 same_view q q' ->
  Forall2 same_view (Query.order_by_timestamp_asc q)
    (Query.order_by_timestamp_asc q').
Proof.
  induction 1; cbn [Query.order_by_timestamp_asc fold_right];
    [constructor|].
  now apply same_view_insert.
Qed.

Lemma same_view_of_map (rows rows' : list LoginAttempt.t) :
  map limiter_view rows = map limiter_view rows' ->
  Forall2 same_view rows rows'.
Proof.
  revert rows'. induction rows as [|a rows IH]; intros [|b rows'];
    cbn [map]; try discriminate; [constructor|].
  intros H.
  pose proof (f_equal (@List.hd _ (limiter_view a)) H) as Hab.
  pose proof (f_equal (@List.tl _) H) as Hrest.
  constructor; [exact Hab | now apply IH].
Qed.

Lemma same_view_summary (username : string) (since : datetime)
    (rows rows' : list LoginAttempt.t) :
  map limiter_view rows = map limiter_view rows' ->
  count_failed_since rows' username since =
  count_failed_since rows username since /\
  option_map LoginAttempt.timestamp
    (earliest_failed_since rows' username since) =
  option_map LoginAttempt.timestamp
    (earliest_failed_since rows username since).
Proof.
  intros Hmap. apply same_view_of_map in Hmap.
  pose proof (same_view_filter username since _ _ Hmap) as Hf.
  split.
  - unfold count_failed_since. unfold Query.count in *.
    symmetry. exact (Forall2_length Hf).
  - unfold earliest_failed_since. rewrite !first_limit_1.
    apply same_view_order_by in Hf.
    destruct Hf as [|a b q q' Hab _]; [reflexivity|].
    cbn. unfold same_view, limiter_view in Hab. congruence.
Qed.

End SameView.

(** X5.  The limiter reads the user name, the success flag and the
    timestamp of a row and nothing else: two logs whose rows agree on these
    three columns, whatever their keys and client addresses, get the same
    answers from [is_user_blocked] and [get_block_remaining_time]. *)
Theorem limiter_ignores_client_address (username : string)
    (rows rows' : list LoginAttempt.t) (w : World) :
  map limiter_view rows = map limiter_view rows' ->
  result (is_user_blocked username) (with_login_attempts rows' w) =
  result (is_user_blocked username) (with_login_attempts rows w) /\
  result (get_block_remaining_time username) (with_login_attempts rows' w) =
  result (get_block_remaining_time username) (with_login_attempts rows w).
Proof.
  intros Hmap.
  destruct (same_view_summary username (now1 w - minutes 1) rows rows' Hmap)
    as [Hc He].
  apply limiter_same_summary; try reflexivity; assumption.
Qed.

(** Five failures of alice from five addresses block her as five failures
    from one address do. *)
Lemma limiter_ignores_client_address_witness :
  result (is_user_blocked "alice")
    (with_login_attempts
       (map (fun a => LoginAttempt.mk (LoginAttempt.id a)
                        (LoginAttempt.username a)
                        (Some (str (LoginAttempt.id a)))
                        (LoginAttempt.success a) (LoginAttempt.timestamp a))
          alice_five)
       (at_instant (seconds 45) [] [])) = Returned true.
Proof.
  rewrite (proj1 (limiter_ignores_client_address "alice" alice_five
    (map (fun a => LoginAttempt.mk (LoginAttempt.id a)
                     (LoginAttempt.username a)
                     (Some (str (LoginAttempt.id a)))
                     (LoginAttempt.success a) (LoginAttempt.timestamp a))
       alice_five)
    (at_instant (seconds 45) [] []) eq_refl)).
  reflexivity.
Defined.

Lemma Permutation_filter_same {A} (f : A -> bool) (l l' : list A) :
  Permutation l l' -> Permutation (filter f l) (filter f l').
Proof.
  induction 1 as [|x l l' _ IH|x y l|l l' l'' _ IH1 _ IH2]; cbn [filter].
  - constructor.
  - destruct (f x); [now constructor | assumption].
  - destruct (f x), (f y); try reflexivity. apply perm_swap.
  - now transitivity (filter f l').
Qed.

Lemma earliest_failed_Permutation (rows rows' : list LoginAttempt.t)
    (username : string) (since : datetime) (a : LoginAttempt.t) :
  Permutation rows rows' ->
  earliest_failed rows username since a ->
  earliest_failed rows' username since a.
Proof.
  intros Hp (Hin & Hf & Hmin). split; [|split].
  - now apply (Permutation_in _ Hp).
  - exact Hf.
  - intros b Hb. apply Hmin. now apply (Permutation_in _ (Permutation_sym Hp)).
Qed.

Lemma Permutation_summary (username : string) (since : datetime)
    (rows rows' : list LoginAttempt.t) :
  Permutation rows rows' ->
  count_failed_since rows' username since =
  count_failed_since rows username since /\
  option_map LoginAttempt.timestamp
    (earliest_failed_since rows' username since) =
  option_map LoginAttempt.timestamp
    (earliest_failed_since rows username since).
Proof.
  intros Hp.
  assert (Hc : count_failed_since rows' username since =
               count_failed_since rows username since).
  { unfold count_failed_since, failed_attempts_since.
    unfold Query.count in *. symmetry.
    apply Permutation_length. now apply Permutation_filter_same. }
  split; [exact Hc|].
  destruct (earliest_failed_since rows username since) as [m|] eqn:Hm.
  - apply earliest_failed_since_Some in Hm.
    apply (earliest_failed_Permutation _ _ _ _ _ Hp) in Hm.
    destruct (earliest_failed_lookup _ _ _ _ Hm) as (m' & -> & Ht).
    cbn. now rewrite Ht.
  - apply earliest_failed_since_None in Hm. rewrite <- Hc in Hm.
    apply earliest_failed_since_None in Hm. now rewrite Hm.
Qed.

(** X6.  The order of the rows in the table plays no part: on two logs
    that hold the same rows in different orders [is_user_blocked] and
    [get_block_remaining_time] give the same answers. *)
Theorem limiter_ignores_row_order (username : string)
    (rows rows' : list LoginAttempt.t) (w : World) :
  Permutation rows rows' ->
  result (is_user_blocked username) (with_login_attempts rows' w) =
  result (is_user_blocked username) (with_login_attempts rows w) /\
  result (get_block_remaining_time username) (with_login_attempts rows' w) =
  result (get_block_remaining_time username) (with_login_attempts rows w).
Proof.
  intros Hp.
  destruct (Permutation_summary username (now1 w - minutes 1) rows rows' Hp)
    as [Hc He].
  apply limiter_same_summary; try reflexivity; assumption.
Qed.

Lemma limiter_ignores_row_order_witness :
  Permutation alice_two (rev alice_two) /\
  result (get_block_remaining_time "alice")
    (with_login_attempts (rev alice_two) (at_instant (seconds 55) [] [])) =
  Returned 1745.
Proof.
  assert (Hp : Permutation alice_two (rev alice_two))
    by apply Permutation_rev.
  split; [exact Hp|].
  rewrite (proj2 (limiter_ignores_row_order "alice" alice_two (rev alice_two)
                    (at_instant (seconds 55) [] []) Hp)).
  reflexivity.
Defined.

(** ** How long a block lasts *)

Lemma count_failed_since_later (rows : list LoginAttempt.t)
    (username : string) (since since' : datetime) :
  since <= since' ->
  (count_failed_since rows username since' <=
   count_failed_since rows username since)%nat.
Proof.
  intros Hle. unfold count_failed_since, failed_attempts_since.
  unfold Query.count in *.
  induction rows as [|a rows IH]; cbn [filter]; [lia|].
  destruct (failed_since username since' a) eqn:Hf'.
  - apply failed_since_window in Hf'. destruct Hf' as (Hu & Hs & Ht).
    replace (failed_since username since a) with true.
    + cbn [List.length]. lia.
    + symmetry. apply failed_since_window. repeat split; trivial. lia.
  - destruct (failed_since username since a); cbn [List.length]; lia.
Qed.

(** X7.  While no row is added, a user who is not blocked stays so: when
    [is_user_blocked] answers false at one clock reading it answers false on
    the same log at every later reading (the two readings of the first call
    being at most 29 minutes apart). *)
Theorem unblocked_stays_unblocked (username : string) (w w' : World) :
  login_attempts w' = login_attempts w ->
  now1 w <= now1 w' ->
  now2 w - now1 w <= minutes 29 ->
  result (is_user_blocked username) w = Returned false ->
  result (is_user_blocked username) w' = Returned false.
Proof.
  intros Hrows Hlater Hdrift Hfree.
  rewrite (is_user_blocked_by_count w username Hdrift) in Hfree.
  injection Hfree as Hfree. unfold is_blocked_by_count in Hfree.
  apply Nat.leb_gt in Hfree.
  apply is_user_blocked_few. rewrite Hrows.
  pose proof (count_failed_since_later (login_attempts w) username
                (now1 w - minutes 1) (now1 w' - minutes 1)).
  lia.
Qed.

Lemma unblocked_stays_unblocked_witness :
  result (is_user_blocked "alice") (at_instant (seconds 61) [] alice_five) =
    Returned false /\
  result (is_user_blocked "alice") (at_instant (minutes 10) [carol] alice_five) =
    Returned false.
Proof.
  assert (Hfree : result (is_user_blocked "alice")
                    (at_instant (seconds 61) [] alice_five) = Returned false)
    by reflexivity.
  split; [exact Hfree|].
  apply (unblocked_stays_unblocked "alice"
           (at_instant (seconds 61) [] alice_five)
           (at_instant (minutes 10) [carol] alice_five)).
  - reflexivity.
  - vm_compute. discriminate.
  - vm_compute. discriminate.
  - exact Hfree.
Defined.

(** X8.  No block outlasts the minute that follows the last recorded
    attempt: once the clock is more than one minute past every timestamp of
    the log, [is_user_blocked] answers false and
    [get_block_remaining_time] answers 0, for every user. *)
Theorem block_ends_with_the_minute (username : string) (t : datetime)
    (w : World) :
  (forall a, In a (login_attempts w) -> LoginAttempt.timestamp a <= t) ->
  t + minutes 1 < now1 w ->
  result (is_user_blocked username) w = Returned false /\
  result (get_block_remaining_time username) w = Returned 0.
Proof.
  intros Hpast Hlate.
  assert (Hnone : count_failed_since (login_attempts w) username
                    (now1 w - minutes 1) = 0%nat).
  { unfold count_failed_since, failed_attempts_since.
    unfold Query.count in *.
    destruct (filter _ (login_attempts w)) as [|b l] eqn:Hf; [reflexivity|].
    assert (Hb : In b (filter (failed_since username (now1 w - minutes 1))
                         (login_attempts w))) by (rewrite Hf; now left).
    apply filter_In in Hb. destruct Hb as [Hin Hb].
    apply failed_since_window in Hb. destruct Hb as (_ & _ & Ht).
    apply Hpast in Hin. lia. }
  split.
  - apply is_user_blocked_few. lia.
  - now apply get_block_remaining_time_none.
Qed.

Lemma block_ends_with_the_minute_witness :
  result (is_user_blocked "alice")
    (at_instant (seconds 101) [] alice_five) = Returned false /\
  result (get_block_remaining_time "alice")
    (at_instant (seconds 101) [] alice_five) = Returned 0.
Proof.
  apply (block_ends_with_the_minute "alice" (seconds 40)).
  - intros a Ha. simpl in Ha.
    repeat (destruct Ha as [<-|Ha]; [vm_compute; discriminate|]).
    contradiction.
  - vm_compute. reflexivity.
Defined.

(** ** Sequences of requests *)

(** What one request does to the state: the users and the clock are left
    alone, readings are taken, and the log is either left alone (429 and
    500) or grows by one row stamped with one of those readings (401 with a
    failure, 200 with a success). *)
Lemma serve_post (verify_password : string -> string -> option bool)
    (jwt_encode : string -> datetime -> datetime -> string)
    (e : Endpoint) (request : Request) (w : World) :
  let o := result (serve verify_password jwt_encode e request) w in
  let w' := exec (serve verify_password jwt_encode e request) w in
  users w' = users w /\ clock w' = clock w /\ (reads w < reads w')%nat /\
  (((status_of o = 429 \/ status_of o = 500) /\
    login_attempts w' = login_attempts w) \/
   exists row j,
     login_attempts w' = login_attempts w ++ [row] /\
     LoginAttempt.timestamp row = clock w j /\
     (reads w <= j < reads w')%nat /\
     (status_of o = 401 /\ LoginAttempt.success row = 0 \/
      status_of o = 200 /\ LoginAttempt.success row = 1)).
Proof.
  cbv zeta. unfold result, exec.
  rewrite !serve_run. cbv zeta.
  destruct (is_user_blocked_returns (form_username request) w) as [b Hb].
  rewrite !Hb.
  destruct (is_user_blocked_exec (form_username request) w) as [Hw1 | Hw1];
    rewrite !Hw1; destruct b.
  all: try (rewrite !get_block_remaining_time_run;
            destruct (earliest_failed_since _ _ _);
            cbn [fst snd tick users clock reads login_attempts status_of
                 blocked_exception status_code];
            repeat split; try lia; try reflexivity;
            left; (split; [left|]); reflexivity).
  all: destruct (authenticate_user_cases verify_password
                   (form_username request) (form_password request) w)
         as [[[u|] Hauth] | Hauth]; rewrite !Hauth.
  all: try (cbn [fst snd tick users clock reads login_attempts status_of
                 internal_error status_code];
            repeat split; try lia; try reflexivity;
            left; (split; [right|]); reflexivity).
  all: unfold exec; rewrite !log_login_attempt_run;
    cbn [fst snd tick users clock reads login_attempts status_of
         unauthorized_exception status_code];
    repeat split; try lia; try reflexivity; right;
    eexists; eexists; (split; [reflexivity|]);
    unfold now1;
    cbn [LoginAttempt.timestamp LoginAttempt.success tick clock reads];
    (split; [reflexivity|]); (split; [lia|]); auto.
Qed.

(** X9.  Over any sequence of requests on the two endpoints, every answer
    is 200, 401, 429 or 500, the table of users is left as it was, and the
    log of attempts grows at its end by exactly one row for each answer 200
    or 401; a sequence answered 429 or 500 throughout leaves the log as it
    was. *)
Theorem requests_account_for_rows
    (verify_password : string -> string -> option bool)
    (jwt_encode : string -> datetime -> datetime -> string)
    (calls : list (Endpoint * Request)) (w : World) :
  let statuses := fst (serve_all verify_password jwt_encode calls w) in
  let w' := snd (serve_all verify_password jwt_encode calls w) in
  List.length statuses = List.length calls /\
  Forall (fun st => st = 200 \/ st = 401 \/ st = 429 \/ st = 500)
    statuses /\
  users w' = users w /\
  (exists new, login_attempts w' = login_attempts w ++ new /\
               List.length new = handled statuses) /\
  (Forall (fun st => st = 429 \/ st = 500) statuses ->
   login_attempts w' = login_attempts w).
Proof.
  cbv zeta. revert w.
  induction calls as [|[e request] calls IH]; intros w.
  - cbn. repeat split; try constructor.
    exists []. now rewrite app_nil_r.
  - rewrite serve_all_cons. cbv zeta. cbn [fst snd].
    destruct (serve_post verify_password jwt_encode e request w)
      as (Hus & _ & _ & Hlog).
    destruct (IH (exec (serve verify_password jwt_encode e request) w))
      as (Hlen & Hall & Hus' & (new & Hnew & Hcount) & Hquiet).
    split; [cbn; now rewrite Hlen|].
    split.
    { constructor; [|exact Hall].
      destruct Hlog as [[[-> | ->] _]
                       | (row & j & _ & _ & _ & [[-> _] | [-> _]])];
        auto. }
    split; [now rewrite Hus', Hus|].
    split.
    + destruct Hlog as [[Hst Hsame] | (row & j & Hrow & _ & _ & Hst)].
      * exists new. rewrite Hnew, Hsame. split; [reflexivity|].
        unfold handled in *. cbn [filter].
        destruct Hst as [-> | ->]; exact Hcount.
      * exists (row :: new). rewrite Hnew, Hrow, <- app_assoc.
        split; [reflexivity|]. unfold handled in *. cbn [filter].
        destruct Hst as [[-> _] | [-> _]]; cbn; now rewrite Hcount.
    + intros Hquiet'. apply Forall_cons_iff in Hquiet'.
      destruct Hquiet' as [Hst Hrest].
      rewrite (Hquiet Hrest).
      destruct Hlog as [[_ Hsame] | (row & j & _ & _ & _ & Hst')];
        [exact Hsame|].
      destruct Hst as [Hst | Hst]; rewrite Hst in Hst';
        destruct Hst' as [[Hbad _] | [Hbad _]]; discriminate.
Qed.

(** Five wrong passwords, a blocked request, and before them a password on
    which the check raises: seven answers, five rows. *)
Lemma requests_account_for_rows_witness :
  fst (serve_all strict_verify plain_encode
         ((TokenEndpoint, carol_nul) :: carol_calls ++
          [(LoginEndpoint, carol_secret)]) carol_world) =
    [500; 401; 401; 401; 401; 401; 429] /\
  List.length
    (login_attempts
       (snd (serve_all strict_verify plain_encode
               ((TokenEndpoint, carol_nul) :: carol_calls ++
                [(LoginEndpoint, carol_secret)])
               carol_world))) = 5%nat.
Proof.
  destruct (requests_account_for_rows strict_verify plain_encode
              ((TokenEndpoint, carol_nul) :: carol_calls ++
               [(LoginEndpoint, carol_secret)]) carol_world)
    as (_ & _ & _ & (new & Hnew & Hcount) & _).
  split; [reflexivity|].
  rewrite Hnew, length_app, Hcount. reflexivity.
Defined.

(** ** The order of the log *)

Lemma StronglySorted_snoc {A} (R : A -> A -> Prop) (l : list A) (x : A) :
  StronglySorted R l -> (forall a, In a l -> R a x) ->
  StronglySorted R (l ++ [x]).
Proof.
  induction 1 as [|a l Hl IH Ha]; intros Hx; cbn.
  - repeat constructor.
  - constructor.
    + apply IH. intros b Hb. apply Hx. now right.
    + apply Forall_app. split; [exact Ha|].
      constructor; [|constructor]. apply Hx. now left.
Qed.

Lemma serve_keeps_order (verify_password : string -> string -> option bool)
    (jwt_encode : string -> datetime -> datetime -> string)
    (e : Endpoint) (request : Request) (w : World) :
  monotone_clock w -> log_in_order w ->
  monotone_clock (exec (serve verify_password jwt_encode e request) w) /\
  log_in_order (exec (serve verify_password jwt_encode e request) w).
Proof.
  intros Hmono [Hsorted Hbehind].
  destruct (serve_post verify_password jwt_encode e request w)
    as (_ & Hclock & Hreads & Hlog).
  set (w' := exec (serve verify_password jwt_encode e request) w) in *.
  assert (Hnow : now1 w <= now1 w').
  { unfold now1. rewrite Hclock. apply Hmono. lia. }
  split.
  - unfold monotone_clock. rewrite Hclock. exact Hmono.
  - destruct Hlog as [[_ Hsame] | (row & j & Hrow & Hts & Hj & _)].
    + unfold log_in_order. rewrite Hsame. split; [exact Hsorted|].
      intros a Ha. specialize (Hbehind a Ha). lia.
    + assert (Hlo : now1 w <= LoginAttempt.timestamp row)
        by (rewrite Hts; apply Hmono; lia).
      assert (Hhi : LoginAttempt.timestamp row <= now1 w')
        by (rewrite Hts; unfold now1; rewrite Hclock; apply Hmono; lia).
      unfold log_in_order. rewrite Hrow. split.
      * apply StronglySorted_snoc; [exact Hsorted|].
        intros a Ha. specialize (Hbehind a Ha). lia.
      * intros a Ha. apply in_app_or in Ha.
        destruct Ha as [Ha | [<- | []]]; [|exact Hhi].
        specialize (Hbehind a Ha). lia.
Qed.

(** X10.  With a clock that never runs backwards, the endpoints keep the
    log in the order of its timestamps: when the rows of the log are in
    ascending order of timestamp and none is ahead of the clock, they still
    are after any sequence of requests. *)
Theorem requests_keep_log_in_order
    (verify_password : string -> string -> option bool)
    (jwt_encode : string -> datetime -> datetime -> string)
    (calls : list (Endpoint * Request)) (w : World) :
  monotone_clock w -> log_in_order w ->
  log_in_order (snd (serve_all verify_password jwt_encode calls w)).
Proof.
  revert w. induction calls as [|[e request] calls IH]; intros w Hmono Hord.
  - exact Hord.
  - rewrite serve_all_cons. cbv zeta. cbn [snd].
    destruct (serve_keeps_order verify_password jwt_encode e request w
                Hmono Hord) as [Hmono' Hord'].
    now apply IH.
Qed.

Lemma requests_keep_log_in_order_witness :
  monotone_clock carol_world /\ log_in_order carol_world /\
  log_in_order (snd (serve_all plain_verify plain_encode carol_calls
                       carol_world)).
Proof.
  assert (Hmono : monotone_clock carol_world).
  { intros i j Hij. cbn. unfold ticking_clock, seconds. lia. }
  assert (Hord : log_in_order carol_world).
  { split; [constructor | intros a []]. }
  split; [exact Hmono|]. split; [exact Hord|].
  exact (requests_keep_log_in_order plain_verify plain_encode carol_calls
           carol_world Hmono Hord).
Defined.

(** * Properties of the rest of the API *)

(** ** The user of a token *)

Lemma get_user_run (username : string) (w : World) :
  auth.get_user username w =
  (Returned (Query.first
     (filter (fun u => String.eqb (User.username u) username) (users w))), w).
Proof. reflexivity. Qed.

Lemma first_filter_In {A} (f : A -> bool) (l : list A) (a : A) :
  Query.first (filter f l) = Some a -> In a l /\ f a = true.
Proof.
  unfold Query.first. intros H.
  destruct (filter f l) as [|b l'] eqn:Hf; [discriminate|].
  injection H as ->. apply filter_In. rewrite Hf. now left.
Qed.

Lemma first_filter_None {A} (f : A -> bool) (l : list A) :
  Query.first (filter f l) = None <-> forall a, In a l -> f a = false.
Proof.
  unfold Query.first. split.
  - intros H a Ha. destruct (f a) eqn:Hfa; [|reflexivity].
    assert (Hin : In a (filter f l)) by (apply filter_In; now split).
    destruct (filter f l); [contradiction | discriminate].
  - intros H. destruct (filter f l) as [|b l'] eqn:Hf; [reflexivity|].
    assert (Hb : In b (filter f l)) by (rewrite Hf; now left).
    apply filter_In in Hb. destruct Hb as [Hin Hb].
    rewrite (H b Hin) in Hb. discriminate.
Qed.

Lemma get_current_user_state
    (jwt_decode : string -> string + option string) (token : string)
    (w : World) :
  exec (get_current_user jwt_decode token) w = w.
Proof.
  unfold exec, get_current_user.
  destruct (jwt_decode token) as [e | [[|c name] |]]; try reflexivity.
  unfold bind. rewrite get_user_run.
  destruct (Query.first _); reflexivity.
Qed.

Lemma get_current_user_named
    (jwt_decode : string -> string + option string) (token name : string)
    (w : World) :
  jwt_decode token = inr (Some name) -> name <> ""%string ->
  result (get_current_user jwt_decode token) w =
  match Query.first
          (filter (fun u => String.eqb (User.username u) name) (users w)) with
  | Some u => Returned u
  | None => Raised (mkHTTPException 404 "User not found" [])
  end.
Proof.
  intros Hd Hname. unfold result, get_current_user. rewrite Hd.
  destruct name as [|c name]; [contradiction|].
  unfold bind. rewrite get_user_run.
  destruct (Query.first _); reflexivity.
Qed.

(** X11.  [get_current_user] answers 401 when the token does not decode,
    401 when its subject is missing or is the empty string (whether or not
    a user with the empty name exists), 404 when no user carries the
    subject; it returns only a row of the table whose name is the subject
    of the token; and it leaves the state as it was. *)
Theorem get_current_user_refusals
    (jwt_decode : string -> string + option string) (token : string)
    (w : World) :
  exec (get_current_user jwt_decode token) w = w /\
  (forall e, jwt_decode token = inl e ->
     result (get_current_user jwt_decode token) w =
     Raised (mkHTTPException 401 ("Invalid token: " ++ e)
               [("WWW-Authenticate", "Bearer")]%string)) /\
  (jwt_decode token = inr None \/ jwt_decode token = inr (Some ""%string) ->
     result (get_current_user jwt_decode token) w =
     Raised (mkHTTPException 401 "Invalid token: Missing 'sub' claim"
               [("WWW-Authenticate", "Bearer")]%string)) /\
  (forall name, jwt_decode token = inr (Some name) -> name <> ""%string ->
     (forall u, In u (users w) -> User.username u <> name) ->
     result (get_current_user jwt_decode token) w =
     Raised (mkHTTPException 404 "User not found" [])) /\
  (forall u, result (get_current_user jwt_decode token) w = Returned u ->
     In u (users w) /\ jwt_decode token = inr (Some (User.username u))).
Proof.
  split; [apply get_current_user_state|].
  split; [|split; [|split]].
  - intros e He. unfold result, get_current_user. now rewrite He.
  - intros [Hd | Hd]; unfold result, get_current_user; now rewrite Hd.
  - intros name Hd Hname Hnone.
    rewrite (get_current_user_named _ _ _ _ Hd Hname).
    replace (Query.first _) with (@None User.t); [reflexivity|].
    symmetry. apply first_filter_None. intros u Hu.
    apply String.eqb_neq. now apply Hnone.
  - intros u Hu. unfold result, get_current_user in Hu.
    destruct (jwt_decode token) as [e | [[|c name] |]]; try discriminate.
    unfold bind in Hu. rewrite get_user_run in Hu.
    destruct (Query.first _) as [u'|] eqn:Hfirst; [|discriminate].
    injection Hu as <-.
    apply first_filter_In in Hfirst. destruct Hfirst as [Hin Heq].
    apply String.eqb_eq in Heq. split; [exact Hin|]. now rewrite Heq.
Qed.

(** A user whose name is the empty string is in the table and a token that
    decodes to that name is still refused. *)
Lemma get_current_user_refusals_witness :
  result (get_current_user plain_decode "")
    (with_users [User.mk 1 "" "nobody@example.com" "secret"] carol_world) =
    Raised (mkHTTPException 401 "Invalid token: Missing 'sub' claim"
              [("WWW-Authenticate", "Bearer")]%string) /\
  result (get_current_user plain_decode "dave") carol_world =
    Raised (mkHTTPException 404 "User not found" []) /\
  result (get_current_user (fun _ => inl "Signature has expired."%string)
            "carol") carol_world =
    Raised (mkHTTPException 401 "Invalid token: Signature has expired."
              [("WWW-Authenticate", "Bearer")]%string).
Proof.
  destruct (get_current_user_refusals plain_decode ""
              (with_users [User.mk 1 "" "nobody@example.com" "secret"]
                 carol_world)) as (_ & _ & Hempty & _).
  destruct (get_current_user_refusals plain_decode "dave" carol_world)
    as (_ & _ & _ & Hunknown & _).
  destruct (get_current_user_refusals
              (fun _ => inl "Signature has expired."%string) "carol"
              carol_world) as (_ & Hexpired & _).
  split; [|split].
  - apply Hempty. now right.
  - apply (Hunknown "dave"%string); [reflexivity | discriminate |].
    intros u [<-|[]]. vm_compute. discriminate.
  - apply (Hexpired "Signature has expired."%string). reflexivity.
Defined.

Lemma serve_returns (verify_password : string -> string -> option bool)
    (jwt_encode : string -> datetime -> datetime -> string)
    (e : Endpoint) (request : Request) (w : World) (token : Token) :
  result (serve verify_password jwt_encode e request) w = Returned token ->
  result (is_user_blocked (form_username request)) w = Returned false /\
  exists u,
    result (authenticate_user verify_password (form_username request)
              (form_password request)) w = Returned (Some u).
Proof.
  unfold result at 1. rewrite serve_run. cbv zeta.
  destruct (is_user_blocked_returns (form_username request) w) as [[|] Hb];
    rewrite Hb.
  - unfold result, exec.
    destruct (get_block_remaining_time _ _) as [[r|x|] w2]; discriminate.
  - destruct (result (authenticate_user _ _ _) w) as [[u|]|x|];
      try discriminate.
    intros _. split; [reflexivity|]. now exists u.
Qed.

(** X12.  The token of a login authenticates the user that logged in: when
    a request is answered with a token, and the token decodes to the name
    it was made for (it is still valid) and that name is not empty, then
    [get_current_active_user] on that token returns the very row that
    authenticated, and GET /users/me/ shows its key, its email and the name
    of the login. *)
Theorem token_authenticates_its_user
    (verify_password : string -> string -> option bool)
    (jwt_encode : string -> datetime -> datetime -> string)
    (jwt_decode : string -> string + option string)
    (e : Endpoint) (request : Request) (w : World) (token : string) :
  result (serve verify_password jwt_encode e request) w =
    Returned (mkToken token "bearer") ->
  jwt_decode token = inr (Some (form_username request)) ->
  form_username request <> ""%string ->
  exists u,
    result (authenticate_user verify_password (form_username request)
              (form_password request)) w = Returned (Some u) /\
    result (get_current_active_user jwt_decode token)
      (exec (serve verify_password jwt_encode e request) w) = Returned u /\
    result (read_users_me u)
      (exec (serve verify_password jwt_encode e request) w) =
    Returned (schemas.User.mk (User.id u) (User.email u)
                (form_username request)).
Proof.
  intros Hres Hd Hname.
  destruct (serve_returns _ _ _ _ _ _ Hres) as (_ & u & Hu).
  exists u. split; [exact Hu|].
  destruct (serve_post verify_password jwt_encode e request w)
    as (Hus & _).
  set (w' := exec (serve verify_password jwt_encode e request) w) in *.
  pose proof Hu as Hfound. apply authenticate_user_found in Hfound.
  destruct Hfound as (Hun & _ & _).
  assert (Hget : result (get_current_user jwt_decode token) w' = Returned u).
  { rewrite (get_current_user_named _ _ _ _ Hd Hname). rewrite Hus.
    unfold result in Hu. rewrite authenticate_user_run in Hu. cbn [fst] in Hu.
    destruct (Query.first _) as [u'|]; [|discriminate].
    destruct (verify_password _ _) as [[|]|]; try discriminate.
    now injection Hu as ->. }
  split.
  - unfold result, get_current_active_user, bind.
    unfold result in Hget.
    destruct (get_current_user jwt_decode token w') as [o w''].
    cbn [fst] in Hget. now rewrite Hget.
  - unfold result, read_users_me, ret. cbn [fst]. now rewrite Hun.
Qed.

Lemma token_authenticates_its_user_witness :
  result (serve plain_verify plain_encode LoginEndpoint carol_secret)
    carol_world = Returned (mkToken "carol" "bearer") /\
  result (get_current_active_user plain_decode "carol")
    (exec (serve plain_verify plain_encode LoginEndpoint carol_secret)
       carol_world) = Returned carol.
Proof.
  assert (Hres : result (serve plain_verify plain_encode LoginEndpoint
                           carol_secret) carol_world =
                 Returned (mkToken "carol" "bearer")) by reflexivity.
  split; [exact Hres|].
  destruct (token_authenticates_its_user plain_verify plain_encode
              plain_decode LoginEndpoint carol_secret carol_world "carol"
              Hres eq_refl) as (u & Hu & Hget & _).
  - discriminate.
  - replace carol with u; [exact Hget|].
    assert (Hc : result (authenticate_user plain_verify
                           (form_username carol_secret)
                           (form_password carol_secret)) carol_world =
                 Returned (Some carol)) by reflexivity.
    rewrite Hc in Hu. now injection Hu.
Defined.

(** ** Registration *)

Lemma with_world_same (s : Backend) : with_world (world s) s = s.
Proof. destruct s. reflexivity. Qed.

Lemma lift_get_user_by_email (email : string) (s : Backend) :
  lift (crud_get_user_by_email email) s =
  (Ok (Query.first (filter (fun u => String.eqb (User.email u) email)
                      (users (world s)))), s).
Proof.
  unfold lift, crud_get_user_by_email, bind, query_User, ret.
  now rewrite with_world_same.
Qed.

Lemma lift_get_user_by_username (username : string) (s : Backend) :
  lift (crud.get_user_by_username username) s =
  (Ok (Query.first (filter (fun u => String.eqb (User.username u) username)
                      (users (world s)))), s).
Proof.
  unfold lift, crud.get_user_by_username, bind, query_User, ret.
  now rewrite with_world_same.
Qed.

Section RegistrationFacts.

Variable hash_password : string -> string -> option string.

Lemma signup_run (user : schemas.UserCreate.t) (s : Backend) :
  signup hash_password user s =
  match Query.first
          (filter (fun u => String.eqb (User.email u)
                              (schemas.UserCreate.email user))
             (users (world s))) with
  | Some _ =>
      (Fail (HTTP (mkHTTPException 400 "Email already registered" [])), s)
  | None =>
      match Query.first
              (filter (fun u => String.eqb (User.username u)
                                  (schemas.UserCreate.username user))
                 (users (world s))) with
      | Some _ =>
          (Fail (HTTP (mkHTTPException 400 "Username already taken" [])), s)
      | None =>
          match hash_password (schemas.UserCreate.password user)
                  (salts s (salts_used s)) with
          | Some hashed_password =>
              (Ok (schemas.User.mk (users_id_seq s + 1)
                     (schemas.UserCreate.email user)
                     (schemas.UserCreate.username user)),
               registered hashed_password user s)
          | None =>
              (Fail (HTTP (mkHTTPException 500 "Failed to create user" [])),
               salt_drawn s)
          end
      end
  end.
Proof.
  unfold signup. unfold bindB at 1. rewrite lift_get_user_by_email.
  destruct (Query.first _) as [u|] eqn:Hemail; [reflexivity|].
  unfold bindB at 1. rewrite lift_get_user_by_username.
  destruct (Query.first (filter (fun u => String.eqb (User.username u) _) _))
    as [u|] eqn:Hname; [reflexivity|].
  unfold bindB at 1, create_user, bindB, get_password_hash, add_User.
  destruct (hash_password _ _) as [h|]; [|reflexivity].
  cbn [world users_id_seq categories expenses salts salts_used salt_drawn].
  replace (existsb _ (users (world s))) with false; [reflexivity|].
  symmetry. apply not_true_is_false. intros Hex.
  apply existsb_exists in Hex. destruct Hex as (u & Hin & Hu).
  apply orb_true_iff in Hu.
  rewrite first_filter_None in Hemail, Hname.
  destruct Hu as [Hu | Hu];
    [rewrite (Hname u Hin) in Hu | rewrite (Hemail u Hin) in Hu];
    discriminate.
Qed.

End RegistrationFacts.

Lemma first_filter_Some_of {A} (f : A -> bool) (l : list A) (a : A) :
  In a l -> f a = true -> exists b, Query.first (filter f l) = Some b.
Proof.
  intros Hin Hf.
  destruct (Query.first (filter f l)) as [b|] eqn:Hfirst; [now exists b|].
  rewrite first_filter_None in Hfirst. rewrite (Hfirst a Hin) in Hf.
  discriminate.
Qed.

Lemma lookup_email_None (email : string) (us : list User.t) :
  (forall u, In u us -> User.email u <> email) ->
  Query.first (filter (fun u => String.eqb (User.email u) email) us) = None.
Proof.
  intros H. apply first_filter_None. intros u Hu.
  apply String.eqb_neq. now apply H.
Qed.

Lemma lookup_username_None (username : string) (us : list User.t) :
  (forall u, In u us -> User.username u <> username) ->
  Query.first (filter (fun u => String.eqb (User.username u) username) us)
  = None.
Proof.
  intros H. apply first_filter_None. intros u Hu.
  apply String.eqb_neq. now apply H.
Qed.

(** X13.  POST /signup answers 400 "Email already registered" when a user
    has the email, whatever the name; 400 "Username already taken" when no
    user has the email and one has the name; in both cases nothing is
    written.  Otherwise, when passlib returns a hash of the password, it
    appends one user, with the next key, the name, the email and that hash,
    and returns its key, email and name; and when passlib raises instead,
    it answers 500 "Failed to create user" and the table of users and its
    key sequence are left as they were. *)
Theorem signup_outcomes (hash_password : string -> string -> option string)
    (user : schemas.UserCreate.t) (s : Backend) :
  ((exists u, In u (users (world s)) /\
              User.email u = schemas.UserCreate.email user) ->
   signup hash_password user s =
   (Fail (HTTP (mkHTTPException 400 "Email already registered" [])), s)) /\
  ((forall u, In u (users (world s)) ->
              User.email u <> schemas.UserCreate.email user) ->
   (exists u, In u (users (world s)) /\
              User.username u = schemas.UserCreate.username user) ->
   signup hash_password user s =
   (Fail (HTTP (mkHTTPException 400 "Username already taken" [])), s)) /\
  ((forall u, In u (users (world s)) ->
              User.email u <> schemas.UserCreate.email user) ->
   (forall u, In u (users (world s)) ->
              User.username u <> schemas.UserCreate.username user) ->
   (forall hashed_password,
      hash_password (schemas.UserCreate.password user)
        (salts s (salts_used s)) = Some hashed_password ->
      signup hash_password user s =
      (Ok (schemas.User.mk (users_id_seq s + 1)
             (schemas.UserCreate.email user)
             (schemas.UserCreate.username user)),
       registered hashed_password user s)) /\
   (hash_password (schemas.UserCreate.password user)
      (salts s (salts_used s)) = None ->
    answer (signup hash_password user) s =
      Fail (HTTP (mkHTTPException 500 "Failed to create user" [])) /\
    world (after (signup hash_password user) s) = world s /\
    users_id_seq (after (signup hash_password user) s) = users_id_seq s)).
Proof.
  unfold answer, after. rewrite signup_run.
  split; [|split].
  - intros (u & Hin & Hu).
    destruct (first_filter_Some_of
                (fun u => String.eqb (User.email u)
                            (schemas.UserCreate.email user))
                (users (world s)) u Hin) as [b ->];
      [now apply String.eqb_eq | reflexivity].
  - intros Hemail (u & Hin & Hu).
    rewrite (lookup_email_None _ _ Hemail).
    destruct (first_filter_Some_of
                (fun u => String.eqb (User.username u)
                            (schemas.UserCreate.username user))
                (users (world s)) u Hin) as [b ->];
      [now apply String.eqb_eq | reflexivity].
  - intros Hemail Hname.
    rewrite (lookup_email_None _ _ Hemail),
            (lookup_username_None _ _ Hname).
    split.
    + intros h Hh. now rewrite Hh.
    + intros Hh. rewrite Hh. repeat split.
Qed.

(** dave registers; carol's email and carol's name are refused; erin's
    password holds a NUL byte. *)
Lemma signup_outcomes_witness :
  signup plain_hash dave_signup carol_backend =
    (Ok (schemas.User.mk 2 "dave@example.com" "dave"),
     registered "hunter2" dave_signup carol_backend) /\
  signup plain_hash
    (schemas.UserCreate.mk "carol@example.com" "caroline" "x") carol_backend =
    (Fail (HTTP (mkHTTPException 400 "Email already registered" [])),
     carol_backend) /\
  signup plain_hash
    (schemas.UserCreate.mk "c@example.com" "carol" "x") carol_backend =
    (Fail (HTTP (mkHTTPException 400 "Username already taken" [])),
     carol_backend) /\
  (answer (signup strict_hash erin_signup) carol_backend =
     Fail (HTTP (mkHTTPException 500 "Failed to create user" [])) /\
   world (after (signup strict_hash erin_signup) carol_backend) =
     world carol_backend /\
   users_id_seq (after (signup strict_hash erin_signup) carol_backend) =
     users_id_seq carol_backend).
Proof.
  destruct (signup_outcomes plain_hash dave_signup carol_backend)
    as (_ & _ & Hnew).
  destruct (signup_outcomes plain_hash
              (schemas.UserCreate.mk "carol@example.com" "caroline" "x")
              carol_backend) as (Hemail & _).
  destruct (signup_outcomes plain_hash
              (schemas.UserCreate.mk "c@example.com" "carol" "x")
              carol_backend) as (_ & Hname & _).
  destruct (signup_outcomes strict_hash erin_signup carol_backend)
    as (_ & _ & Hraises).
  split; [|split; [|split]].
  - apply Hnew; try reflexivity; intros u [<-|[]]; vm_compute; discriminate.
  - apply Hemail. exists carol. split; [now left | reflexivity].
  - apply Hname.
    + intros u [<-|[]]. vm_compute. discriminate.
    + exists carol. split; [now left | reflexivity].
  - apply Hraises; try reflexivity; intros u [<-|[]]; vm_compute;
      discriminate.
Defined.

Lemma NoDup_snoc {A} (l : list A) (a : A) :
  NoDup l -> ~ In a l -> NoDup (l ++ [a]).
Proof.
  intros Hl Ha.
  apply (Permutation_NoDup (Permutation_cons_append l a)).
  now constructor.
Qed.

(** X14.  POST /signup keeps names and emails unique: when no two users
    share a name and no two share an email before a registration, the same
    holds after it, whatever its answer. *)
Theorem signup_keeps_users_unique
    (hash_password : string -> string -> option string)
    (user : schemas.UserCreate.t) (s : Backend) :
  users_unique (world s) ->
  users_unique (world (after (signup hash_password user) s)).
Proof.
  intros [Hnames Hemails]. unfold after. rewrite signup_run.
  destruct (Query.first
              (filter (fun u => String.eqb (User.email u)
                                  (schemas.UserCreate.email user))
                 (users (world s))))
    as [u|] eqn:Hemail; [now split|].
  destruct (Query.first
              (filter (fun u => String.eqb (User.username u)
                                  (schemas.UserCreate.username user))
                 (users (world s))))
    as [u|] eqn:Hname; [now split|].
  destruct (hash_password _ _) as [h|]; [|now split].
  rewrite first_filter_None in Hemail, Hname.
  unfold users_unique, registered.
  cbn [snd world with_users users]. rewrite !map_app. cbn [map].
  split; apply NoDup_snoc; trivial; cbn [User.username User.email];
    intros Hin; apply in_map_iff in Hin; destruct Hin as (v & Hv & Hin).
  - apply Hname in Hin. apply String.eqb_neq in Hin. contradiction.
  - apply Hemail in Hin. apply String.eqb_neq in Hin. contradiction.
Qed.

Lemma signup_keeps_users_unique_witness :
  users_unique (world carol_backend) /\
  users_unique (world (after (signup plain_hash dave_signup) carol_backend)).
Proof.
  assert (Hu : users_unique (world carol_backend)).
  { split; cbn; (constructor; [intros [] | constructor]). }
  split; [exact Hu|].
  exact (signup_keeps_users_unique plain_hash dave_signup carol_backend Hu).
Defined.

Lemma first_filter_snoc {A} (f : A -> bool) (l : list A) (a : A) :
  (forall b, In b l -> f b = false) -> f a = true ->
  Query.first (filter f (l ++ [a])) = Some a.
Proof.
  intros Hl Ha. rewrite filter_app. cbn [filter]. rewrite Ha.
  replace (filter f l) with (@nil A); [reflexivity|].
  symmetry. induction l as [|b l IH]; [reflexivity|]. cbn [filter].
  rewrite (Hl b (or_introl eq_refl)). apply IH.
  intros c Hc. apply Hl. now right.
Qed.

(** X15.  A registered user can log in: after a POST /signup that goes
    through, a request on either endpoint with the name and the password of
    the registration, made while the user is not blocked, is answered with a
    token for that name, provided a password verifies against its own
    hash. *)
Theorem signup_then_login
    (hash_password : string -> string -> option string)
    (verify_password : string -> string -> option bool)
    (jwt_encode : string -> datetime -> datetime -> string)
    (e : Endpoint) (host : option string)
    (user : schemas.UserCreate.t) (s : Backend) (out : schemas.User.t) :
  (forall password salt hashed_password,
     hash_password password salt = Some hashed_password ->
     verify_password password hashed_password = Some true) ->
  answer (signup hash_password user) s = Ok out ->
  result (is_user_blocked (schemas.UserCreate.username user))
    (world (after (signup hash_password user) s)) = Returned false ->
  exists token,
    result (serve verify_password jwt_encode e
              (mkRequest host (schemas.UserCreate.username user)
                 (schemas.UserCreate.password user)))
      (world (after (signup hash_password user) s)) =
    Returned (mkToken token "bearer").
Proof.
  intros Hverify Hout Hfree.
  unfold answer, after in *. rewrite signup_run in *.
  destruct (Query.first
              (filter (fun u => String.eqb (User.email u)
                                  (schemas.UserCreate.email user))
                 (users (world s))))
    as [u|] eqn:Hemail; [discriminate|].
  destruct (Query.first
              (filter (fun u => String.eqb (User.username u)
                                  (schemas.UserCreate.username user))
                 (users (world s))))
    as [u|] eqn:Hname; [discriminate|].
  destruct (hash_password _ _) as [h|] eqn:Hh; [|discriminate].
  cbn [snd] in *. rewrite first_filter_None in Hname.
  eexists. unfold result at 1. rewrite serve_run. cbv zeta.
  cbn [form_username form_password]. rewrite Hfree.
  unfold result at 1. rewrite authenticate_user_run.
  unfold registered at 1. cbn [fst world with_users users].
  rewrite first_filter_snoc;
    [| exact Hname | cbn [User.username]; apply String.eqb_refl].
  cbn [User.hashed_password]. rewrite (Hverify _ _ _ Hh). reflexivity.
Qed.

Lemma plain_hash_verifies (password salt hashed_password : string) :
  plain_hash password salt = Some hashed_password ->
  plain_verify password hashed_password = Some true.
Proof.
  unfold plain_hash, plain_verify. intros [= <-].
  now rewrite String.eqb_refl.
Defined.

Lemma signup_then_login_witness :
  answer (signup plain_hash dave_signup) carol_backend =
    Ok (schemas.User.mk 2 "dave@example.com" "dave") /\
  result (is_user_blocked "dave")
    (world (after (signup plain_hash dave_signup) carol_backend)) =
    Returned false /\
  exists token,
    result (serve plain_verify plain_encode TokenEndpoint
              (mkRequest None "dave" "hunter2"))
      (world (after (signup plain_hash dave_signup) carol_backend)) =
    Returned (mkToken token "bearer").
Proof.
  assert (Hout : answer (signup plain_hash dave_signup) carol_backend =
                 Ok (schemas.User.mk 2 "dave@example.com" "dave"))
    by reflexivity.
  assert (Hfree : result (is_user_blocked
                            (schemas.UserCreate.username dave_signup))
                    (world (after (signup plain_hash dave_signup)
                              carol_backend)) = Returned false)
    by reflexivity.
  split; [exact Hout|]. split; [exact Hfree|].
  exact (signup_then_login plain_hash plain_verify plain_encode
           TokenEndpoint None dave_signup carol_backend _
           plain_hash_verifies Hout Hfree).
Defined.

(** X16.  [crud.create_user] never raises.  When a user already has the
    name or the email, and when passlib raises instead of returning a hash
    of the password, it returns [None] and the table of users is left as it
    was; otherwise it returns the new row, appended with the next key and
    the hash of the password. *)
Theorem create_user_refuses_duplicates
    (hash_password : string -> string -> option string)
    (user : schemas.UserCreate.t) (s : Backend) :
  ((exists u, In u (users (world s)) /\
              (User.username u = schemas.UserCreate.username user \/
               User.email u = schemas.UserCreate.email user)) \/
   hash_password (schemas.UserCreate.password user)
     (salts s (salts_used s)) = None ->
   answer (create_user hash_password user) s = Ok None /\
   users (world (after (create_user hash_password user) s)) =
     users (world s)) /\
  ((forall u, In u (users (world s)) ->
              User.username u <> schemas.UserCreate.username user /\
              User.email u <> schemas.UserCreate.email user) ->
   forall hashed_password,
     hash_password (schemas.UserCreate.password user)
       (salts s (salts_used s)) = Some hashed_password ->
     create_user hash_password user s =
     (Ok (Some (User.mk (users_id_seq s + 1)
                  (schemas.UserCreate.username user)
                  (schemas.UserCreate.email user) hashed_password)),
      registered hashed_password user s)) /\
  (forall x, answer (create_user hash_password user) s <> Fail x).
Proof.
  unfold answer, after, create_user, bindB, get_password_hash, add_User.
  destruct (hash_password _ _) as [h|];
    [|split; [now split | split; [discriminate | discriminate]]].
  unfold salt_drawn.
  cbn [world users_id_seq categories expenses salts salts_used].
  destruct (existsb
              (fun u => String.eqb (User.username u)
                          (schemas.UserCreate.username user)
                        || String.eqb (User.email u)
                             (schemas.UserCreate.email user))
              (users (world s))) eqn:Hex;
    cbn [fst snd world with_users_id_seq].
  - split; [auto|]. split; [|discriminate].
    intros Hfree. apply existsb_exists in Hex.
    destruct Hex as (u & Hin & Hu). apply orb_true_iff in Hu.
    destruct (Hfree u Hin) as [Hn He].
    destruct Hu as [Hu | Hu]; apply String.eqb_eq in Hu; contradiction.
  - split; [|split; [now intros _ h' [= <-] | discriminate]].
    intros [(u & Hin & Hu) | Hraises]; [|discriminate].
    assert (Hex' : existsb
              (fun u => String.eqb (User.username u)
                          (schemas.UserCreate.username user)
                        || String.eqb (User.email u)
                             (schemas.UserCreate.email user))
              (users (world s)) = true).
    { apply existsb_exists. exists u. split; [exact Hin|].
      apply orb_true_iff.
      destruct Hu as [Hu | Hu]; [left | right]; now apply String.eqb_eq. }
    rewrite Hex in Hex'. discriminate.
Qed.

(** carol's name is taken; erin's password holds a NUL byte; dave is
    stored. *)
Lemma create_user_refuses_duplicates_witness :
  answer (create_user plain_hash
            (schemas.UserCreate.mk "other@example.com" "carol" "x"))
    carol_backend = Ok None /\
  answer (create_user strict_hash erin_signup) carol_backend = Ok None /\
  create_user plain_hash dave_signup carol_backend =
    (Ok (Some dave), registered "hunter2" dave_signup carol_backend).
Proof.
  destruct (create_user_refuses_duplicates plain_hash
              (schemas.UserCreate.mk "other@example.com" "carol" "x")
              carol_backend) as (Htaken & _).
  destruct (create_user_refuses_duplicates strict_hash erin_signup
              carol_backend) as (Hraises & _).
  destruct (create_user_refuses_duplicates plain_hash dave_signup
              carol_backend) as (_ & Hfree & _).
  split; [|split].
  - apply Htaken. left. exists carol. split; [now left | now left].
  - apply Hraises. now right.
  - apply Hfree; [|reflexivity].
    intros u [<-|[]]. split; vm_compute; discriminate.
Defined.

(** ** Expenses and categories *)

Lemma crud_get_expense_run (expense_id : Z) (s : Backend) :
  crud_get_expense expense_id s =
  (Ok (Query.first (filter (fun x => Expense.id x =? expense_id)
                      (expenses s))), s).
Proof. reflexivity. Qed.

Lemma read_expense_run (expense_id : Z) (current_user : User.t)
    (s : Backend) :
  read_expense expense_id current_user s =
  match Query.first (filter (fun x => Expense.id x =? expense_id)
                       (expenses s)) with
  | None =>
      (Fail (HTTP (mkHTTPException 404 (expense_not_found expense_id) [])), s)
  | Some _ =>
      (Fail (HTTP (mkHTTPException 500
                     (expense_retrieval_failed expense_id) [])), s)
  end.
Proof.
  unfold read_expense, try_or_500, bindB. rewrite crud_get_expense_run.
  destruct (Query.first _); reflexivity.
Qed.

Lemma lookup_expense_None (expense_id : Z) (xs : list Expense.t) :
  (forall x, In x xs -> Expense.id x <> expense_id) ->
  Query.first (filter (fun x => Expense.id x =? expense_id) xs) = None.
Proof.
  intros H. apply first_filter_None. intros x Hx.
  apply Z.eqb_neq. now apply H.
Qed.

Lemma lookup_expense_Some (expense_id : Z) (xs : list Expense.t) :
  (exists x, In x xs /\ Expense.id x = expense_id) ->
  exists y, Query.first (filter (fun x => Expense.id x =? expense_id) xs)
            = Some y.
Proof.
  intros (x & Hin & Hx).
  apply (first_filter_Some_of (fun x => Expense.id x =? expense_id) xs x Hin).
  now apply Z.eqb_eq.
Qed.

(** X17.  GET /expenses/{expense_id} never returns an expense.  It answers
    404 when no expense has the key and 500 when one has, whoever owns it:
    the ownership test reads [user_id], which an expense does not have, so
    neither the answer 403 nor the expense is ever reached.  The state is
    left as it was. *)
Theorem read_expense_never_returns (expense_id : Z) (current_user : User.t)
    (s : Backend) :
  after (read_expense expense_id current_user) s = s /\
  ((forall x, In x (expenses s) -> Expense.id x <> expense_id) ->
   answer (read_expense expense_id current_user) s =
   Fail (HTTP (mkHTTPException 404
     ("Expense with ID " ++ str expense_id
      ++ " not found. Please check if the expense exists and you have permission to access it.")
     []))) /\
  ((exists x, In x (expenses s) /\ Expense.id x = expense_id) ->
   answer (read_expense expense_id current_user) s =
   Fail (HTTP (mkHTTPException 500
     ("An error occurred while retrieving expense " ++ str expense_id
      ++ ". Please try again later or contact support if the issue persists.")
     []))) /\
  (forall x, answer (read_expense expense_id current_user) s <> Ok x) /\
  (forall detail headers,
     answer (read_expense expense_id current_user) s <>
     Fail (HTTP (mkHTTPException 403 detail headers))).
Proof.
  unfold answer, after. rewrite read_expense_run.
  split; [destruct (Query.first _); reflexivity|].
  split; [|split; [|split]].
  - intros Hnone. now rewrite (lookup_expense_None _ _ Hnone).
  - intros Hsome. destruct (lookup_expense_Some _ _ Hsome) as [y ->].
    reflexivity.
  - intros x. destruct (Query.first _); cbn; discriminate.
  - intros d h. destruct (Query.first _); cbn; discriminate.
Qed.

(** Carol asks for her own expense 7 and for an expense 8 that does not
    exist. *)
Lemma read_expense_never_returns_witness :
  Expense.owner_id lunch = Some (User.id carol) /\
  answer (read_expense 7 carol) carol_backend =
    Fail (HTTP (mkHTTPException 500
      "An error occurred while retrieving expense 7. Please try again later or contact support if the issue persists."
      [])) /\
  answer (read_expense 8 carol) carol_backend =
    Fail (HTTP (mkHTTPException 404
      "Expense with ID 8 not found. Please check if the expense exists and you have permission to access it."
      [])).
Proof.
  destruct (read_expense_never_returns 7 carol carol_backend)
    as (_ & _ & Hfound & _).
  destruct (read_expense_never_returns 8 carol carol_backend)
    as (_ & Hmissing & _).
  split; [reflexivity|]. split.
  - rewrite Hfound; [reflexivity|].
    exists lunch. split; [now left | reflexivity].
  - rewrite Hmissing; [reflexivity|].
    intros x [<-|[]]. vm_compute. discriminate.
Defined.

Lemma update_expense_run
    (crud_update_expense : Z -> ExpenseCreate.t -> B Expense.t)
    (expense_id : Z) (expense : ExpenseCreate.t) (current_user : User.t)
    (s : Backend) :
  exists detail,
    update_expense crud_update_expense expense_id expense current_user s =
    (Fail (HTTP (mkHTTPException
                   match Query.first
                           (filter (fun x => Expense.id x =? expense_id)
                              (expenses s)) with
                   | None => 404
                   | Some _ => 500
                   end detail [])), s).
Proof.
  unfold update_expense, try_or_500, bindB. rewrite crud_get_expense_run.
  destruct (Query.first _); eexists; reflexivity.
Qed.

Lemma delete_expense_run (crud_delete_expense : Z -> B unit)
    (expense_id : Z) (current_user : User.t) (s : Backend) :
  exists detail,
    delete_expense crud_delete_expense expense_id current_user s =
    (Fail (HTTP (mkHTTPException
                   match Query.first
                           (filter (fun x => Expense.id x =? expense_id)
                              (expenses s)) with
                   | None => 404
                   | Some _ => 500
                   end detail [])), s).
Proof.
  unfold delete_expense, try_or_500, bindB. rewrite crud_get_expense_run.
  destruct (Query.first _); eexists; reflexivity.
Qed.

(** X18.  PUT and DELETE /expenses/{expense_id} never write: whatever
    [crud.update_expense] and [crud.delete_expense] would do, the endpoints
    do not reach them.  Each answers 404 when no expense has the key and
    500 when one has, and leaves every table as it was; no expense is ever
    updated or deleted through them, not even by its owner. *)
Theorem expense_writes_never_happen
    (crud_update_expense : Z -> ExpenseCreate.t -> B Expense.t)
    (crud_delete_expense : Z -> B unit)
    (expense_id : Z) (expense : ExpenseCreate.t) (current_user : User.t)
    (s : Backend) :
  after (update_expense crud_update_expense expense_id expense current_user)
    s = s /\
  after (delete_expense crud_delete_expense expense_id current_user) s = s /\
  (exists detail detail',
     let status :=
       if existsb (fun x => Expense.id x =? expense_id) (expenses s)
       then 500 else 404 in
     answer (update_expense crud_update_expense expense_id expense
               current_user) s =
       Fail (HTTP (mkHTTPException status detail [])) /\
     answer (delete_expense crud_delete_expense expense_id current_user) s =
       Fail (HTTP (mkHTTPException status detail' []))).
Proof.
  destruct (update_expense_run crud_update_expense expense_id expense
              current_user s) as [d Hu].
  destruct (delete_expense_run crud_delete_expense expense_id current_user s)
    as [d' Hd].
  unfold after, answer. rewrite Hu, Hd. cbn [fst snd].
  split; [reflexivity|]. split; [reflexivity|].
  exists d, d'. cbv zeta.
  assert (Hsame :
    match Query.first (filter (fun x => Expense.id x =? expense_id)
                         (expenses s)) with
    | None => 404
    | Some _ => 500
    end =
    if existsb (fun x => Expense.id x =? expense_id) (expenses s)
    then 500 else 404).
  { destruct (existsb _ (expenses s)) eqn:Hex.
    - apply existsb_exists in Hex. destruct Hex as (x & Hin & Hx).
      destruct (first_filter_Some_of
                  (fun x => Expense.id x =? expense_id) _ x Hin Hx)
        as [y ->].
      reflexivity.
    - replace (Query.first _) with (@None Expense.t); [reflexivity|].
      symmetry. apply first_filter_None. intros x Hx.
      destruct (Expense.id x =? expense_id) eqn:Hid; [|reflexivity].
      assert (Hex' : existsb (fun x => Expense.id x =? expense_id)
                       (expenses s) = true)
        by (apply existsb_exists; now exists x).
      rewrite Hex in Hex'. discriminate. }
  rewrite Hsame. split; reflexivity.
Qed.

Lemma offset_limit_all_run {A} (skip limit : Z) (q : list A) (s : Backend) :
  offset_limit_all skip limit q s =
  (if (skip <? 0) || (limit <? 0) || (2 ^ 63 <=? skip) || (2 ^ 63 <=? limit)
   then Fail DataError
   else Ok (Query.limit (Z.to_nat limit) (skipn (Z.to_nat skip) q)), s).
Proof.
  unfold offset_limit_all.
  destruct ((skip <? 0) || (limit <? 0) || (2 ^ 63 <=? skip)
            || (2 ^ 63 <=? limit));
    reflexivity.
Qed.

Lemma offset_limit_refused (skip limit : Z) :
  (skip <? 0) || (limit <? 0) || (2 ^ 63 <=? skip) || (2 ^ 63 <=? limit)
    = true <->
  skip < 0 \/ limit < 0 \/ 2 ^ 63 <= skip \/ 2 ^ 63 <= limit.
Proof.
  rewrite !orb_true_iff, !Z.ltb_lt, !Z.leb_le. tauto.
Qed.

(** A page of a query holds rows of the query, no more than [limit] of
    them, and the whole query when nothing is skipped and [limit] is large
    enough. *)
Lemma page_facts {A} (skip limit : Z) (q : list A) :
  0 <= limit ->
  (forall x, In x (Query.limit (Z.to_nat limit) (skipn (Z.to_nat skip) q)) ->
             In x q) /\
  Z.of_nat (List.length
              (Query.limit (Z.to_nat limit) (skipn (Z.to_nat skip) q)))
    <= limit /\
  (skip = 0 -> Z.of_nat (List.length q) <= limit ->
   Query.limit (Z.to_nat limit) (skipn (Z.to_nat skip) q) = q).
Proof.
  intros Hlimit. unfold Query.limit. split; [|split].
  - intros x Hx.
    rewrite <- (firstn_skipn (Z.to_nat skip) q). apply in_or_app. right.
    rewrite <- (firstn_skipn (Z.to_nat limit) (skipn (Z.to_nat skip) q)).
    apply in_or_app. now left.
  - pose proof (firstn_le_length (Z.to_nat limit)
                  (skipn (Z.to_nat skip) q)). lia.
  - intros -> Hall. cbn [Z.to_nat skipn]. apply firstn_all2. lia.
Qed.

Lemma owned_by_true (user_id : Z) (owner_id : option Z) :
  owned_by user_id owner_id = true <-> owner_id = Some user_id.
Proof.
  unfold owned_by. destruct owner_id as [o|].
  - rewrite Z.eqb_eq. split; [now intros -> | now intros [= ->]].
  - split; discriminate.
Qed.

(** X19.  The functions [read_expenses] and [read_categories] return to a
    user only rows of the user: every row returned is a row of the table
    whose owner is the current user, and no more than [limit] rows are
    returned; with nothing skipped and a [limit] that covers them, every
    row of the user is returned.  A [skip] or [limit] that is negative or
    is 2^63 or more is refused by the database with a DataError.  The state
    is left as it was.  (This is about the two functions; the routes GET
    /expenses/ and GET /categories/ check what the functions return against
    their [response_model] before they answer.) *)
Theorem listings_show_own_rows (skip limit : Z) (current_user : User.t)
    (s : Backend) :
  after (read_expenses skip limit current_user) s = s /\
  after (read_categories skip limit current_user) s = s /\
  (skip < 0 \/ limit < 0 \/ 2 ^ 63 <= skip \/ 2 ^ 63 <= limit ->
   answer (read_expenses skip limit current_user) s = Fail DataError /\
   answer (read_categories skip limit current_user) s = Fail DataError) /\
  (forall rows,
     answer (read_expenses skip limit current_user) s = Ok rows ->
     (forall x, In x rows ->
        In x (expenses s) /\
        Expense.owner_id x = Some (User.id current_user)) /\
     Z.of_nat (List.length rows) <= limit /\
     (skip = 0 ->
      Z.of_nat (List.length
        (filter (fun x => owned_by (User.id current_user)
                            (Expense.owner_id x)) (expenses s))) <= limit ->
      forall x, In x (expenses s) ->
        Expense.owner_id x = Some (User.id current_user) -> In x rows)) /\
  (forall rows,
     answer (read_categories skip limit current_user) s = Ok rows ->
     (forall c, In c rows ->
        In c (categories s) /\
        Category.owner_id c = Some (User.id current_user)) /\
     Z.of_nat (List.length rows) <= limit /\
     (skip = 0 ->
      Z.of_nat (List.length
        (filter (fun c => owned_by (User.id current_user)
                            (Category.owner_id c)) (categories s))) <= limit ->
      forall c, In c (categories s) ->
        Category.owner_id c = Some (User.id current_user) -> In c rows)).
Proof.
  unfold after, answer, read_expenses, read_categories,
    crud_get_user_expenses, crud_get_user_categories, bindB, retB.
  rewrite !offset_limit_all_run.
  destruct ((skip <? 0) || (limit <? 0) || (2 ^ 63 <=? skip)
            || (2 ^ 63 <=? limit)) eqn:Hneg; cbn [fst snd].
  - repeat split; try discriminate.
  - assert (Hl : 0 <= limit).
    { destruct (Z.lt_ge_cases limit 0) as [Hlt | Hge]; [|exact Hge].
      assert (Hbad : (skip <? 0) || (limit <? 0) || (2 ^ 63 <=? skip)
                     || (2 ^ 63 <=? limit) = true)
        by (apply offset_limit_refused; auto).
      rewrite Hneg in Hbad. discriminate. }
    split; [reflexivity|]. split; [reflexivity|].
    split.
    { intros Hbad. apply offset_limit_refused in Hbad.
      rewrite Hneg in Hbad. discriminate. }
    split; intros rows [= <-].
    + destruct (page_facts skip limit
                  (filter (fun x => owned_by (User.id current_user)
                                      (Expense.owner_id x)) (expenses s)) Hl)
        as (Hin & Hlen & Hall).
      split; [|split; [exact Hlen|]].
      * intros x Hx. apply Hin in Hx. apply filter_In in Hx.
        destruct Hx as [Hx Ho]. now apply owned_by_true in Ho.
      * intros H0 Hcover x Hx Ho. rewrite (Hall H0 Hcover).
        apply filter_In. split; [exact Hx | now apply owned_by_true].
    + destruct (page_facts skip limit
                  (filter (fun c => owned_by (User.id current_user)
                                      (Category.owner_id c)) (categories s))
                  Hl) as (Hin & Hlen & Hall).
      split; [|split; [exact Hlen|]].
      * intros c Hc. apply Hin in Hc. apply filter_In in Hc.
        destruct Hc as [Hc Ho]. now apply owned_by_true in Ho.
      * intros H0 Hcover c Hc Ho. rewrite (Hall H0 Hcover).
        apply filter_In. split; [exact Hc | now apply owned_by_true].
Qed.

Lemma listings_show_own_rows_witness :
  answer (read_expenses 0 100 carol) carol_backend = Ok [lunch] /\
  answer (read_expenses 0 100 dave) carol_backend = Ok [] /\
  answer (read_categories (-1) 100 carol) carol_backend = Fail DataError /\
  answer (read_expenses 0 (2 ^ 63) carol) carol_backend = Fail DataError /\
  In lunch [lunch].
Proof.
  destruct (listings_show_own_rows 0 100 carol carol_backend)
    as (_ & _ & _ & Hrows & _).
  destruct (listings_show_own_rows (-1) 100 carol carol_backend)
    as (_ & _ & Hneg & _).
  destruct (listings_show_own_rows 0 (2 ^ 63) carol carol_backend)
    as (_ & _ & Hbig & _).
  assert (Hc : answer (read_expenses 0 100 carol) carol_backend = Ok [lunch])
    by reflexivity.
  split; [exact Hc|]. split; [reflexivity|]. split; [|split].
  - apply Hneg. left. reflexivity.
  - apply Hbig. right. right. right. apply Z.le_refl.
  - destruct (Hrows [lunch] Hc) as (_ & _ & Hall).
    apply Hall; [reflexivity | vm_compute; discriminate | now left |
                 reflexivity].
Defined.

(** ** Writing categories and expenses *)

Lemma user_exists_In (u : User.t) (s : Backend) :
  In u (users (world s)) -> user_exists (User.id u) s = true.
Proof.
  intros Hin. unfold user_exists. apply existsb_exists.
  exists u. split; [exact Hin | apply Z.eqb_refl].
Qed.

Lemma category_exists_spec (category_id : option Z) (s : Backend) :
  category_exists category_id s = true <->
  category_id = None \/
  exists k, In k (categories s) /\ category_id = Some (Category.id k).
Proof.
  unfold category_exists. destruct category_id as [c|].
  - rewrite existsb_exists. split.
    + intros (k & Hin & Hk). right. exists k. split; [exact Hin|].
      apply Z.eqb_eq in Hk. now rewrite Hk.
    + intros [H | (k & Hin & [= ->])]; [discriminate|].
      exists k. split; [exact Hin | apply Z.eqb_refl].
  - split; [now left | reflexivity].
Qed.

Lemma first_filter_fresh_key (xs : list Expense.t) (x : Expense.t)
    (expense_id : Z) :
  Expense.id x = expense_id ->
  (forall y, In y xs -> Expense.id y <> expense_id) ->
  Query.first (filter (fun y => Expense.id y =? expense_id) (xs ++ [x]))
  = Some x.
Proof.
  intros Hx Hfresh. apply first_filter_snoc; [|now apply Z.eqb_eq].
  intros y Hy. apply Z.eqb_neq. now apply Hfresh.
Qed.

(** X20.  The function [create_expense] stores the expense under the next
    key with the current user as owner when its category is absent or is
    the key of a category, whoever owns that category.  It raises an
    IntegrityError and stores nothing when the category fits the 32 bits of
    the column and is the key of no category, and a DataError and stores
    nothing when the category does not fit the column.  An expense just
    stored is found by [crud.get_expense] under its key (no older expense
    carrying a key beyond the sequence), and [read_expense] on that key
    still answers 500.  (This is about the function; the route POST
    /expenses/ checks what the function returns against its
    [response_model] before it answers.) *)
Theorem create_expense_outcomes (expense : ExpenseCreate.t)
    (current_user : User.t) (s : Backend) :
  let row :=
    Expense.mk (expenses_id_seq s + 1) (ExpenseCreate.amount expense)
      (ExpenseCreate.description expense) (ExpenseCreate.date expense)
      (ExpenseCreate.category_id expense) (Some (User.id current_user)) in
  In current_user (users (world s)) ->
  (fits_integer (ExpenseCreate.category_id expense) = true ->
   (ExpenseCreate.category_id expense = None \/
    exists k, In k (categories s) /\
              ExpenseCreate.category_id expense = Some (Category.id k)) ->
   create_expense expense current_user s =
     (Ok row, with_expenses (expenses s ++ [row]) (expenses_id_seq s + 1) s) /\
   (expense_keys_drawn s ->
    answer (crud_get_expense (expenses_id_seq s + 1))
      (after (create_expense expense current_user) s) = Ok (Some row) /\
    answer (read_expense (expenses_id_seq s + 1) current_user)
      (after (create_expense expense current_user) s) =
    Fail (HTTP (mkHTTPException 500
                  (expense_retrieval_failed (expenses_id_seq s + 1)) [])))) /\
  (fits_integer (ExpenseCreate.category_id expense) = true ->
   (forall k, In k (categories s) ->
              ExpenseCreate.category_id expense <> Some (Category.id k)) ->
   ExpenseCreate.category_id expense <> None ->
   answer (create_expense expense current_user) s = Fail IntegrityError /\
   expenses (after (create_expense expense current_user) s) = expenses s) /\
  (forall c, ExpenseCreate.category_id expense = Some c ->
             c < - 2 ^ 31 \/ 2 ^ 31 <= c ->
   answer (create_expense expense current_user) s = Fail DataError /\
   expenses (after (create_expense expense current_user) s) = expenses s).
Proof.
  cbv zeta. intros Huser.
  unfold answer, after, create_expense, crud_create_expense, add_Expense.
  rewrite !(user_exists_In _ _ Huser). cbn [andb].
  split; [|split].
  - intros Hfits Hcat. apply category_exists_spec in Hcat.
    rewrite !Hfits, !Hcat. cbn [negb]. split; [reflexivity|].
    intros Hkeys. cbn [snd].
    assert (Hfresh : forall y, In y (expenses s) ->
                       Expense.id y <> expenses_id_seq s + 1).
    { intros y Hy. specialize (Hkeys y Hy). lia. }
    rewrite read_expense_run, crud_get_expense_run.
    unfold with_expenses. cbn [expenses fst].
    rewrite first_filter_fresh_key; [| reflexivity | exact Hfresh].
    split; reflexivity.
  - intros Hfits Hnone Hsome. rewrite !Hfits. cbn [negb].
    replace (category_exists (ExpenseCreate.category_id expense) s)
      with false; [split; reflexivity|].
    symmetry. apply not_true_is_false. intros Hex.
    apply category_exists_spec in Hex.
    destruct Hex as [Hex | (k & Hin & Hk)]; [contradiction|].
    now apply (Hnone k Hin).
  - intros c Hc Hrange. rewrite Hc.
    replace (fits_integer (Some c)) with false; [split; reflexivity|].
    symmetry. unfold fits_integer, in_integer_range.
    apply andb_false_iff. rewrite Z.leb_gt, Z.ltb_ge. lia.
Qed.

(** Dave files a dinner under carol's category 3; a category 2^31 is
    refused. *)
Lemma create_expense_outcomes_witness :
  Category.owner_id groceries = Some (User.id carol) /\
  answer (create_expense dinner dave)
    (after (signup plain_hash dave_signup) carol_backend) =
  Ok (Expense.mk 8 (ExpenseCreate.amount dinner) (Some "dinner"%string)
        738001 (Some 3) (Some 2)) /\
  answer (create_expense
            (ExpenseCreate.mk (ExpenseCreate.amount dinner) None 738001
               (Some (2 ^ 31))) dave)
    (after (signup plain_hash dave_signup) carol_backend) = Fail DataError /\
  answer (create_expense
            (ExpenseCreate.mk (ExpenseCreate.amount dinner) None 738001
               (Some 4)) dave)
    (after (signup plain_hash dave_signup) carol_backend) =
    Fail IntegrityError.
Proof.
  split; [reflexivity|].
  assert (Hdave : In dave
                    (users (world (after (signup plain_hash dave_signup)
                                     carol_backend))))
    by (right; now left).
  destruct (create_expense_outcomes dinner dave
              (after (signup plain_hash dave_signup) carol_backend) Hdave)
    as (Hstored & _).
  destruct (create_expense_outcomes
              (ExpenseCreate.mk (ExpenseCreate.amount dinner) None 738001
                 (Some (2 ^ 31))) dave
              (after (signup plain_hash dave_signup) carol_backend) Hdave)
    as (_ & _ & Hrange).
  destruct (create_expense_outcomes
              (ExpenseCreate.mk (ExpenseCreate.amount dinner) None 738001
                 (Some 4)) dave
              (after (signup plain_hash dave_signup) carol_backend) Hdave)
    as (_ & Hmissing & _).
  split; [|split].
  - unfold answer. rewrite (proj1 (Hstored eq_refl (or_intror
      (ex_intro _ groceries (conj (or_introl eq_refl) eq_refl))))).
    reflexivity.
  - apply (Hrange (2 ^ 31) eq_refl). right. apply Z.le_refl.
  - apply Hmissing; [reflexivity | | discriminate].
    intros k [<-|[]]. vm_compute. discriminate.
Defined.

(** X21.  The function [create_category] appends the category under the
    next key with the current user as owner, and the function
    [read_categories] for that user then returns it when nothing is skipped
    and the limit covers the user's categories.  (This is about the two
    functions; the routes POST /categories/ and GET /categories/ check what
    the functions return against their [response_model] before they
    answer.) *)
Theorem create_category_then_listed (category : CategoryCreate.t)
    (current_user : User.t) (limit : Z) (s : Backend) :
  let row :=
    Category.mk (categories_id_seq s + 1) (CategoryCreate.name category)
      (CategoryCreate.description category) (Some (User.id current_user)) in
  In current_user (users (world s)) ->
  Z.of_nat (List.length
    (filter (fun c => owned_by (User.id current_user) (Category.owner_id c))
       (categories s))) < limit ->
  limit < 2 ^ 63 ->
  create_category category current_user s =
    (Ok row,
     with_categories (categories s ++ [row]) (categories_id_seq s + 1) s) /\
  exists rows,
    answer (read_categories 0 limit current_user)
      (after (create_category category current_user) s) = Ok rows /\
    In row rows.
Proof.
  cbv zeta. intros Huser Hlimit Hbound.
  unfold after, create_category, crud_create_category, add_Category.
  rewrite !(user_exists_In _ _ Huser).
  split; [reflexivity|]. cbn [snd].
  set (row := Category.mk (categories_id_seq s + 1)
                (CategoryCreate.name category)
                (CategoryCreate.description category)
                (Some (User.id current_user))).
  exists (filter (fun c => owned_by (User.id current_user)
                             (Category.owner_id c)) (categories s ++ [row])).
  assert (Hl : 0 <= limit) by lia.
  split.
  - unfold answer, read_categories, crud_get_user_categories, bindB, retB.
    rewrite offset_limit_all_run.
    replace ((0 <? 0) || (limit <? 0) || (2 ^ 63 <=? 0) || (2 ^ 63 <=? limit))
      with false.
    2: { symmetry. apply not_true_is_false. intros Hbad.
         apply offset_limit_refused in Hbad. lia. }
    unfold with_categories. cbn [categories fst]. f_equal.
    apply (page_facts 0 limit _ Hl); [reflexivity|].
    rewrite filter_app, length_app. cbn [filter row Category.owner_id owned_by].
    rewrite Z.eqb_refl. cbn [List.length]. lia.
  - apply filter_In. split; [apply in_or_app; right; now left|].
    apply owned_by_true. reflexivity.
Qed.

Lemma create_category_then_listed_witness :
  answer (read_categories 0 100 carol)
    (after (create_category travel carol) carol_backend) =
  Ok [groceries; Category.mk 4 "travel" None (Some 1)].
Proof.
  destruct (create_category_then_listed travel carol 100 carol_backend)
    as (_ & rows & Hrows & _).
  - now left.
  - vm_compute. reflexivity.
  - vm_compute. reflexivity.
  - reflexivity.
Defined.

Lemma crud_update_expense_run (expense_id : Z) (expense : ExpenseCreate.t)
    (s : Backend) :
  crud_update_expense expense_id expense s =
  match Query.first (filter (fun x => Expense.id x =? expense_id)
                       (expenses s)) with
  | None =>
      (Fail (AttributeError "'NoneType' object has no attribute 'amount'"), s)
  | Some x =>
      if category_exists (ExpenseCreate.category_id expense) s then
        (Ok (set_fields expense x),
         with_expenses
           (map (fun y => if Expense.id y =? Expense.id x
                          then set_fields expense x else y) (expenses s))
           (expenses_id_seq s) s)
      else (Fail IntegrityError, s)
  end.
Proof.
  unfold crud_update_expense, bindB. rewrite crud_get_expense_run.
  destruct (Query.first _); reflexivity.
Qed.

Lemma crud_delete_expense_run (expense_id : Z) (s : Backend) :
  crud_delete_expense expense_id s =
  match Query.first (filter (fun x => Expense.id x =? expense_id)
                       (expenses s)) with
  | None => (Fail UnmappedInstanceError, s)
  | Some x =>
      (Ok tt,
       with_expenses
         (filter (fun y => negb (Expense.id y =? Expense.id x)) (expenses s))
         (expenses_id_seq s) s)
  end.
Proof.
  unfold crud_delete_expense, bindB. rewrite crud_get_expense_run.
  destruct (Query.first _); reflexivity.
Qed.

Lemma lookup_after_update (expense_id : Z) (expense : ExpenseCreate.t)
    (x : Expense.t) (xs : list Expense.t) :
  Expense.id x = expense_id ->
  Query.first (filter (fun y => Expense.id y =? expense_id) xs) = Some x ->
  Query.first
    (filter (fun y => Expense.id y =? expense_id)
       (map (fun y => if Expense.id y =? Expense.id x
                      then set_fields expense x else y) xs)) =
  Some (set_fields expense x).
Proof.
  intros <-. induction xs as [|y xs IH]; [discriminate|].
  cbn [filter map].
  destruct (Expense.id y =? Expense.id x) eqn:Hy.
  - intros _. cbn [filter set_fields Expense.id]. rewrite Z.eqb_refl.
    reflexivity.
  - cbn [filter]. rewrite Hy. exact IH.
Qed.

(** X22.  [crud.update_expense] and [crud.delete_expense] on a key that no
    expense carries raise (an AttributeError, the session's
    UnmappedInstanceError) and change nothing.  On the key of an expense,
    an update whose category is absent or exists returns the row with its
    key and owner kept and the four fields of the body, and
    [crud.get_expense] then finds that row; a delete removes the row, after
    which [crud.get_expense] finds nothing under the key; in both cases the
    rows of other keys are the same as before. *)
Theorem expense_update_and_delete (expense_id : Z)
    (expense : ExpenseCreate.t) (s : Backend) :
  ((forall x, In x (expenses s) -> Expense.id x <> expense_id) ->
   crud_update_expense expense_id expense s =
     (Fail (AttributeError "'NoneType' object has no attribute 'amount'"), s) /\
   crud_delete_expense expense_id s = (Fail UnmappedInstanceError, s)) /\
  (forall x,
     answer (crud_get_expense expense_id) s = Ok (Some x) ->
     (category_exists (ExpenseCreate.category_id expense) s = true ->
      answer (crud_update_expense expense_id expense) s =
        Ok (set_fields expense x) /\
      answer (crud_get_expense expense_id)
        (after (crud_update_expense expense_id expense) s) =
        Ok (Some (set_fields expense x)) /\
      forall y, Expense.id y <> expense_id ->
        (In y (expenses (after (crud_update_expense expense_id expense) s))
         <-> In y (expenses s))) /\
     answer (crud_delete_expense expense_id) s = Ok tt /\
     answer (crud_get_expense expense_id)
       (after (crud_delete_expense expense_id) s) = Ok None /\
     forall y, Expense.id y <> expense_id ->
       (In y (expenses (after (crud_delete_expense expense_id) s))
        <-> In y (expenses s))).
Proof.
  unfold answer, after.
  rewrite crud_update_expense_run, crud_delete_expense_run,
    crud_get_expense_run.
  cbn [fst].
  split.
  - intros Hnone. rewrite (lookup_expense_None _ _ Hnone). split; reflexivity.
  - intros x [= Hx]. rewrite Hx.
    pose proof (first_filter_In _ _ _ Hx) as [Hin Hid].
    apply Z.eqb_eq in Hid.
    split; [intros Hcat; rewrite Hcat; cbn [fst snd]; split; [reflexivity|];
            split |].
    + rewrite crud_get_expense_run. unfold with_expenses. cbn [expenses fst].
      f_equal. now apply lookup_after_update.
    + intros y Hy. unfold with_expenses. cbn [expenses].
      rewrite in_map_iff. split.
      * intros (z & Hz & Hinz).
        destruct (Expense.id z =? Expense.id x) eqn:Hzx.
        -- subst y. cbn [set_fields Expense.id] in Hy. contradiction.
        -- now subst y.
      * intros Hiny. exists y. split; [|exact Hiny].
        replace (Expense.id y =? Expense.id x) with false; [reflexivity|].
        symmetry. apply Z.eqb_neq. now rewrite Hid.
    + cbn [fst snd]. split; [reflexivity|]. split.
      * rewrite crud_get_expense_run. unfold with_expenses.
        cbn [expenses fst]. f_equal. apply first_filter_None.
        intros y Hy. apply filter_In in Hy. destruct Hy as [_ Hy].
        rewrite Hid in Hy. now apply negb_true_iff in Hy.
      * intros y Hy. unfold with_expenses. cbn [expenses].
        rewrite filter_In. split; [now intros [H _]|].
        intros Hiny. split; [exact Hiny|]. apply negb_true_iff.
        apply Z.eqb_neq. now rewrite Hid.
Qed.

Lemma expense_update_and_delete_witness :
  crud_delete_expense 8 carol_backend =
    (Fail UnmappedInstanceError, carol_backend) /\
  answer (crud_update_expense 7 dinner) carol_backend =
    Ok (Expense.mk 7 (ExpenseCreate.amount dinner) (Some "dinner"%string)
          738001 (Some 3) (Some 1)) /\
  answer (crud_get_expense 7) (after (crud_delete_expense 7) carol_backend) =
    Ok None.
Proof.
  destruct (expense_update_and_delete 8 dinner carol_backend)
    as [Hmissing _].
  destruct (expense_update_and_delete 7 dinner carol_backend)
    as [_ Hfound].
  destruct (Hfound lunch eq_refl) as (Hupdate & _ & Hgone & _).
  split; [|split].
  - apply Hmissing. intros x [<-|[]]. vm_compute. discriminate.
  - apply Hupdate. reflexivity.
  - exact Hgone.
Defined.
